(** * ABJ Tutorial bot: registration, approval and access gate

    A shallow embedding of [bot.py].  The process-wide dictionaries of
    [context.bot_data] are finite maps, [context.user_data] is a record of
    the keys the handlers use, and every handler is a computation in a small
    state-and-exception monad that also records the calls made to the chat
    transport.

    Conventions of the model.
    - A transport call written inside a [try] block of the source may raise:
      whether it does is decided by an oracle ([fails]) indexed by the number
      of fallible calls made so far in the handler run.  A transport call
      written outside every [try] block is taken to return, with two
      exceptions: the confirmation that [receive_screenshot] sends to the
      user and the failure notice of [send_reply_to_user] stand between a
      write to the bot data and the clearing of the session, and may raise
      as well; the exception then leaves the handler, the conversation state
      stays as it was and [error_handler] runs.
    - [main] builds the handler table; routing is the framework's
      (python-telegram-bot): all handlers are in one group, the first one
      whose check accepts the update runs and no other; a
      [ConversationHandler] looks at its entry points when the user has no
      state, else at the handlers of that state and then at the fallbacks,
      and records the state that the callback returns.  Updates are handled
      one at a time.
    - Conversations are keyed by the user id (a private chat with the bot,
      where the chat id is the user id); a user who talks to the bot in
      several chats is not modelled.
    - Texts are strings of 8-bit characters and [strip] removes the ASCII
      whitespace; the further whitespace of Unicode that Python strips is
      not modelled, and a property that depends on it is stated for ASCII
      texts.
    - Dictionaries are finite maps: the order in which Python iterates over
      them is not modelled.
    - Message bodies are kept as a title (the leading literal of the source
      text) with the interpolated values; decorative emoji are dropped from
      button labels. *)

From stdpp Require Import gmap strings list fin_maps pretty.
From Stdlib Require Import Ascii ZArith Lia.
From Stdlib Require String.

Open Scope Z_scope.

(** ** Python string helpers *)

(** [str.split(sep)] for a one-character separator. *)
Fixpoint split_on (sep : ascii) (s : string) : list string :=
  match s with
  | EmptyString => [EmptyString]
  | String c s' =>
      if Ascii.eqb c sep then EmptyString :: split_on sep s'
      else match split_on sep s' with
           | w :: ws => String c w :: ws
           | [] => [String c EmptyString]
           end
  end.

Definition is_space (c : ascii) : bool :=
  let n := nat_of_ascii c in
  ((9 <=? n) && (n <=? 13) || (28 <=? n) && (n <=? 32))%nat.

Fixpoint lstrip (s : string) : string :=
  match s with
  | String c s' => if is_space c then lstrip s' else s
  | EmptyString => EmptyString
  end.

Fixpoint rstrip (s : string) : string :=
  match s with
  | EmptyString => EmptyString
  | String c s' =>
      match rstrip s' with
      | EmptyString => if is_space c then EmptyString else String c EmptyString
      | r => String c r
      end
  end.

(** [str.strip()]. *)
Definition strip (s : string) : string := rstrip (lstrip s).

Definition is_digit (c : ascii) : bool :=
  let n := nat_of_ascii c in ((48 <=? n) && (n <=? 57))%nat.

Fixpoint digits_value (acc : Z) (s : string) : option Z :=
  match s with
  | EmptyString => Some acc
  | String c s' =>
      if is_digit c
      then digits_value (10 * acc + Z.of_nat (nat_of_ascii c - 48)) s'
      else None
  end.

(** [int(s)] on an ASCII string: surrounding whitespace, an optional sign
    and a non-empty run of decimal digits; [None] stands for [ValueError]. *)
Definition py_int (s : string) : option Z :=
  match strip s with
  | String "-"%char (String c r) => Z.opp <$> digits_value 0 (String c r)
  | String "+"%char (String c r) => digits_value 0 (String c r)
  | String c r => digits_value 0 (String c r)
  | EmptyString => None
  end.

(** [s.replace(pat, '')] for a non-empty [pat]: [skip] counts the characters
    of a match still to be dropped. *)
Fixpoint remove_all_go (pat : string) (skip : nat) (s : string) : string :=
  match s with
  | EmptyString => EmptyString
  | String c s' =>
      match skip with
      | S k => remove_all_go pat k s'
      | O =>
          if String.prefix pat s
          then remove_all_go pat (String.length pat - 1)%nat s'
          else String c (remove_all_go pat 0 s')
      end
  end.

Definition remove_all (pat s : string) : string := remove_all_go pat 0 s.

(** Truthiness of an optional string ([None] and [''] are falsy). *)
Definition truthy (o : option string) : bool :=
  match o with
  | Some (String _ _) => true
  | _ => false
  end.

(** Truthiness of an optional integer ([None] and [0] are falsy). *)
Definition truthy_id (o : option Z) : bool :=
  match o with
  | Some z => negb (z =? 0)
  | None => false
  end.

(** ** Data model *)

(** [telegram.User]. *)
Record User := mkUser {
  u_id : Z;
  u_first_name : string;
  u_username : option string;
  u_full_name : string;
}.

(** [telegram.ChatInviteLink]: the link and its [member_limit]; a link
    minted on approval has [member_limit = 1]. *)
Record ChatInviteLink := mkLink {
  link_url : string;
  link_member_limit : option Z;
}.

(** [telegram.Message], with the attributes the handlers read. *)
Record Message := mkMessage {
  m_message_id : Z;
  m_date : string;
  m_chat_id : Z;
  m_text : option string;
  m_photo : list string;
  m_caption : option string;
  m_new_chat_members : list User;
}.

(** [getattr(message, 'invite_link', None)]: a [telegram.Message] has no
    attribute of that name (the link of a join travels in a
    [ChatMemberUpdated], which a [MessageHandler] is never given), so the
    default comes back for every message. *)
Definition message_invite_link (message : Message) : option ChatInviteLink := None.

Inductive Update :=
| MessageUpdate (from : User) (m : Message)
| CallbackUpdate (from : User) (data : string) (m : Message).

Definition effective_user (upd : Update) : User :=
  match upd with
  | MessageUpdate u _ => u
  | CallbackUpdate u _ _ => u
  end.

Definition effective_message (upd : Update) : Message :=
  match upd with
  | MessageUpdate _ m => m
  | CallbackUpdate _ _ m => m
  end.

Definition query_data (upd : Update) : string :=
  match upd with
  | MessageUpdate _ _ => ""
  | CallbackUpdate _ d _ => d
  end.

(** The [user_info] dictionary built in [receive_screenshot]. *)
Record UserInfo := mkUserInfo {
  ui_full_name : option string;
  ui_semester : option string;
  ui_stream : option string;
  ui_gender : option string;
  ui_payment_method : option string;
  ui_username : option string;
  ui_first_name : string;
  ui_user_id : Z;
}.

(** The [pending_info] dictionary: a Review Queue entry. *)
Record PendingInfo := mkPendingInfo {
  pi_user_id : Z;
  pi_username : option string;
  pi_first_name : string;
  pi_full_name : option string;
  pi_semester : option string;
  pi_stream : option string;
  pi_gender : option string;
  pi_payment_method : option string;
  pi_payment_id : string;
  pi_screenshot_file_id : string;
  pi_timestamp : string;
  pi_user_info : UserInfo;
}.

(** A Pending Comment entry of [receive_comment]. *)
Record CommentInfo := mkCommentInfo {
  ci_user_id : Z;
  ci_user_name : option string;
  ci_username : option string;
  ci_semester : option string;
  ci_comment : option string;
  ci_timestamp : string;
}.

(** [context.bot_data]; [main] creates the four dictionaries. *)
Record BotData := mkBotData {
  pending_reviews : gmap Z PendingInfo;
  user_statuses : gmap Z string;
  user_data : gmap Z UserInfo;
  pending_comments : gmap string CommentInfo;
}.

(** [context.user_data] of one user: the keys the handlers store.  A field
    is [None] (or [false]) when the key is absent. *)
Record Session := mkSession {
  registration_in_progress : bool;
  full_name : option string;
  semester : option string;
  stream : option string;
  gender : option string;
  payment_method : option string;
  payment_id : option string;
  announcement_semester : option string;
  reply_comment_id : option string;
  reply_user_id : option Z;
  reply_user_name : option string;
}.

(** [context.user_data.clear()]. *)
Definition cleared : Session :=
  mkSession false None None None None None None None None None None.

(** Environment configuration read at start-up. *)
Record Config := mkConfig {
  ADMIN_IDS : list Z;
  LOG_CHANNEL_ID : option Z;
  MAIN_CHANNEL_ID : option Z;
  CONTACT_USERNAME : option string;
  CONTACT_PHONE : option string;
}.

(** Conversation states: [range(10)] and [ConversationHandler.END]. *)
Definition GET_FULL_NAME : Z := 0.
Definition GET_SEMESTER : Z := 1.
Definition GET_STREAM : Z := 2.
Definition GET_GENDER : Z := 3.
Definition GET_PAYMENT_METHOD : Z := 4.
Definition AWAITING_SCREENSHOT : Z := 5.
Definition ANNOUNCEMENT_SEMESTER : Z := 6.
Definition ANNOUNCEMENT_CONTENT : Z := 7.
Definition ASK_COMMENT : Z := 8.
Definition REPLY_TO_COMMENT : Z := 9.
Definition END : Z := -1.

(** ** Calls to the transport *)

Inductive Arg :=
| AStr (s : string)
| AOpt (o : option string)
| AInt (z : Z)
| ANat (n : nat).

(** A message body: its leading literal and the interpolated values. *)
Record Text := mkText {
  title : string;
  args : list Arg;
}.

Inductive Button :=
| CallbackButton (label data : string)
| UrlButton (label url : string).

Inductive Markup :=
| NoMarkup
| InlineKeyboardMarkup (rows : list (list Button))
| ReplyKeyboardMarkup (rows : list (list string))
| ReplyKeyboardRemove.

Inductive Call :=
| answer (alert : option Text)
| edit_message_text (t : Text) (k : Markup)
| delete_message
| reply_text (t : Text) (k : Markup)
| send_message (chat : Z) (t : Text) (k : Markup)
| send_photo (chat : Z) (photo : string) (caption : Text) (k : Markup)
| create_chat_invite_link (chat : option Z) (member_limit : Z)
| ban_chat_member (chat user : Z)
| unban_chat_member (chat user : Z).

(** ** The handler monad *)

(** The environment of one handler run: [fails n] tells whether the [n]-th
    fallible transport call raises, [minted n] is the link returned when
    that call is [create_chat_invite_link]. *)
Record Env := mkEnv {
  fails : nat -> bool;
  minted : nat -> string;
}.

(** What a handler run reads and writes: the shared [bot_data], the acting
    user's [user_data], the transport calls made so far (with [true] when
    the call returned) and the number of fallible calls. *)
Record Run := mkRun {
  run_bot : BotData;
  run_user : Session;
  run_log : list (Call * bool);
  run_calls : nat;
}.

(** Normal return or a raised exception. *)
Inductive Res (A : Type) :=
| Ok (a : A)
| Exn.
Arguments Ok {A} a.
Arguments Exn {A}.

Definition M (A : Type) : Type := Env -> Run -> Res A * Run.

Definition ret {A} (a : A) : M A := fun _ r => (Ok a, r).

Definition bind {A B} (m : M A) (k : A -> M B) : M B :=
  fun e r =>
    match m e r with
    | (Ok a, r') => k a e r'
    | (Exn, r') => (Exn, r')
    end.

Definition raise {A} : M A := fun _ r => (Exn, r).

(** [try: m except Exception: h]. *)
Definition try_except {A} (m h : M A) : M A :=
  fun e r =>
    match m e r with
    | (Ok a, r') => (Ok a, r')
    | (Exn, r') => h e r'
    end.

Declare Scope handler_scope.
Delimit Scope handler_scope with H.
Notation "'let*' x ':=' m 'in' k" := (bind m (fun x => k))
  (at level 10, x name, m at level 100, k at level 200) : handler_scope.
Notation "m '>>' k" := (bind m (fun _ => k))
  (at level 100, k at level 200, right associativity) : handler_scope.
Open Scope handler_scope.

(** A transport call outside every [try]. *)
Definition emit (c : Call) : M unit :=
  fun _ r =>
    (Ok tt, mkRun (run_bot r) (run_user r) (run_log r ++ [(c, true)]) (run_calls r)).

(** A transport call that may raise: inside a [try] it is wrapped in
    [try_except], outside it the exception leaves the handler. *)
Definition attempt (c : Call) : M unit :=
  fun e r =>
    let ok := negb (fails e (run_calls r)) in
    let r' := mkRun (run_bot r) (run_user r) (run_log r ++ [(c, ok)]) (S (run_calls r)) in
    (if ok then Ok tt else Exn, r').

(** [create_chat_invite_link] inside a [try]: the link comes from the
    environment and carries the requested member limit. *)
Definition mint_invite (chat : option Z) (limit : Z) : M ChatInviteLink :=
  fun e r =>
    let n := run_calls r in
    match attempt (create_chat_invite_link chat limit) e r with
    | (Ok _, r') => (Ok (mkLink (minted e n) (Some limit)), r')
    | (Exn, r') => (Exn, r')
    end.

Definition get_bot : M BotData := fun _ r => (Ok (run_bot r), r).

Definition set_bot (b : BotData) : M unit :=
  fun _ r => (Ok tt, mkRun b (run_user r) (run_log r) (run_calls r)).

Definition get_session : M Session := fun _ r => (Ok (run_user r), r).

Definition set_session (s : Session) : M unit :=
  fun _ r => (Ok tt, mkRun (run_bot r) s (run_log r) (run_calls r)).

(** [for x in l: body x]. *)
Fixpoint for_each {A} (l : list A) (body : A -> M unit) : M unit :=
  match l with
  | [] => ret tt
  | x :: l' => body x >> for_each l' body
  end.

(** [d.get(uid, 'none')] on [user_statuses]. *)
Definition status_of (b : BotData) (uid : Z) : string :=
  default "none" (user_statuses b !! uid).

Definition set_status (uid : Z) (st : string) (b : BotData) : BotData :=
  mkBotData (pending_reviews b) (<[uid := st]> (user_statuses b))
            (user_data b) (pending_comments b).

Definition is_admin (cfg : Config) (uid : Z) : bool :=
  bool_decide (uid ∈ ADMIN_IDS cfg).

Definition admin_menu : Markup :=
  ReplyKeyboardMarkup
    [["Send Announcement"; "View Statistics"]; ["Clear Pending"; "View Questions"]].

Definition user_menu : Markup :=
  ReplyKeyboardMarkup [["Ask Question"; "Help & Support"]].

Definition cancel_button (data : string) : list Button :=
  [CallbackButton "Cancel" data].

(** [query.data.split('_')[1]]; [IndexError] when there is no second part. *)
Definition second_part (data : string) : M string :=
  match split_on "_"%char data with
  | _ :: x :: _ => ret x
  | _ => raise
  end.

Definition modify_bot (f : BotData -> BotData) : M unit :=
  let* b := get_bot in set_bot (f b).

Definition modify_session (f : Session -> Session) : M unit :=
  let* s := get_session in set_session (f s).

(** [context.user_data[key] = v], one function per key. *)
Definition set_registration_in_progress (s : Session) : Session :=
  mkSession true (full_name s) (semester s) (stream s) (gender s)
    (payment_method s) (payment_id s) (announcement_semester s)
    (reply_comment_id s) (reply_user_id s) (reply_user_name s).

Definition set_full_name (v : string) (s : Session) : Session :=
  mkSession (registration_in_progress s) (Some v) (semester s) (stream s)
    (gender s) (payment_method s) (payment_id s) (announcement_semester s)
    (reply_comment_id s) (reply_user_id s) (reply_user_name s).

Definition set_semester (v : string) (s : Session) : Session :=
  mkSession (registration_in_progress s) (full_name s) (Some v) (stream s)
    (gender s) (payment_method s) (payment_id s) (announcement_semester s)
    (reply_comment_id s) (reply_user_id s) (reply_user_name s).

Definition set_stream (v : string) (s : Session) : Session :=
  mkSession (registration_in_progress s) (full_name s) (semester s) (Some v)
    (gender s) (payment_method s) (payment_id s) (announcement_semester s)
    (reply_comment_id s) (reply_user_id s) (reply_user_name s).

Definition set_gender (v : string) (s : Session) : Session :=
  mkSession (registration_in_progress s) (full_name s) (semester s) (stream s)
    (Some v) (payment_method s) (payment_id s) (announcement_semester s)
    (reply_comment_id s) (reply_user_id s) (reply_user_name s).

Definition set_payment_method (v : string) (s : Session) : Session :=
  mkSession (registration_in_progress s) (full_name s) (semester s) (stream s)
    (gender s) (Some v) (payment_id s) (announcement_semester s)
    (reply_comment_id s) (reply_user_id s) (reply_user_name s).

Definition set_payment_id (v : string) (s : Session) : Session :=
  mkSession (registration_in_progress s) (full_name s) (semester s) (stream s)
    (gender s) (payment_method s) (Some v) (announcement_semester s)
    (reply_comment_id s) (reply_user_id s) (reply_user_name s).

Definition set_announcement_semester (v : string) (s : Session) : Session :=
  mkSession (registration_in_progress s) (full_name s) (semester s) (stream s)
    (gender s) (payment_method s) (payment_id s) (Some v)
    (reply_comment_id s) (reply_user_id s) (reply_user_name s).

Definition set_reply (cid : string) (uid : Z) (name : option string)
    (s : Session) : Session :=
  mkSession (registration_in_progress s) (full_name s) (semester s) (stream s)
    (gender s) (payment_method s) (payment_id s) (announcement_semester s)
    (Some cid) (Some uid) name.

(** [d.get(key, dflt)] on the record of a user that may be missing: the
    default is used only when the whole record is missing. *)
Definition field_or (dflt : string) (f : UserInfo -> option string)
    (o : option UserInfo) : option string :=
  match o with
  | None => Some dflt
  | Some i => f i
  end.

Definition T0 (s : string) : Text := mkText s [].

(** ** Handlers *)

Section Handlers.

Variable cfg : Config.

(** [error_handler]: tells every admin, each send guarded. *)
Definition error_handler : M unit :=
  for_each (ADMIN_IDS cfg) (fun admin_id =>
    try_except (attempt (send_message admin_id (T0 "Bot error") NoMarkup)) (ret tt)).

(** [start]. *)
Definition start (upd : Update) : M (option Z) :=
  let user := effective_user upd in
  let* b := get_bot in
  let user_status := status_of b (u_id user) in
  if is_admin cfg (u_id user) then
    emit (reply_text (mkText "Admin Control Panel" [AStr (u_first_name user)]) admin_menu) >>
    ret (Some END)
  else if decide (user_status = "approved") then
    let record := user_data b !! u_id user in
    emit (reply_text
            (mkText "Welcome back"
               [AStr (u_first_name user);
                AOpt (field_or "Not specified" ui_semester record);
                AOpt (field_or "Not specified" ui_stream record)])
            user_menu) >>
    ret (Some END)
  else if decide (user_status = "pending") then
    emit (reply_text (mkText "Payment Under Review" [AStr (u_first_name user)])
            ReplyKeyboardRemove) >>
    ret (Some END)
  else
    emit (reply_text (mkText "Welcome to ABJ Tutorial Bot" [AStr (u_first_name user)])
            (InlineKeyboardMarkup [[CallbackButton "Get Started" "get_started"]])) >>
    ret (Some END).

(** [handle_get_started_callback]. *)
Definition handle_get_started_callback (upd : Update) : M (option Z) :=
  let user := effective_user upd in
  emit (answer None) >>
  let* b := get_bot in
  let user_status := status_of b (u_id user) in
  if decide (user_status = "approved") then
    emit (edit_message_text (T0 "You are already an approved member!") NoMarkup) >>
    emit (reply_text (T0 "Choose an option below:") user_menu) >>
    ret (Some END)
  else if decide (user_status = "pending") then
    emit (edit_message_text
            (T0 "Your payment is under review. Please wait for approval.") NoMarkup) >>
    ret (Some END)
  else
    emit (edit_message_text
            (mkText "Welcome to ABJ Tutorial Registration!" [AStr (u_first_name user)])
            NoMarkup) >>
    modify_session set_registration_in_progress >>
    ret (Some GET_FULL_NAME).

(** [ask_question_start]. *)
Definition ask_question_start (upd : Update) : M (option Z) :=
  emit (reply_text (T0 "Ask a Question")
          (InlineKeyboardMarkup [cancel_button "cancel_question"])) >>
  ret (Some ASK_COMMENT).

(** [show_help_support]. *)
Definition show_help_support (upd : Update) : M (option Z) :=
  emit (reply_text
          (mkText "ABJ Tutorial Help & Support"
             [AOpt (CONTACT_USERNAME cfg); AOpt (CONTACT_PHONE cfg)])
          user_menu) >>
  ret None.

(** [announcement_start]. *)
Definition announcement_start (upd : Update) : M (option Z) :=
  emit (reply_text (T0 "Send Announcement")
          (InlineKeyboardMarkup
             [[CallbackButton "First Semester" "announce_First Semester"];
              [CallbackButton "Second Semester" "announce_Second Semester"];
              [CallbackButton "All Students" "announce_all"];
              cancel_button "cancel_announcement"])) >>
  ret (Some ANNOUNCEMENT_SEMESTER).

(** The [semester_counts] dictionary of [view_stats]. *)
Definition semester_counts (b : BotData) : gmap (option string) nat :=
  map_fold
    (fun user_id data counts =>
       if decide (user_statuses b !! user_id = Some "approved")
       then <[ui_semester data := S (default 0%nat (counts !! ui_semester data))]> counts
       else counts)
    ∅ (user_data b).

(** [view_stats]. *)
Definition view_stats (upd : Update) : M (option Z) :=
  let* b := get_bot in
  let statuses := map_to_list (user_statuses b) in
  let total_users := length statuses in
  let approved_users :=
    length (filter (fun p => p.2 = "approved") statuses) in
  let pending_users :=
    length (filter (fun p => p.2 = "pending") statuses) in
  emit (reply_text
          (mkText "Bot Statistics Dashboard"
             ([ANat total_users; ANat approved_users; ANat pending_users;
               ANat (size (pending_reviews b)); ANat (size (pending_comments b))]
              ++ flat_map (fun p => [AOpt p.1; ANat p.2])
                   (map_to_list (semester_counts b))))
          admin_menu) >>
  ret None.

(** [context.bot_data['pending_reviews'] = {}]. *)
Definition clear_reviews (b : BotData) : BotData :=
  mkBotData ∅ (user_statuses b) (user_data b) (pending_comments b).

(** [clear_pending_requests]. *)
Definition clear_pending_requests (upd : Update) : M (option Z) :=
  let* b := get_bot in
  let pending_count := size (pending_reviews b) in
  modify_bot clear_reviews >>
  emit (reply_text (mkText "Cleared" [ANat pending_count]) admin_menu) >>
  ret None.

(** [view_pending_questions]. *)
Definition view_pending_questions (upd : Update) : M (option Z) :=
  let* b := get_bot in
  let comments := map_to_list (pending_comments b) in
  match comments with
  | [] => emit (reply_text (T0 "No pending questions.") admin_menu) >> ret None
  | _ =>
      for_each (take 5 comments) (fun p =>
        emit (reply_text
                (mkText "Pending Question"
                   [AOpt (ci_user_name p.2); AOpt (ci_username p.2);
                    AOpt (ci_semester p.2); AOpt (ci_comment p.2)])
                (InlineKeyboardMarkup [[CallbackButton "Reply" ("reply_" +:+ p.1)]]))) >>
      ret None
  end.

(** [handle_menu_buttons]: the value returned by the sub-handler is dropped. *)
Definition handle_menu_buttons (upd : Update) : M (option Z) :=
  let user := effective_user upd in
  let text := m_text (effective_message upd) in
  let* b := get_bot in
  let user_status := status_of b (u_id user) in
  if decide (text = Some "Ask Question") then
    if decide (user_status = "approved") then
      ask_question_start upd >> ret None
    else
      emit (reply_text (T0 "This feature is only available for approved members.")
              NoMarkup) >>
      ret None
  else if decide (text = Some "Help & Support") then
    show_help_support upd >> ret None
  else if is_admin cfg (u_id user) then
    if decide (text = Some "Send Announcement") then announcement_start upd >> ret None
    else if decide (text = Some "View Statistics") then view_stats upd >> ret None
    else if decide (text = Some "Clear Pending") then clear_pending_requests upd >> ret None
    else if decide (text = Some "View Questions") then view_pending_questions upd >> ret None
    else ret None
  else ret None.

(** *** Registration conversation *)

(** [get_full_name]. *)
Definition get_full_name (upd : Update) : M (option Z) :=
  match m_text (effective_message upd) with
  | None => raise
  | Some text =>
      let user_full_name := strip text in
      if decide (user_full_name = "") then
        emit (reply_text (T0 "Please enter a valid name.") NoMarkup) >>
        ret (Some GET_FULL_NAME)
      else
        modify_session (set_full_name user_full_name) >>
        emit (reply_text (mkText "Welcome" [AStr user_full_name])
                (InlineKeyboardMarkup
                   [[CallbackButton "First Semester" "semester_First Semester"];
                    [CallbackButton "Second Semester" "semester_Second Semester"];
                    cancel_button "cancel_registration"])) >>
        ret (Some GET_SEMESTER)
  end.

(** The stream keyboard built in [get_semester], before the cancel row. *)
Definition stream_keyboard (semester : string) : list (list Button) :=
  if decide (semester = "First Semester") then
    [[CallbackButton "Social Science" "stream_Social Science"];
     [CallbackButton "Natural Science" "stream_Natural Science"]]
  else if decide (semester = "Second Semester") then
    [[CallbackButton "Pre-Engineering" "stream_Pre-Engineering"];
     [CallbackButton "Other Natural Science" "stream_Other Natural Science"];
     [CallbackButton "Social Science" "stream_Social Science"];
     [CallbackButton "Health Science" "stream_Health"]]
  else [].

(** [get_semester]. *)
Definition get_semester (upd : Update) : M (option Z) :=
  emit (answer None) >>
  let* semester := second_part (query_data upd) in
  modify_session (set_semester semester) >>
  let keyboard := stream_keyboard semester ++ [cancel_button "cancel_registration"] in
  emit (edit_message_text (mkText "You selected" [AStr semester])
          (InlineKeyboardMarkup keyboard)) >>
  ret (Some GET_STREAM).

(** [get_stream]. *)
Definition get_stream (upd : Update) : M (option Z) :=
  emit (answer None) >>
  let* stream := second_part (query_data upd) in
  modify_session (set_stream stream) >>
  emit (edit_message_text (mkText "You selected" [AStr stream])
          (InlineKeyboardMarkup
             [[CallbackButton "Male" "gender_Male"];
              [CallbackButton "Female" "gender_Female"];
              cancel_button "cancel_registration"])) >>
  ret (Some GET_GENDER).

(** [get_gender]. *)
Definition get_gender (upd : Update) : M (option Z) :=
  emit (answer None) >>
  let* gender := second_part (query_data upd) in
  modify_session (set_gender gender) >>
  emit (edit_message_text (mkText "You selected" [AStr gender])
          (InlineKeyboardMarkup
             [[CallbackButton "Telebirr" "method_Telebirr"];
              [CallbackButton "CBE" "method_CBE"];
              [CallbackButton "mPesa" "method_mPesa"];
              cancel_button "cancel_registration"])) >>
  ret (Some GET_PAYMENT_METHOD).

(** The (instructions, account) pair of a payment method. *)
Definition payment_instructions (method : string) : string * string :=
  if decide (method = "Telebirr") then
    ("Please transfer 120 birr to:", "0927429565 (ABDULMEJID SEHAB)")
  else if decide (method = "CBE") then
    ("Please transfer 120 birr to:", "1000417007192 (ABDULMEJID SEHAB)")
  else if decide (method = "mPesa") then
    ("Please transfer 120 birr to:", "0927429565 (ABDULMEJID SEHAB)")
  else ("", "").

(** [get_payment_method]; the summary reads the session with
    [context.user_data[key]], a [KeyError] when the key is missing. *)
Definition get_payment_method (upd : Update) : M (option Z) :=
  emit (answer None) >>
  let* method := second_part (query_data upd) in
  modify_session (set_payment_method method) >>
  let instr := payment_instructions method in
  let user_id := u_id (effective_user upd) in
  let pid := "ABJ" +:+ pretty user_id +:+ pretty (m_message_id (effective_message upd)) in
  modify_session (set_payment_id pid) >>
  let* s := get_session in
  match full_name s, semester s, stream s, gender s with
  | Some fn, Some sem, Some str, Some gen =>
      emit (edit_message_text
              (mkText "Registration Summary"
                 [AStr fn; AStr sem; AStr str; AStr gen; AStr method; AStr pid;
                  AStr instr.1; AStr instr.2])
              (InlineKeyboardMarkup [cancel_button "cancel_registration"])) >>
      ret (Some AWAITING_SCREENSHOT)
  | _, _, _, _ => raise
  end.

Definition set_user_data (uid : Z) (info : UserInfo) (b : BotData) : BotData :=
  mkBotData (pending_reviews b) (user_statuses b)
            (<[uid := info]> (user_data b)) (pending_comments b).

Definition set_pending (uid : Z) (info : PendingInfo) (b : BotData) : BotData :=
  mkBotData (<[uid := info]> (pending_reviews b)) (user_statuses b)
            (user_data b) (pending_comments b).

(** [receive_screenshot]; the confirmation is sent outside every [try] and
    after the bot data have been written: when it raises, the session is
    not cleared and no state is returned. *)
Definition receive_screenshot (upd : Update) : M (option Z) :=
  let user := effective_user upd in
  let message := effective_message upd in
  match last (m_photo message) with
  | None =>
      emit (reply_text (T0 "Please send your payment screenshot as a photo.") NoMarkup) >>
      ret (Some AWAITING_SCREENSHOT)
  | Some file_id =>
      let* s := get_session in
      let pid :=
        default ("UNKNOWN_" +:+ pretty (u_id user) +:+ "_" +:+ pretty (m_message_id message))
                (payment_id s) in
      modify_bot (set_status (u_id user) "pending") >>
      let user_info :=
        mkUserInfo (full_name s) (semester s) (stream s) (gender s)
          (payment_method s) (u_username user) (u_first_name user) (u_id user) in
      modify_bot (set_user_data (u_id user) user_info) >>
      let pending_info :=
        mkPendingInfo (u_id user) (u_username user) (u_first_name user)
          (full_name s) (semester s) (stream s) (gender s) (payment_method s)
          pid file_id (m_date message) user_info in
      modify_bot (set_pending (u_id user) pending_info) >>
      let admin_caption :=
        mkText "NEW PAYMENT REQUEST"
          [AStr pid; AStr (u_first_name user); AOpt (u_username user);
           AInt (u_id user); AOpt (full_name s); AOpt (semester s);
           AOpt (stream s); AOpt (payment_method s); AStr (m_date message)] in
      let reply_markup :=
        InlineKeyboardMarkup
          [[CallbackButton "APPROVE" ("approve_" +:+ pretty (u_id user));
            CallbackButton "REJECT" ("reject_" +:+ pretty (u_id user))]] in
      for_each (ADMIN_IDS cfg) (fun admin_id =>
        try_except
          (attempt (send_photo admin_id file_id admin_caption reply_markup))
          (ret tt)) >>
      attempt (reply_text (mkText "Thank you for your submission!" [AStr pid])
                 ReplyKeyboardRemove) >>
      set_session cleared >>
      ret (Some END)
  end.

(** *** Admin approval *)

(** The audit record sent to the log channel. *)
Definition log_message (head : string) (user_id : Z) (info : PendingInfo)
    (admin : User) (date : string) : Text :=
  mkText head
    [AOpt (pi_full_name info); AOpt (pi_username info); AStr (pi_first_name info);
     AInt user_id; AOpt (pi_semester info); AOpt (pi_stream info);
     AOpt (pi_gender info); AOpt (pi_payment_method info);
     AStr (pi_payment_id info); AOpt (u_username admin); AInt (u_id admin);
     AStr date].

(** The guarded block that sends the audit record. *)
Definition send_log (head : string) (user_id : Z) (info : PendingInfo)
    (upd : Update) : M unit :=
  try_except
    (if truthy_id (LOG_CHANNEL_ID cfg) then
       attempt (send_photo (default 0 (LOG_CHANNEL_ID cfg))
                  (pi_screenshot_file_id info)
                  (log_message head user_id info (effective_user upd)
                     (m_date (effective_message upd)))
                  NoMarkup)
     else ret tt)
    (ret tt).

Definition pop_pending (user_id : Z) (b : BotData) : BotData :=
  mkBotData (delete user_id (pending_reviews b)) (user_statuses b)
            (user_data b) (pending_comments b).

(** [action, user_id_str = query.data.split("_")] and [int(user_id_str)];
    [None] when either raises. *)
Definition parse_action (data : string) : option (string * Z) :=
  match split_on "_"%char data with
  | [action; user_id_str] => (fun user_id => (action, user_id)) <$> py_int user_id_str
  | _ => None
  end.

(** The [try] body of [user_approval_handler]. *)
Definition approval_body (upd : Update) : M unit :=
  match parse_action (query_data upd) with
  | None => raise
  | Some (action, user_id) =>
      let* b := get_bot in
      match pending_reviews b !! user_id with
      | None =>
          attempt (edit_message_text
                     (T0 "Request already processed or not found.") NoMarkup)
      | Some info =>
          modify_bot (pop_pending user_id) >>
          if decide (action = "approve") then
            modify_bot (set_status user_id "approved") >>
            send_log "USER APPROVED" user_id info upd >>
            try_except
              (let* invite := mint_invite (MAIN_CHANNEL_ID cfg) 1 in
               attempt (send_message user_id
                          (T0 "PAYMENT APPROVED! WELCOME TO ABJ TUTORIAL!")
                          (InlineKeyboardMarkup
                             [[UrlButton "Join Main Channel" (link_url invite)]])))
              (ret tt) >>
            attempt delete_message
          else if decide (action = "reject") then
            modify_bot (set_status user_id "rejected") >>
            send_log "USER REJECTED" user_id info upd >>
            try_except
              (attempt (send_message user_id (T0 "Payment Review Update") NoMarkup))
              (ret tt) >>
            attempt delete_message
          else ret tt
      end
  end.

(** [user_approval_handler]. *)
Definition user_approval_handler (upd : Update) : M (option Z) :=
  let admin_id := u_id (effective_user upd) in
  if negb (is_admin cfg admin_id) then
    emit (answer (Some (T0 "You are not authorized to perform this action."))) >>
    ret None
  else
    emit (answer None) >>
    try_except (approval_body upd)
      (emit (edit_message_text (T0 "Error processing request. Please try again.")
               NoMarkup)) >>
    ret None.

(** *** Cancel handlers *)

(** [cancel_registration_callback]. *)
Definition cancel_registration_callback (upd : Update) : M (option Z) :=
  emit (answer None) >>
  emit (edit_message_text (T0 "Registration Cancelled") NoMarkup) >>
  set_session cleared >>
  ret (Some END).

(** [cancel_announcement_callback]. *)
Definition cancel_announcement_callback (upd : Update) : M (option Z) :=
  emit (answer None) >>
  emit (edit_message_text (T0 "Announcement Cancelled") admin_menu) >>
  set_session cleared >>
  ret (Some END).

(** [cancel_question_callback]. *)
Definition cancel_question_callback (upd : Update) : M (option Z) :=
  emit (answer None) >>
  emit (edit_message_text (T0 "Question Cancelled") user_menu) >>
  set_session cleared >>
  ret (Some END).

(** [cancel_reply_callback]. *)
Definition cancel_reply_callback (upd : Update) : M (option Z) :=
  emit (answer None) >>
  emit (edit_message_text (T0 "Reply Cancelled") admin_menu) >>
  set_session cleared >>
  ret (Some END).

(** [cancel]. *)
Definition cancel (upd : Update) : M (option Z) :=
  let user := effective_user upd in
  let* b := get_bot in
  let user_status := status_of b (u_id user) in
  (if is_admin cfg (u_id user) then
     emit (reply_text (T0 "Operation cancelled.") admin_menu)
   else if decide (user_status = "approved") then
     emit (reply_text (T0 "Operation cancelled.") user_menu)
   else
     emit (reply_text (T0 "Operation cancelled. Send /start to begin again.") NoMarkup)) >>
  set_session cleared >>
  ret (Some END).

(** *** Questions *)

Definition add_comment (comment_id : string) (entry : CommentInfo)
    (b : BotData) : BotData :=
  mkBotData (pending_reviews b) (user_statuses b) (user_data b)
            (<[comment_id := entry]> (pending_comments b)).

(** [receive_comment]. *)
Definition receive_comment (upd : Update) : M (option Z) :=
  let user := effective_user upd in
  let message := effective_message upd in
  let comment := m_text message in
  let* b := get_bot in
  let record := user_data b !! u_id user in
  let comment_id :=
    "comment_" +:+ pretty (u_id user) +:+ "_" +:+ pretty (m_message_id message) in
  let user_name :=
    match record with
    | None => Some (u_first_name user)
    | Some i => ui_full_name i
    end in
  let entry :=
    mkCommentInfo (u_id user) user_name (u_username user)
      (field_or "N/A" ui_semester record) comment (m_date message) in
  modify_bot (add_comment comment_id entry) >>
  let comment_message :=
    mkText "New Question from Student"
      [AOpt user_name; AOpt (u_username user);
       AOpt (field_or "N/A" ui_semester record); AStr comment_id; AOpt comment] in
  let keyboard :=
    InlineKeyboardMarkup [[CallbackButton "Reply" ("reply_" +:+ comment_id)]] in
  for_each (ADMIN_IDS cfg) (fun admin_id =>
    try_except (attempt (send_message admin_id comment_message keyboard)) (ret tt)) >>
  emit (reply_text (T0 "Question Sent Successfully!") user_menu) >>
  ret (Some END).

(** [reply_to_comment_start]. *)
Definition reply_to_comment_start (upd : Update) : M (option Z) :=
  emit (answer None) >>
  let comment_id := remove_all "reply_" (query_data upd) in
  let* b := get_bot in
  match pending_comments b !! comment_id with
  | None =>
      emit (edit_message_text
              (T0 "Comment no longer available or already replied.") NoMarkup) >>
      ret (Some END)
  | Some comment_data =>
      modify_session
        (set_reply comment_id (ci_user_id comment_data) (ci_user_name comment_data)) >>
      emit (edit_message_text
              (mkText "Reply to"
                 [AOpt (ci_user_name comment_data); AOpt (ci_comment comment_data)])
              (InlineKeyboardMarkup [cancel_button "cancel_reply"])) >>
      ret (Some REPLY_TO_COMMENT)
  end.

Definition pop_comment (comment_id : string) (b : BotData) : BotData :=
  mkBotData (pending_reviews b) (user_statuses b) (user_data b)
            (delete comment_id (pending_comments b)).

(** [send_reply_to_user]; the failure notice of the [except] branch is
    itself outside every [try]: when it raises, the session is not cleared
    and no state is returned. *)
Definition send_reply_to_user (upd : Update) : M (option Z) :=
  let reply := m_text (effective_message upd) in
  let* s := get_session in
  if truthy (reply_comment_id s) && truthy_id (reply_user_id s) then
    modify_bot (pop_comment (default "" (reply_comment_id s))) >>
    try_except
      (attempt (send_message (default 0 (reply_user_id s))
                  (mkText "Reply from ABJ Tutorial" [AOpt (reply_user_name s); AOpt reply])
                  NoMarkup) >>
       attempt (reply_text (T0 "Reply sent successfully!") admin_menu))
      (attempt (reply_text (T0 "Failed to send reply. User may have blocked the bot.")
                  admin_menu)) >>
    set_session cleared >>
    ret (Some END)
  else
    emit (reply_text (T0 "Reply session expired. Please try again.") admin_menu) >>
    set_session cleared >>
    ret (Some END).

(** *** Announcements *)

(** [announcement_semester]; the plain name is the session key. *)
Definition announcement_semester_handler (upd : Update) : M (option Z) :=
  emit (answer None) >>
  let* sem := second_part (query_data upd) in
  modify_session (set_announcement_semester sem) >>
  emit (edit_message_text (mkText "Announcement for" [AStr sem])
          (InlineKeyboardMarkup [cancel_button "cancel_announcement"])) >>
  ret (Some ANNOUNCEMENT_CONTENT).

(** The condition under which a directory entry is a target. *)
Definition is_target (b : BotData) (sem : string) (p : Z * string) : bool :=
  bool_decide (p.2 = "approved") &&
  (bool_decide (sem = "all") ||
   bool_decide (user_data b !! p.1 ≫= ui_semester = Some sem)).

(** [target_users] of [announcement_content]. *)
Definition target_users (b : BotData) (sem : string) : list Z :=
  (filter (fun p => is_target b sem p = true) (map_to_list (user_statuses b))).*1.

(** The [try] body of the delivery loop: text first, else photo, else
    nothing at all. *)
Definition relay (message : Message) (user_id : Z) : M unit :=
  if truthy (m_text message) then
    attempt (send_message user_id
               (mkText "Announcement from ABJ Tutorial" [AOpt (m_text message)])
               NoMarkup)
  else
    match last (m_photo message) with
    | Some file_id =>
        attempt (send_photo user_id file_id
                   (mkText "Announcement from ABJ Tutorial"
                      [AStr (default "" (m_caption message))])
                   NoMarkup)
    | None => ret tt
    end.

(** The delivery loop with its two counters. *)
Fixpoint announce_loop (message : Message) (targets : list Z)
    (sent_count failed_count : nat) : M (nat * nat) :=
  match targets with
  | [] => ret (sent_count, failed_count)
  | user_id :: rest =>
      let* ok := try_except (relay message user_id >> ret true) (ret false) in
      if ok : bool
      then announce_loop message rest (S sent_count) failed_count
      else announce_loop message rest sent_count (S failed_count)
  end.

(** The summary returned to the admin. *)
Definition summary (sem : string) (sent_count failed_count : nat) : Call :=
  reply_text
    (mkText "Announcement Sent Successfully!"
       [AStr sem; ANat sent_count; ANat failed_count])
    admin_menu.

(** [announcement_content]. *)
Definition announcement_content (upd : Update) : M (option Z) :=
  let message := effective_message upd in
  let* s := get_session in
  let sem := default "all" (announcement_semester s) in
  let* b := get_bot in
  let* counts := announce_loop message (target_users b sem) 0 0 in
  emit (summary sem counts.1 counts.2) >>
  set_session cleared >>
  ret (Some END).

(** *** Access gate *)

(** The removal of one member and its audit note. *)
Definition remove_member (chat_id : Z) (link : ChatInviteLink) (member : User) : M unit :=
  try_except
    (attempt (ban_chat_member chat_id (u_id member)) >>
     attempt (unban_chat_member chat_id (u_id member)))
    (ret tt) >>
  try_except
    (if truthy_id (LOG_CHANNEL_ID cfg) then
       attempt (send_message (default 0 (LOG_CHANNEL_ID cfg))
                  (mkText "Unauthorized join blocked"
                     [AStr (u_full_name member); AOpt (u_username member);
                      AInt (u_id member); AStr (link_url link)])
                  NoMarkup)
     else ret tt)
    (ret tt).

(** The body of the loop over [message.new_chat_members]. *)
Definition gate_member (chat_id : Z) (invite_link : option ChatInviteLink)
    (member : User) : M unit :=
  match invite_link with
  | Some link =>
      let* b := get_bot in
      if decide (status_of b (u_id member) = "approved") then ret tt
      else remove_member chat_id link member
  | None => ret tt
  end.

(** [handle_new_chat_members]. *)
Definition handle_new_chat_members (upd : Update) : M (option Z) :=
  let message := effective_message upd in
  try_except
    (if decide (Some (m_chat_id message) = MAIN_CHANNEL_ID cfg) then
       for_each (m_new_chat_members message)
         (gate_member (m_chat_id message) (message_invite_link message))
     else ret tt)
    (ret tt) >>
  ret None.

(** ** The handler table of [main] *)

(** [str.lower()] on ASCII letters. *)
Definition lower_char (c : ascii) : ascii :=
  let n := nat_of_ascii c in
  if ((65 <=? n) && (n <=? 90))%nat then ascii_of_nat (n + 32) else c.

Fixpoint lower (s : string) : string :=
  match s with
  | EmptyString => EmptyString
  | String c s' => String (lower_char c) (lower s')
  end.

(** The command of a message text: the first word without its slash and
    without a trailing [@botname], in lower case. *)
Definition command_of (text : string) : option string :=
  match text with
  | String "/"%char rest =>
      match split_on " "%char rest with
      | word :: _ =>
          match split_on "@"%char word with
          | name :: _ => Some (lower name)
          | [] => None
          end
      | [] => None
      end
  | _ => None
  end.

(** [a in b] for two Python strings: [a] occurs in [b]. *)
Fixpoint py_in (a b : string) : bool :=
  String.prefix a b ||
  match b with
  | EmptyString => false
  | String _ b' => py_in a b'
  end.

(** [filters.TEXT], [filters.COMMAND] (a text that starts with a slash),
    [filters.PHOTO], [filters.Text]. *)
Definition filter_TEXT (m : Message) : bool := truthy (m_text m).

Definition filter_COMMAND (m : Message) : bool :=
  match m_text m with
  | Some (String "/"%char _) => true
  | _ => false
  end.

Definition filter_PHOTO (m : Message) : bool :=
  match m_photo m with
  | [] => false
  | _ => true
  end.

(** [filters.Text(s)] as [main] calls it, with one string and not a list
    of strings: the framework evaluates
    [message.text in s if message.text else False], and [in] between two
    strings asks whether the text occurs in [s]. *)
Definition filter_Text (s : string) (m : Message) : bool :=
  match m_text m with
  | Some text => truthy (Some text) && py_in text s
  | None => false
  end.

Definition filter_ALL (m : Message) : bool := true.

Definition filter_NEW_CHAT_MEMBERS (m : Message) : bool :=
  match m_new_chat_members m with
  | [] => false
  | _ => true
  end.

Definition filter_Chat (chat : option Z) (m : Message) : bool :=
  bool_decide (Some (m_chat_id m) = chat).

(** The regular expressions used for callback data: [^s$] and
    [^(s1|s2)_]-style prefixes. *)
Inductive Pattern :=
| Exact (s : string)
| StartsWith (alternatives : list string).

Definition newline : string := String (ascii_of_nat 10) EmptyString.

Definition matches (p : Pattern) (data : string) : bool :=
  match p with
  | Exact s => bool_decide (data = s) || bool_decide (data = s +:+ newline)
  | StartsWith alts => existsb (fun a => String.prefix a data) alts
  end.

(** A handler of the framework: which updates it takes and its callback. *)
Record BaseHandler := mkHandler {
  check_update : Update -> bool;
  callback : Update -> M (option Z);
}.

Definition MessageHandler (f : Message -> bool)
    (cb : Update -> M (option Z)) : BaseHandler :=
  mkHandler
    (fun upd => match upd with MessageUpdate _ m => f m | _ => false end) cb.

Definition CommandHandler (name : string)
    (cb : Update -> M (option Z)) : BaseHandler :=
  MessageHandler
    (fun m => bool_decide (m_text m ≫= command_of = Some name)) cb.

Definition CallbackQueryHandler (cb : Update -> M (option Z))
    (p : Pattern) : BaseHandler :=
  mkHandler
    (fun upd => match upd with CallbackUpdate _ d _ => matches p d | _ => false end)
    cb.

Record ConversationHandler := mkConversation {
  entry_points : list BaseHandler;
  states : list (Z * list BaseHandler);
  fallbacks : list BaseHandler;
}.

Definition text_not_command (m : Message) : bool :=
  filter_TEXT m && negb (filter_COMMAND m).

Definition registration_conv_handler : ConversationHandler :=
  mkConversation
    [CallbackQueryHandler handle_get_started_callback (Exact "get_started");
     CommandHandler "start" start]
    [(GET_FULL_NAME, [MessageHandler text_not_command get_full_name]);
     (GET_SEMESTER, [CallbackQueryHandler get_semester (StartsWith ["semester_"])]);
     (GET_STREAM, [CallbackQueryHandler get_stream (StartsWith ["stream_"])]);
     (GET_GENDER, [CallbackQueryHandler get_gender (StartsWith ["gender_"])]);
     (GET_PAYMENT_METHOD,
        [CallbackQueryHandler get_payment_method (StartsWith ["method_"])]);
     (AWAITING_SCREENSHOT, [MessageHandler filter_PHOTO receive_screenshot])]
    [CommandHandler "cancel" cancel;
     CallbackQueryHandler cancel_registration_callback (Exact "cancel_registration")].

Definition ask_comment_conv_handler : ConversationHandler :=
  mkConversation
    [MessageHandler (filter_Text "Ask Question") ask_question_start]
    [(ASK_COMMENT, [MessageHandler text_not_command receive_comment])]
    [CommandHandler "cancel" cancel;
     CallbackQueryHandler cancel_question_callback (Exact "cancel_question")].

Definition reply_comment_conv_handler : ConversationHandler :=
  mkConversation
    [CallbackQueryHandler reply_to_comment_start (StartsWith ["reply_"])]
    [(REPLY_TO_COMMENT, [MessageHandler text_not_command send_reply_to_user])]
    [CommandHandler "cancel" cancel;
     CallbackQueryHandler cancel_reply_callback (Exact "cancel_reply")].

Definition announcement_conv_handler : ConversationHandler :=
  mkConversation
    [MessageHandler (filter_Text "Send Announcement") announcement_start]
    [(ANNOUNCEMENT_SEMESTER,
        [CallbackQueryHandler announcement_semester_handler (StartsWith ["announce_"])]);
     (ANNOUNCEMENT_CONTENT, [MessageHandler filter_ALL announcement_content])]
    [CommandHandler "cancel" cancel;
     CallbackQueryHandler cancel_announcement_callback (Exact "cancel_announcement")].

Inductive ConvName := Registration | AskComment | ReplyComment | Announcement.

Inductive Registered :=
| Plain (h : BaseHandler)
| Conversation (name : ConvName) (c : ConversationHandler).

(** The handlers in the order [main] adds them (all in one group). *)
Definition handlers : list Registered :=
  [Plain (CallbackQueryHandler user_approval_handler (StartsWith ["approve_"; "reject_"]));
   Plain (CallbackQueryHandler cancel_registration_callback (Exact "cancel_registration"));
   Plain (CallbackQueryHandler cancel_announcement_callback (Exact "cancel_announcement"));
   Plain (CallbackQueryHandler cancel_question_callback (Exact "cancel_question"));
   Plain (CallbackQueryHandler cancel_reply_callback (Exact "cancel_reply"));
   Conversation Registration registration_conv_handler;
   Conversation AskComment ask_comment_conv_handler;
   Conversation ReplyComment reply_comment_conv_handler;
   Conversation Announcement announcement_conv_handler;
   Plain (MessageHandler text_not_command handle_menu_buttons);
   Plain (CommandHandler "start" start);
   Plain (CommandHandler "cancel" cancel)]
  ++ (if truthy_id (MAIN_CHANNEL_ID cfg)
      then [Plain (MessageHandler
                     (fun m => filter_NEW_CHAT_MEMBERS m && filter_Chat (MAIN_CHANNEL_ID cfg) m)
                     handle_new_chat_members)]
      else []).

(** ** The application: shared data, sessions and conversation states *)

Record World := mkWorld {
  bot_data : BotData;
  sessions : gmap Z Session;
  registration_state : gmap Z Z;
  ask_comment_state : gmap Z Z;
  reply_comment_state : gmap Z Z;
  announcement_state : gmap Z Z;
}.

Definition conversations (w : World) (name : ConvName) : gmap Z Z :=
  match name with
  | Registration => registration_state w
  | AskComment => ask_comment_state w
  | ReplyComment => reply_comment_state w
  | Announcement => announcement_state w
  end.

Definition set_conversations (name : ConvName) (c : gmap Z Z) (w : World) : World :=
  match name with
  | Registration =>
      mkWorld (bot_data w) (sessions w) c (ask_comment_state w)
        (reply_comment_state w) (announcement_state w)
  | AskComment =>
      mkWorld (bot_data w) (sessions w) (registration_state w) c
        (reply_comment_state w) (announcement_state w)
  | ReplyComment =>
      mkWorld (bot_data w) (sessions w) (registration_state w)
        (ask_comment_state w) c (announcement_state w)
  | Announcement =>
      mkWorld (bot_data w) (sessions w) (registration_state w)
        (ask_comment_state w) (reply_comment_state w) c
  end.

(** [context.user_data] of a user: empty until something is stored. *)
Definition session_of (w : World) (uid : Z) : Session :=
  default cleared (sessions w !! uid).

Definition first_match (hs : list BaseHandler) (upd : Update) : option BaseHandler :=
  find (fun h => check_update h upd) hs.

Definition state_handlers (c : ConversationHandler) (st : Z) : list BaseHandler :=
  default [] (snd <$> find (fun p => bool_decide (p.1 = st)) (states c)).

(** [ConversationHandler.check_update]: entry points when the user has no
    state, else the handlers of the state and then the fallbacks. *)
Definition conversation_check (c : ConversationHandler) (st : option Z)
    (upd : Update) : option BaseHandler :=
  match st with
  | None => first_match (entry_points c) upd
  | Some st =>
      match first_match (state_handlers c st) upd with
      | Some h => Some h
      | None => first_match (fallbacks c) upd
      end
  end.

(** The first registered handler that takes the update, with the
    conversation it belongs to. *)
Fixpoint select (hs : list Registered) (w : World) (upd : Update)
    : option (BaseHandler * option ConvName) :=
  match hs with
  | [] => None
  | Plain h :: rest =>
      if check_update h upd then Some (h, None) else select rest w upd
  | Conversation name c :: rest =>
      match conversation_check c (conversations w name !! u_id (effective_user upd)) upd with
      | Some h => Some (h, Some name)
      | None => select rest w upd
      end
  end.

(** [ConversationHandler._update_state]. *)
Definition update_state (uid : Z) (new_state : option Z) (c : gmap Z Z) : gmap Z Z :=
  match new_state with
  | None => c
  | Some st => if decide (st = END) then delete uid c else <[uid := st]> c
  end.

(** [Application.process_update]: one update is handled by at most one
    handler; an exception leaves the conversation state as it was and runs
    [error_handler]. *)
Definition process_update (e : Env) (upd : Update) (w : World)
    : World * list (Call * bool) :=
  let uid := u_id (effective_user upd) in
  match select handlers w upd with
  | None => (w, [])
  | Some (h, conv) =>
      let r0 := mkRun (bot_data w) (session_of w uid) [] 0 in
      match callback h upd e r0 with
      | (Ok new_state, r) =>
          let w' :=
            mkWorld (run_bot r) (<[uid := run_user r]> (sessions w))
              (registration_state w) (ask_comment_state w)
              (reply_comment_state w) (announcement_state w) in
          (match conv with
           | Some name =>
               set_conversations name (update_state uid new_state (conversations w name)) w'
           | None => w'
           end, run_log r)
      | (Exn, r) =>
          let r' := (error_handler e r).2 in
          (mkWorld (run_bot r') (<[uid := run_user r']> (sessions w))
             (registration_state w) (ask_comment_state w)
             (reply_comment_state w) (announcement_state w), run_log r')
      end
  end.

(** The application after a list of updates, each with its environment. *)
Fixpoint run_updates (us : list (Env * Update)) (w : World) : World :=
  match us with
  | [] => w
  | (e, upd) :: rest => run_updates rest (process_update e upd w).1
  end.

End Handlers.

(** The application as [main] creates it. *)
Definition initial : World :=
  mkWorld (mkBotData ∅ ∅ ∅ ∅) ∅ ∅ ∅ ∅ ∅.

(** ** Vocabulary of the properties *)

(** The status an admin action writes. *)
Definition decided_status (action : string) : string :=
  if decide (action = "approve") then "approved" else "rejected".

Definition is_decision (action : string) : Prop :=
  action = "approve" ∨ action = "reject".

Definition already_processed : Call :=
  edit_message_text (T0 "Request already processed or not found.") NoMarkup.

Definition error_processing : Call :=
  edit_message_text (T0 "Error processing request. Please try again.") NoMarkup.

(** What the admin is shown when the queue has no entry: the notice, and
    the error text should the notice itself fail to be delivered. *)
Definition stale_report (e : Env) (r : Run) : list (Call * bool) :=
  if fails e (run_calls r)
  then [(answer None, true); (already_processed, false); (error_processing, true)]
  else [(answer None, true); (already_processed, true)].

(** The edges of the status diagram. *)
Definition status_edge (old new : string) : Prop :=
  (old = "none" ∧ new = "pending") ∨
  (old = "pending" ∧ new = "approved") ∨
  (old = "pending" ∧ new = "rejected") ∨
  (old = "rejected" ∧ new = "pending").

(** The user of a transport call that delivers content to a chat. *)
Definition recipient (c : Call) : option Z :=
  match c with
  | send_message chat _ _ => Some chat
  | send_photo chat _ _ _ => Some chat
  | _ => None
  end.

(** A photo message from [uid]: the only update that [receive_screenshot]
    can take for that user. *)
Definition resubmits (uid : Z) (upd : Update) : bool :=
  match upd with
  | MessageUpdate from m => bool_decide (u_id from = uid) && filter_PHOTO m
  | CallbackUpdate _ _ _ => false
  end.

(** The bot data after a submission by [user]. *)
Definition submitted (user : User) (s : Session) (message : Message)
    (file_id : string) (b : BotData) : BotData :=
  let pid :=
    default ("UNKNOWN_" +:+ pretty (u_id user) +:+ "_" +:+ pretty (m_message_id message))
            (payment_id s) in
  let user_info :=
    mkUserInfo (full_name s) (semester s) (stream s) (gender s)
      (payment_method s) (u_username user) (u_first_name user) (u_id user) in
  set_pending (u_id user)
    (mkPendingInfo (u_id user) (u_username user) (u_first_name user)
       (full_name s) (semester s) (stream s) (gender s) (payment_method s)
       pid file_id (m_date message) user_info)
    (set_user_data (u_id user) user_info (set_status (u_id user) "pending" b)).

(** The labels of the callback buttons of a keyboard. *)
Definition button_label (b : Button) : string :=
  match b with
  | CallbackButton l _ => l
  | UrlButton l _ => l
  end.

Definition button_data (b : Button) : string :=
  match b with
  | CallbackButton _ d => d
  | UrlButton _ _ => ""
  end.

Definition offered (rows : list (list Button)) : list string :=
  button_label <$> concat rows.

(** Sample values used by the examples. *)
Definition sample_config : Config :=
  mkConfig [1] (Some 900) (Some 800) (Some "@abj") (Some "0900").

Definition calm : Env := mkEnv (fun _ => false) (fun _ => "https://t.me/+one").

Definition stormy : Env := mkEnv (fun _ => true) (fun _ => "https://t.me/+one").

Definition alice : User := mkUser 42 "Alice" (Some "alice") "Alice A".

Definition the_admin : User := mkUser 1 "Boss" None "Boss B".

Definition text_message (id : Z) (text : string) : Message :=
  mkMessage id "2025-01-01" 42 (Some text) [] None [].

Definition photo_message (id : Z) (file_id : string) : Message :=
  mkMessage id "2025-01-01" 42 None [file_id] None [].

Definition button_press (id : Z) : Message :=
  mkMessage id "2025-01-01" 42 None [] None [].

Definition document_message (id : Z) : Message :=
  mkMessage id "2025-01-01" 1 None [] None [].

Definition fresh_run (b : BotData) (s : Session) : Run := mkRun b s [] 0.

(** A step that leaves every stored status alone and either leaves the
    Review Queue alone or empties it. *)
Definition quiet_step (b b' : BotData) : Prop :=
  user_statuses b' = user_statuses b ∧
  (pending_reviews b' = pending_reviews b ∨ pending_reviews b' = ∅).

(** A computation all of whose runs are quiet steps. *)
Definition quiet {A} (m : M A) : Prop :=
  ∀ e r, quiet_step (run_bot r) (run_bot (m e r).2).

(** A callback that, used as an entry point, starts a conversation only for
    a user who is neither approved nor pending. *)
Definition entry_safe (cb : Update -> M (option Z)) (upd : Update) : Prop :=
  ∀ e r,
    (cb upd e r).1 = Ok (Some END) ∨
    (status_of (run_bot r) (u_id (effective_user upd)) ≠ "approved" ∧
     status_of (run_bot r) (u_id (effective_user upd)) ≠ "pending").

(** The three kinds of handler that [select] can return. *)
Definition decides (cfg : Config) (h : BaseHandler) (conv : option ConvName) : Prop :=
  callback h = user_approval_handler cfg ∧ conv = None.

Definition submits (cfg : Config) (w : World) (upd : Update) (h : BaseHandler)
    (conv : option ConvName) : Prop :=
  callback h = receive_screenshot cfg ∧ conv = Some Registration ∧
  is_Some (registration_state w !! u_id (effective_user upd)) ∧
  resubmits (u_id (effective_user upd)) upd = true.

Definition stays_quiet (w : World) (upd : Update) (h : BaseHandler)
    (conv : option ConvName) : Prop :=
  (∀ u, quiet (callback h u)) ∧
  (conv = Some Registration →
   is_Some (registration_state w !! u_id (effective_user upd)) ∨
   entry_safe (callback h) upd).

(** The invariant of the application: a queued user is pending, and only
    the three status words are ever stored. *)
Definition consistent (w : World) : Prop :=
  (∀ u, is_Some (pending_reviews (bot_data w) !! u) →
        user_statuses (bot_data w) !! u = Some "pending") ∧
  (∀ u st, user_statuses (bot_data w) !! u = Some st →
           st = "pending" ∨ st = "approved" ∨ st = "rejected").

(** What a handler can do to a status: a submission writes pending over
    whatever was there, a decision turns pending into approved or
    rejected. *)
Definition status_move (old new : string) : Prop :=
  new = "pending" ∨ (old = "pending" ∧ (new = "approved" ∨ new = "rejected")).

(** Every status is where it was or has made one such move. *)
Definition moves_only (w w' : World) : Prop :=
  ∀ u, status_of (bot_data w) u = status_of (bot_data w') u ∨
       status_move (status_of (bot_data w) u) (status_of (bot_data w') u).

Definition mallory : User := mkUser 66 "Mallory" None "Mallory M".

Definition sample_info : UserInfo :=
  mkUserInfo (Some "Alemu B") (Some "First Semester") (Some "Natural Science")
    (Some "Male") (Some "CBE") (Some "alice") "Alice" 42.

Definition sample_entry : PendingInfo :=
  mkPendingInfo 42 (Some "alice") "Alice" (Some "Alemu B") (Some "First Semester")
    (Some "Natural Science") (Some "Male") (Some "CBE") "ABJ423" "file-1"
    "2025-01-01" sample_info.

(** Alice has submitted and waits for review. *)
Definition queued : BotData :=
  mkBotData {[42 := sample_entry]} {[42 := "pending"]} {[42 := sample_info]} ∅.

(** Alice is an approved member. *)
Definition enrolled : BotData :=
  mkBotData ∅ {[42 := "approved"]} {[42 := sample_info]} ∅.

Definition press (who : User) (data : string) : Update :=
  CallbackUpdate who data (button_press 9).

(** The service message of the gated channel when Mallory has joined it. *)
Definition join_message : Message :=
  mkMessage 11 "2025-01-01" 800 None [] None [mallory].

Definition announcing (cohort : string) : Session :=
  set_announcement_semester cohort cleared.

(** A string of decimal digits only. *)
Fixpoint all_digits (s : string) : bool :=
  match s with
  | EmptyString => true
  | String c s' => is_digit c && all_digits s'
  end.

(** ** Vocabulary of the further properties *)

(** The body relayed for a text announcement. *)
Definition announcement_text (message : Message) : Text :=
  mkText "Announcement from ABJ Tutorial" [AOpt (m_text message)].

(** One attempt per target, in order, the [k]-th guarded call failing when
    the oracle says so. *)
Definition text_attempts (message : Message) (e : Env) (start : nat)
    (targets : list Z) : list (Call * bool) :=
  zip_with
    (λ u k, (send_message u (announcement_text message) NoMarkup, negb (fails e k)))
    targets (seq start (length targets)).

(** How many of the guarded calls [start .. start + n - 1] return. *)
Definition delivered (e : Env) (start n : nat) : nat :=
  length (filter (λ k, fails e k = false) (seq start n)).

(** How many of them raise. *)
Definition undelivered (e : Env) (start n : nat) : nat :=
  length (filter (λ k, fails e k = true) (seq start n)).

(** A string of whitespace only. *)
Fixpoint all_space (s : string) : bool :=
  match s with
  | EmptyString => true
  | String c s' => is_space c && all_space s'
  end.

(** A text of ASCII characters only: on such a text [strip] removes what
    Python's [str.strip()] removes. *)
Fixpoint is_ascii (s : string) : bool :=
  match s with
  | EmptyString => true
  | String c s' => (nat_of_ascii c <? 128)%nat && is_ascii s'
  end.

(** The last character of a string. *)
Fixpoint last_char (s : string) : option ascii :=
  match s with
  | EmptyString => None
  | String c EmptyString => Some c
  | String _ s' => last_char s'
  end.

(** The id that [get_payment_method] derives for a user and a message. *)
Definition payment_id_of (user_id message_id : Z) : string :=
  "ABJ" +:+ pretty user_id +:+ pretty message_id.

(** The id that [receive_screenshot] falls back to. *)
Definition unknown_payment_id (user_id message_id : Z) : string :=
  "UNKNOWN_" +:+ pretty user_id +:+ "_" +:+ pretty message_id.

(** The profile and the queue entry of a submission made with an empty
    session. *)
Definition blank_info (user : User) : UserInfo :=
  mkUserInfo None None None None None (u_username user) (u_first_name user) (u_id user).

Definition blank_entry (user : User) (message : Message) (file_id : string) : PendingInfo :=
  mkPendingInfo (u_id user) (u_username user) (u_first_name user)
    None None None None None
    (unknown_payment_id (u_id user) (m_message_id message))
    file_id (m_date message) (blank_info user).

(** The key under which [receive_comment] stores a question. *)
Definition comment_id_of (user_id message_id : Z) : string :=
  "comment_" +:+ pretty user_id +:+ "_" +:+ pretty message_id.

(** Whether a character occurs in a string. *)
Fixpoint has_char (c : ascii) (s : string) : bool :=
  match s with
  | EmptyString => false
  | String c' s' => Ascii.eqb c' c || has_char c s'
  end.

(** The message that carries a reply to the asker. *)
Definition reply_message (s : Session) (reply : option string) : Call :=
  send_message (default 0 (reply_user_id s))
    (mkText "Reply from ABJ Tutorial" [AOpt (reply_user_name s); AOpt reply]) NoMarkup.

Definition reply_sent : Call :=
  reply_text (T0 "Reply sent successfully!") admin_menu.

Definition reply_failed : Call :=
  reply_text (T0 "Failed to send reply. User may have blocked the bot.") admin_menu.

(** What the admin's chat and the asker's chat see of a reply, by what the
    oracle does with the calls: the message to the asker, the confirmation
    to the admin when the message went out, and the failure notice when
    either of the two raised. *)
Definition reply_trace (e : Env) (start : nat) (s : Session)
    (reply : option string) : list (Call * bool) :=
  if fails e start
  then [(reply_message s reply, false); (reply_failed, negb (fails e (S start)))]
  else if fails e (S start)
       then [(reply_message s reply, true); (reply_sent, false);
             (reply_failed, negb (fails e (S (S start))))]
       else [(reply_message s reply, true); (reply_sent, true)].

(** Whether the failure notice of a reply is sent and raises in its turn. *)
Definition notice_lost (e : Env) (start : nat) : bool :=
  if fails e start then fails e (S start)
  else fails e (S start) && fails e (S (S start)).

(** The name under which [receive_comment] files a question: the full name
    of the profile when the user has one, else the first name. *)
Definition asker_name (b : BotData) (user : User) : option string :=
  match user_data b !! u_id user with
  | None => Some (u_first_name user)
  | Some i => ui_full_name i
  end.

(** The counts of the dashboard of [view_stats]. *)
Definition count_status (st : string) (b : BotData) : nat :=
  length (filter (λ p : Z * string, p.2 = st) (map_to_list (user_statuses b))).

Definition total_users (b : BotData) : nat :=
  length (map_to_list (user_statuses b)).

(** Further sample values. *)
Definition bob : User := mkUser 4 "Bob" None "Bob B".

(** An environment in which the [n]-th fallible call of a handler run
    raises and every other one returns. *)
Definition fails_at (n : nat) : Env :=
  mkEnv (λ k, bool_decide (k = n)) (λ _, "https://t.me/+one").

(** Alice goes through the registration, from Get Started to the photo.
    The photo reaches the one admin of [sample_config] (call 0 of the run);
    the confirmation to Alice (call 1) raises. *)
Definition alice_registers : list (Env * Update) :=
  [(calm, press alice "get_started");
   (calm, MessageUpdate alice (text_message 2 "Alemu B"));
   (calm, press alice "semester_First Semester");
   (calm, press alice "stream_Natural Science");
   (calm, press alice "gender_Male");
   (calm, press alice "method_CBE");
   (fails_at 1, MessageUpdate alice (photo_message 7 "file-1"))].

(** Nobody is in a conversation. *)
Definition idle (b : BotData) : World := mkWorld b ∅ ∅ ∅ ∅ ∅.

(** Mallory is at the content step of an announcement for Second Semester. *)
Definition mallory_announces : World :=
  mkWorld enrolled {[66 := announcing "Second Semester"]} ∅ ∅ ∅
    {[66 := ANNOUNCEMENT_CONTENT]}.

(** Alice is at the screenshot step of the registration. *)
Definition alice_at_screenshot : World :=
  mkWorld (mkBotData ∅ ∅ ∅ ∅) ∅ {[42 := AWAITING_SCREENSHOT]} ∅ ∅ ∅.

(** The session of an admin who pressed the reply button of a question of
    Alice. *)
Definition answering : Session :=
  mkSession false None None None None None None None
    (Some "comment_42_5") (Some 42) (Some "Alice").

(** The notifications of [error_handler]: one guarded send per admin, in
    the order of ADMIN_IDS. *)
Definition admin_alerts (cfg : Config) (e : Env) (start : nat) : list (Call * bool) :=
  zip_with
    (λ admin_id k, (send_message admin_id (T0 "Bot error") NoMarkup, negb (fails e k)))
    (ADMIN_IDS cfg) (seq start (length (ADMIN_IDS cfg))).

(** A session in which one of the fields read by the registration summary
    is missing. *)
Definition incomplete (s : Session) : Prop :=
  full_name s = None ∨ semester s = None ∨ stream s = None ∨ gender s = None.

(** Alice is at the payment method step with nothing collected. *)
Definition alice_at_method : World :=
  mkWorld (mkBotData ∅ ∅ ∅ ∅) ∅ {[42 := GET_PAYMENT_METHOD]} ∅ ∅ ∅.

(** Alice has typed her name and is at the semester step. *)
Definition alice_at_semester : World :=
  mkWorld (mkBotData ∅ ∅ ∅ ∅)
    {[42 := set_full_name "Alemu B" (set_registration_in_progress cleared)]}
    {[42 := GET_SEMESTER]} ∅ ∅ ∅.

(** Alice is asking a question. *)
Definition alice_asks : World :=
  mkWorld enrolled ∅ ∅ {[42 := ASK_COMMENT]} ∅ ∅.

(** * Properties *)

(** ** Callback data of the approval buttons *)

Lemma digit_char d :
  (d < 10)%N →
  is_digit (pretty_N_char d) = true ∧
  Z.of_nat (nat_of_ascii (pretty_N_char d) - 48) = Z.of_N d.
Proof.
  intros Hd.
  assert (d = 0 ∨ d = 1 ∨ d = 2 ∨ d = 3 ∨ d = 4 ∨ d = 5 ∨ d = 6 ∨ d = 7
          ∨ d = 8 ∨ d = 9)%N as Hcases by lia.
  repeat (destruct Hcases as [-> | Hcases]; [by vm_compute |]). subst d. by vm_compute.
Qed.

(** Reading back what [pretty_N_go] has put in front of [s]. *)
Lemma pretty_N_go_value x :
  ∃ k : nat, ∀ acc s,
    digits_value acc (pretty_N_go x s)
    = digits_value (acc * 10 ^ Z.of_nat k + Z.of_N x) s.
Proof.
  induction (N.lt_wf_0 x) as [x _ IH].
  destruct (decide (x = 0)%N) as [-> | Hx].
  - exists 0%nat. intros acc s. rewrite pretty_N_go_0. f_equal. simpl. lia.
  - destruct (IH (x `div` 10)%N) as [k Hk]; [apply N.div_lt; lia |].
    exists (S k). intros acc s. rewrite pretty_N_go_step by lia. rewrite Hk.
    destruct (digit_char (x `mod` 10)%N) as [Hdigit Hval];
      [apply N.mod_lt; lia |].
    cbn [digits_value]. rewrite Hdigit, Hval. f_equal.
    rewrite Nat2Z.inj_succ, Z.pow_succ_r by lia.
    pose proof (N.div_mod x 10 ltac:(lia)) as Hdm.
    rewrite Hdm at 3. rewrite N2Z.inj_add, N2Z.inj_mul. simpl Z.of_N. lia.
Qed.

Lemma pretty_N_go_digits x :
  ∀ s, all_digits s = true → all_digits (pretty_N_go x s) = true.
Proof.
  induction (N.lt_wf_0 x) as [x _ IH]. intros s Hs.
  destruct (decide (x = 0)%N) as [-> | Hx]; [by rewrite pretty_N_go_0 |].
  rewrite pretty_N_go_step by lia. apply IH; [apply N.div_lt; lia |].
  cbn [all_digits]. rewrite Hs.
  destruct (digit_char (x `mod` 10)%N) as [-> _]; [apply N.mod_lt; lia | done].
Qed.

Lemma digit_is_plain c :
  is_digit c = true →
  Ascii.eqb c "_" = false ∧ is_space c = false ∧ c ≠ "-"%char ∧ c ≠ "+"%char.
Proof.
  intros Hd. repeat split.
  - apply Ascii.eqb_neq. by intros ->.
  - unfold is_digit, is_space in *. cbv zeta in *.
    apply andb_true_iff in Hd as [H1 H2].
    apply Nat.leb_le in H1, H2.
    apply orb_false_iff. split; apply andb_false_iff.
    + right. apply Nat.leb_gt. lia.
    + right. apply Nat.leb_gt. lia.
  - by intros ->.
  - by intros ->.
Qed.

Lemma split_on_digits s : all_digits s = true → split_on "_" s = [s].
Proof.
  induction s as [| c s IH]; simpl; [done |]. intros Hs.
  apply andb_true_iff in Hs as [Hc Hs].
  destruct (digit_is_plain c Hc) as (-> & _). by rewrite IH.
Qed.

Lemma rstrip_digits s : all_digits s = true → rstrip s = s.
Proof.
  induction s as [| c s IH]; simpl; [done |]. intros Hs.
  apply andb_true_iff in Hs as [Hc Hs].
  destruct (digit_is_plain c Hc) as (_ & -> & _). rewrite IH by done.
  by destruct s.
Qed.

Lemma strip_digits s : all_digits s = true → strip s = s.
Proof.
  intros Hs. unfold strip. rewrite <- (rstrip_digits s Hs) at 2. f_equal.
  destruct s as [| c s]; simpl; [done |].
  apply andb_true_iff in Hs as [Hc _].
  by destruct (digit_is_plain c Hc) as (_ & -> & _).
Qed.

Lemma py_int_digits s :
  all_digits s = true → s ≠ "" → py_int s = digits_value 0 s.
Proof.
  intros Hs Hne. unfold py_int. rewrite strip_digits by done.
  destruct s as [| c s]; [done |]. cbn [all_digits] in Hs.
  apply andb_true_iff in Hs as [Hc _].
  destruct (digit_is_plain c Hc) as (_ & _ & Hminus & Hplus).
  destruct (Ascii.eqb_spec c "-"); [done |].
  destruct (Ascii.eqb_spec c "+"); [done |].
  destruct c as [[] [] [] [] [] [] [] []]; done.
Qed.

Lemma pretty_positive_read p :
  all_digits (pretty (Npos p)) = true ∧
  pretty (Npos p) ≠ "" ∧
  digits_value 0 (pretty (Npos p)) = Some (Zpos p).
Proof.
  unfold pretty, pretty_N. rewrite decide_False by done.
  destruct (pretty_N_go_value (Npos p)) as [k Hk].
  assert (Hval : digits_value 0 (pretty_N_go (N.pos p) "") = Some (Z.pos p)).
  { rewrite Hk. simpl. done. }
  split; [by apply pretty_N_go_digits |]. split; [| done].
  intros Hempty. rewrite Hempty in Hval. done.
Qed.

Lemma strip_minus s :
  all_digits s = true → strip (String "-" s) = String "-" s.
Proof.
  intros Hs. unfold strip.
  change (lstrip (String "-" s)) with (String "-" s).
  change (rstrip (String "-" s))
    with (match rstrip s with
          | EmptyString => String "-" EmptyString
          | r => String "-" r
          end).
  rewrite rstrip_digits by done. by destruct s.
Qed.

(** [int(str(z))] is [z]. *)
Lemma py_int_pretty (z : Z) : py_int (pretty z) = Some z.
Proof.
  destruct z as [| p | p]; [done | |].
  - change (pretty (Z.pos p)) with (pretty (Npos p)).
    destruct (pretty_positive_read p) as (Hd & Hne & Hv).
    rewrite py_int_digits by done. exact Hv.
  - change (pretty (Z.neg p)) with (String "-" (pretty (Npos p))).
    destruct (pretty_positive_read p) as (Hd & Hne & Hv).
    revert Hd Hne Hv. generalize (pretty (N.pos p)). intros s Hd Hne Hv.
    unfold py_int. rewrite strip_minus by done.
    destruct s as [| c r]; [done |].
    transitivity (Z.opp <$> digits_value 0 (String c r)); [reflexivity |].
    by rewrite Hv.
Qed.

Lemma split_on_pretty (z : Z) : split_on "_" (pretty z) = [pretty z].
Proof.
  destruct z as [| p | p]; [done | |].
  - apply split_on_digits, pretty_positive_read.
  - change (pretty (Z.neg p)) with (String "-" (pretty (Npos p))).
    change (split_on "_" (String "-" (pretty (N.pos p))))
      with (match split_on "_" (pretty (N.pos p)) with
            | w :: ws => String "-" w :: ws
            | [] => [String "-" EmptyString]
            end).
    rewrite split_on_digits; [done | apply pretty_positive_read].
Qed.

(** The data of the two buttons that [receive_screenshot] puts under a
    submission parse back to the action and the user id. *)
Lemma parse_action_button a uid :
  is_decision a → parse_action (a +:+ "_" +:+ pretty uid) = Some (a, uid).
Proof.
  intros [-> | ->]; unfold parse_action.
  - change (split_on "_" ("approve" +:+ "_" +:+ pretty uid))
      with ("approve" :: split_on "_" (pretty uid)).
    rewrite split_on_pretty. cbn iota beta. by rewrite py_int_pretty.
  - change (split_on "_" ("reject" +:+ "_" +:+ pretty uid))
      with ("reject" :: split_on "_" (pretty uid)).
    rewrite split_on_pretty. cbn iota beta. by rewrite py_int_pretty.
Qed.

Lemma prefix_split p :
  ∀ d, String.prefix p d = true → ∃ d', d = p +:+ d'.
Proof.
  induction p as [| a p IH]; intros d Hp; [by exists d |].
  destruct d as [| b d]; simpl in Hp; [done |].
  destruct (ascii_dec a b) as [-> | ?]; [| done].
  destruct (IH d Hp) as [d' ->]. by exists d'.
Qed.

(** Callback data that the approval handler is registered for and that
    parses at all carries one of the two actions. *)
Lemma approval_pattern_decision d a uid :
  matches (StartsWith ["approve_"; "reject_"]) d = true →
  parse_action d = Some (a, uid) →
  is_decision a.
Proof.
  unfold matches. cbn [existsb]. rewrite orb_false_r. intros Hm Hparse.
  apply orb_true_iff in Hm as [Hm | Hm];
    apply prefix_split in Hm as [d' ->]; unfold parse_action in Hparse.
  - change (split_on "_" ("approve_" +:+ d'))
      with ("approve" :: split_on "_" d') in Hparse.
    destruct (split_on "_" d') as [| s [| ? ?]]; try done.
    destruct (py_int s); simplify_eq/=. by left.
  - change (split_on "_" ("reject_" +:+ d'))
      with ("reject" :: split_on "_" d') in Hparse.
    destruct (split_on "_" d') as [| s [| ? ?]]; try done.
    destruct (py_int s); simplify_eq/=. by right.
Qed.

(** ** Running a handler *)

Ltac unfold_m :=
  unfold bind, ret, raise, try_except, emit, attempt, mint_invite, get_bot, set_bot,
    get_session, set_session, modify_bot, modify_session in *.

(** Case analysis on every oracle answer that the goal consults. *)
Ltac oracle e :=
  repeat (match goal with
          | |- context [fails e ?n] => destruct (fails e n) eqn:?; simpl
          end).

(** ** Admin approval *)

Lemma approval_absent cfg e upd r a uid :
  is_admin cfg (u_id (effective_user upd)) = true →
  parse_action (query_data upd) = Some (a, uid) →
  pending_reviews (run_bot r) !! uid = None →
  user_approval_handler cfg upd e r
  = (Ok None, mkRun (run_bot r) (run_user r) (run_log r ++ stale_report e r)
                    (S (run_calls r))).
Proof.
  intros Hadmin Hparse Hnone.
  unfold user_approval_handler, approval_body, stale_report.
  rewrite Hadmin, Hparse. unfold_m. simpl. rewrite Hnone. simpl.
  destruct (fails e (run_calls r)); simpl; rewrite <- ?app_assoc; reflexivity.
Qed.

Lemma approval_present cfg e upd r a uid info :
  is_admin cfg (u_id (effective_user upd)) = true →
  parse_action (query_data upd) = Some (a, uid) →
  is_decision a →
  pending_reviews (run_bot r) !! uid = Some info →
  ∃ r', user_approval_handler cfg upd e r = (Ok None, r') ∧
        run_bot r' = set_status uid (decided_status a) (pop_pending uid (run_bot r)) ∧
        run_user r' = run_user r.
Proof.
  intros Hadmin Hparse Hdec Hsome.
  unfold user_approval_handler, approval_body, send_log.
  rewrite Hadmin, Hparse. unfold_m. simpl. rewrite Hsome. simpl.
  destruct Hdec as [-> | ->]; simpl; unfold decided_status; simpl;
    destruct (truthy_id (LOG_CHANNEL_ID cfg)); simpl; oracle e;
    eexists; (split; [reflexivity | split; reflexivity]).
Qed.

Lemma popped_entry_gone uid st b :
  pending_reviews (set_status uid st (pop_pending uid b)) !! uid = None.
Proof. simpl. apply lookup_delete_eq. Qed.

Lemma decided_status_read uid st b :
  status_of (set_status uid st (pop_pending uid b)) uid = st.
Proof. unfold status_of. simpl. by rewrite lookup_insert_eq. Qed.

(** C1.  An admin action on a user id whose entry is in the Review Queue
    pops the entry and writes the decided status; an action that finds no
    entry shows the already-processed notice and leaves the bot data as it
    was.  Hence of two successive actions on the same id the first takes
    effect and the second only shows the notice: the Directory keeps the
    status of the first. *)
Theorem C1_entry_processed_at_most_once cfg e1 e2 upd1 upd2 a1 a2 uid r :
  is_admin cfg (u_id (effective_user upd1)) = true →
  is_admin cfg (u_id (effective_user upd2)) = true →
  parse_action (query_data upd1) = Some (a1, uid) →
  parse_action (query_data upd2) = Some (a2, uid) →
  is_decision a1 →
  is_decision a2 →
  let r1 := (user_approval_handler cfg upd1 e1 r).2 in
  let r2 := (user_approval_handler cfg upd2 e2 r1).2 in
  (pending_reviews (run_bot r) !! uid = None →
     run_bot r1 = run_bot r ∧ run_log r1 = run_log r ++ stale_report e1 r) ∧
  (is_Some (pending_reviews (run_bot r) !! uid) →
     run_bot r1 = set_status uid (decided_status a1) (pop_pending uid (run_bot r)) ∧
     pending_reviews (run_bot r1) !! uid = None ∧
     run_bot r2 = run_bot r1 ∧
     run_log r2 = run_log r1 ++ stale_report e2 r1 ∧
     status_of (run_bot r2) uid = decided_status a1).
Proof.
  intros Had1 Had2 Hp1 Hp2 Hd1 Hd2 r1 r2. split.
  - intros Hnone. subst r1.
    rewrite (approval_absent _ _ _ _ _ _ Had1 Hp1 Hnone). done.
  - intros [info Hsome].
    destruct (approval_present cfg e1 upd1 r a1 uid info Had1 Hp1 Hd1 Hsome)
      as (r' & Hrun & Hbot & _).
    assert (Hr1 : r1 = r') by (subst r1; by rewrite Hrun).
    assert (Hgone : pending_reviews (run_bot r1) !! uid = None)
      by (rewrite Hr1, Hbot; apply popped_entry_gone).
    subst r2. rewrite (approval_absent _ _ _ _ _ _ Had2 Hp2 Hgone). simpl.
    rewrite Hr1, Hbot. repeat split; try done.
    + apply popped_entry_gone.
    + apply decided_status_read.
Qed.

(** C6.  When an admin action pops a Review Queue entry, the pop and the
    status change are in the resulting bot data whatever the transport does
    with the audit record, the invite, the notice to the user or the removal
    of the admin message, and the handler returns normally. *)
Theorem C6_transition_survives_delivery_failures cfg e upd r a uid info :
  is_admin cfg (u_id (effective_user upd)) = true →
  parse_action (query_data upd) = Some (a, uid) →
  is_decision a →
  pending_reviews (run_bot r) !! uid = Some info →
  (user_approval_handler cfg upd e r).1 = Ok None ∧
  status_of (run_bot (user_approval_handler cfg upd e r).2) uid = decided_status a ∧
  pending_reviews (run_bot (user_approval_handler cfg upd e r).2) !! uid = None ∧
  run_bot (user_approval_handler cfg upd e r).2
  = set_status uid (decided_status a) (pop_pending uid (run_bot r)).
Proof.
  intros Hadmin Hparse Hdec Hsome.
  destruct (approval_present cfg e upd r a uid info Hadmin Hparse Hdec Hsome)
    as (r' & -> & Hbot & _).
  simpl. rewrite Hbot. repeat split.
  - apply decided_status_read.
  - apply popped_entry_gone.
Qed.

(** ** Announcements *)

Lemma elem_of_target_users b sem u :
  u ∈ target_users b sem ↔
  user_statuses b !! u = Some "approved" ∧
  (sem = "all" ∨ user_data b !! u ≫= ui_semester = Some sem).
Proof.
  unfold target_users. rewrite list_elem_of_fmap. split.
  - intros ([u' st] & -> & Hin). apply list_elem_of_filter in Hin as [Ht Hin].
    apply elem_of_map_to_list in Hin. unfold is_target in Ht. cbn [fst snd] in *.
    apply andb_true_iff in Ht as [Hst Hsem].
    apply bool_decide_eq_true in Hst. subst st. split; [done |].
    apply orb_true_iff in Hsem as [H | H]; apply bool_decide_eq_true in H; auto.
  - intros [Hst Hsem]. exists (u, "approved"). split; [done |].
    apply list_elem_of_filter. split; [| by apply elem_of_map_to_list].
    unfold is_target. cbn [fst snd]. apply andb_true_iff. split.
    + by apply bool_decide_eq_true.
    + apply orb_true_iff. destruct Hsem; [left | right]; by apply bool_decide_eq_true.
Qed.

Lemma NoDup_target_users b sem : NoDup (target_users b sem).
Proof.
  unfold target_users.
  eapply sublist_NoDup; [apply (NoDup_fst_map_to_list (user_statuses b)) |].
  apply fmap_sublist, sublist_filter.
Qed.

(** A message that is neither text nor photo is relayed to nobody. *)
Lemma relay_nothing message u e r :
  truthy (m_text message) = false →
  m_photo message = [] →
  relay message u e r = (Ok tt, r).
Proof. intros Ht Hp. unfold relay. rewrite Ht, Hp. reflexivity. Qed.

Lemma announce_loop_nothing message targets :
  truthy (m_text message) = false →
  m_photo message = [] →
  ∀ sent failed e r,
    announce_loop message targets sent failed e r
    = (Ok ((sent + length targets)%nat, failed), r).
Proof.
  intros Ht Hp. induction targets as [| u rest IH]; intros sent failed e r; simpl.
  - unfold ret. by rewrite Nat.add_0_r.
  - unfold bind, try_except. rewrite (relay_nothing _ _ _ _ Ht Hp). unfold ret.
    rewrite IH. do 2 f_equal. f_equal. lia.
Qed.

(** Every pass of the loop bumps exactly one counter and only talks to the
    target at hand. *)
Lemma announce_loop_counts message targets :
  ∀ sent failed e r,
    ∃ sent' failed' deliveries n,
      announce_loop message targets sent failed e r
      = (Ok (sent', failed'),
         mkRun (run_bot r) (run_user r) (run_log r ++ deliveries) n) ∧
      (sent' + failed' = sent + failed + length targets)%nat ∧
      Forall (λ c, ∃ u, recipient c.1 = Some u ∧ u ∈ targets) deliveries.
Proof.
  induction targets as [| u rest IH]; intros sent failed e r; simpl.
  - exists sent, failed, [], (run_calls r). unfold ret. rewrite app_nil_r.
    destruct r. split; [done |]. split; [simpl; lia | constructor].
  - assert (Hrest : ∀ d : list (Call * bool),
              Forall (λ c, ∃ u', recipient c.1 = Some u' ∧ u' ∈ rest) d →
              Forall (λ c, ∃ u', recipient c.1 = Some u' ∧ u' ∈ u :: rest) d).
    { intros d Hall. eapply Forall_impl; [exact Hall |].
      intros c (u' & ? & ?). exists u'. split; [done | by right]. }
    assert (Hhere : ∀ c ok (d : list (Call * bool)),
              recipient c = Some u →
              Forall (λ c, ∃ u', recipient c.1 = Some u' ∧ u' ∈ rest) d →
              Forall (λ c, ∃ u', recipient c.1 = Some u' ∧ u' ∈ u :: rest)
                     ((c, ok) :: d)).
    { intros c ok d Hc Hall. constructor; [| by apply Hrest].
      exists u. split; [done | left]. }
    unfold bind at 1. unfold try_except, relay.
    destruct (truthy (m_text message)); [| destruct (last (m_photo message))];
      unfold_m; simpl; oracle e;
      match goal with |- context [announce_loop _ _ ?s ?f e ?r'] =>
        destruct (IH s f e r') as (s' & f' & d & n & -> & Hsum & Hall) end;
      simpl in *; rewrite <- ?app_assoc; simpl.
    all: try (eexists s', f', (_ :: d), n;
              split; [reflexivity |]; split; [lia |]; by apply Hhere).
    exists s', f', d, n. split; [reflexivity |]. split; [lia | by apply Hrest].
Qed.

(** C5.  The targets of an announcement are the users whose status is
    approved and, unless the cohort is all, whose stored semester is the
    cohort (so for First Semester: approved and stored semester First
    Semester); content goes to targets only, and the two counts of the
    summary add up to the number of targets. *)
Theorem C5_announcement_targets_and_counts e upd r :
  let sem := default "all" (announcement_semester (run_user r)) in
  let targets := target_users (run_bot r) sem in
  NoDup targets ∧
  (∀ u, u ∈ targets ↔
        user_statuses (run_bot r) !! u = Some "approved" ∧
        (sem = "all" ∨ user_data (run_bot r) !! u ≫= ui_semester = Some sem)) ∧
  (∀ u, u ∈ target_users (run_bot r) "First Semester" ↔
        user_statuses (run_bot r) !! u = Some "approved" ∧
        user_data (run_bot r) !! u ≫= ui_semester = Some "First Semester") ∧
  (∀ u, u ∈ target_users (run_bot r) "all" ↔
        user_statuses (run_bot r) !! u = Some "approved") ∧
  ∃ deliveries sent_count failed_count,
    run_log (announcement_content upd e r).2
    = run_log r ++ deliveries ++ [(summary sem sent_count failed_count, true)] ∧
    (sent_count + failed_count = length targets)%nat ∧
    Forall (λ c, ∃ u, recipient c.1 = Some u ∧ u ∈ targets) deliveries.
Proof.
  intros sem targets. split; [apply NoDup_target_users |].
  split; [intros u; apply elem_of_target_users |].
  split; [| split].
  - intros u. rewrite elem_of_target_users. split.
    + intros [? [? | ?]]; [discriminate | done].
    + intros [? ?]. auto.
  - intros u. rewrite elem_of_target_users. split; [tauto | auto].
  - unfold announcement_content, bind, get_session, get_bot.
    cbn beta iota. fold sem. fold targets.
    destruct (announce_loop_counts (effective_message upd) targets 0 0 e r)
      as (s' & f' & d & n & -> & Hsum & Hall).
    unfold_m. simpl. exists d, s', f'. rewrite <- app_assoc.
    repeat split; [lia | done].
Qed.

(** C10.  When the content has neither text nor photo, no content is sent to
    any target, yet the summary counts every target as sent and none as
    failed; the oracle is not even consulted. *)
Theorem C10_unsupported_content_counted_as_sent e upd r :
  truthy (m_text (effective_message upd)) = false →
  m_photo (effective_message upd) = [] →
  let sem := default "all" (announcement_semester (run_user r)) in
  let targets := target_users (run_bot r) sem in
  announcement_content upd e r
  = (Ok (Some END),
     mkRun (run_bot r) cleared
       (run_log r ++ [(summary sem (length targets) 0, true)]) (run_calls r)).
Proof.
  intros Ht Hp sem targets.
  unfold announcement_content, bind, get_session, get_bot.
  cbn beta iota. fold sem. fold targets.
  rewrite (announce_loop_nothing _ targets Ht Hp). unfold_m. reflexivity.
Qed.

(** ** Access gate *)

Lemma gate_without_link cfg chat_id members e r :
  for_each members (gate_member cfg chat_id None) e r = (Ok tt, r).
Proof.
  revert r. induction members as [| member rest IH]; intros r; [done |].
  cbn [for_each]. unfold bind. cbn [gate_member]. unfold ret at 1. apply IH.
Qed.

Lemma handle_new_chat_members_run cfg upd e r :
  handle_new_chat_members cfg upd e r = (Ok None, r).
Proof.
  unfold handle_new_chat_members, message_invite_link, bind, try_except.
  destruct (decide (Some (m_chat_id (effective_message upd)) = MAIN_CHANNEL_ID cfg)).
  - by rewrite gate_without_link.
  - done.
Qed.

(** C4, at the failing input.  Mallory has no status and joins the gated
    channel through a shared invite link; the update is the service message
    of the channel that lists her among the new members.  The handler of
    the gate takes it, finds no invite link on the message and makes no
    call: Mallory is not banned and no audit note is sent.  It is so for
    every update: a message has no invite link to read, so the gate never
    makes a call and never changes anything. *)
Theorem C4_gate_never_removes_anyone :
  let upd := MessageUpdate mallory join_message in
  status_of enrolled (u_id mallory) = "none" ∧
  Some (m_chat_id join_message) = MAIN_CHANNEL_ID sample_config ∧
  mallory ∈ m_new_chat_members join_message ∧
  select (handlers sample_config) (idle enrolled) upd
  = Some (MessageHandler
            (λ m, filter_NEW_CHAT_MEMBERS m
                  && filter_Chat (MAIN_CHANNEL_ID sample_config) m)
            (handle_new_chat_members sample_config), None) ∧
  (process_update sample_config calm upd (idle enrolled)).2 = [] ∧
  bot_data (process_update sample_config calm upd (idle enrolled)).1 = enrolled ∧
  ∀ cfg upd e r, handle_new_chat_members cfg upd e r = (Ok None, r).
Proof.
  intros upd. split; [reflexivity |]. split; [reflexivity |].
  split; [apply list_elem_of_here |]. split; [reflexivity |].
  split; [reflexivity |]. split; [reflexivity |].
  intros cfg upd' e r. apply handle_new_chat_members_run.
Qed.

(** ** Quiet computations *)

Lemma quiet_step_refl b : quiet_step b b.
Proof. split; auto. Qed.

Lemma quiet_step_trans b1 b2 b3 :
  quiet_step b1 b2 → quiet_step b2 b3 → quiet_step b1 b3.
Proof.
  intros [Hs1 Hq1] [Hs2 Hq2]. split; [congruence |].
  destruct Hq2 as [-> | ->]; auto.
Qed.

Section Quiet.

Context {A B : Type}.

Lemma quiet_ret (a : A) : quiet (ret a).
Proof. intros e r. apply quiet_step_refl. Qed.

Lemma quiet_raise : quiet (@raise A).
Proof. intros e r. apply quiet_step_refl. Qed.

Lemma quiet_bind (m : M A) (k : A → M B) :
  quiet m → (∀ a, quiet (k a)) → quiet (bind m k).
Proof.
  intros Hm Hk e r. unfold bind. specialize (Hm e r).
  destruct (m e r) as [[a |] r']; simpl in *; [| done].
  eapply quiet_step_trans; [exact Hm | apply Hk].
Qed.

Lemma quiet_try (m h : M A) : quiet m → quiet h → quiet (try_except m h).
Proof.
  intros Hm Hh e r. unfold try_except. specialize (Hm e r).
  destruct (m e r) as [[a |] r']; simpl in *; [done |].
  eapply quiet_step_trans; [exact Hm | apply Hh].
Qed.

End Quiet.

Lemma quiet_for_each {A} (l : list A) (body : A → M unit) :
  (∀ x, quiet (body x)) → quiet (for_each l body).
Proof.
  intros Hbody. induction l as [| x l IH]; simpl.
  - apply quiet_ret.
  - apply quiet_bind; [apply Hbody | intros _; exact IH].
Qed.

Lemma quiet_emit c : quiet (emit c).
Proof. intros e r. apply quiet_step_refl. Qed.

Lemma quiet_attempt c : quiet (attempt c).
Proof. intros e r. apply quiet_step_refl. Qed.

Lemma quiet_mint chat limit : quiet (mint_invite chat limit).
Proof.
  intros e r. unfold mint_invite, attempt.
  destruct (negb (fails e (run_calls r))); apply quiet_step_refl.
Qed.

Lemma quiet_get_bot : quiet get_bot.
Proof. intros e r. apply quiet_step_refl. Qed.

Lemma quiet_get_session : quiet get_session.
Proof. intros e r. apply quiet_step_refl. Qed.

Lemma quiet_set_session s : quiet (set_session s).
Proof. intros e r. apply quiet_step_refl. Qed.

Lemma quiet_modify_session f : quiet (modify_session f).
Proof. intros e r. apply quiet_step_refl. Qed.

Lemma quiet_modify_bot f :
  (∀ b, quiet_step b (f b)) → quiet (modify_bot f).
Proof. intros Hf e r. apply Hf. Qed.

Lemma quiet_second_part data : quiet (second_part data).
Proof.
  unfold second_part. destruct (split_on "_" data) as [| ? [| ? ?]];
    first [apply quiet_raise | apply quiet_ret].
Qed.

Lemma quiet_step_clear b : quiet_step b (clear_reviews b).
Proof. split; auto. Qed.

Lemma quiet_step_add_comment cid entry b : quiet_step b (add_comment cid entry b).
Proof. split; auto. Qed.

Lemma quiet_step_pop_comment cid b : quiet_step b (pop_comment cid b).
Proof. split; auto. Qed.

(** Breaks a handler into its calls and closes each with the lemmas above. *)
Ltac quiet_tac :=
  repeat first
    [ apply quiet_ret | apply quiet_raise | apply quiet_emit | apply quiet_attempt
    | apply quiet_mint | apply quiet_get_bot | apply quiet_get_session
    | apply quiet_set_session | apply quiet_modify_session | apply quiet_second_part
    | apply quiet_modify_bot; intros ?;
        first [apply quiet_step_clear | apply quiet_step_add_comment
              | apply quiet_step_pop_comment]
    | apply quiet_for_each; intros ?
    | apply quiet_try
    | apply quiet_bind; [| intros ?]
    | match goal with
      | |- quiet (if ?c then _ else _) => destruct c
      | |- quiet (match ?x with _ => _ end) => destruct x
      | |- quiet (let _ := _ in _) => cbv zeta
      end ].

Lemma quiet_error_handler cfg : quiet (error_handler cfg).
Proof. unfold error_handler. quiet_tac. Qed.

Lemma quiet_start cfg upd : quiet (start cfg upd).
Proof. unfold start. quiet_tac. Qed.

Lemma quiet_get_started upd : quiet (handle_get_started_callback upd).
Proof. unfold handle_get_started_callback. quiet_tac. Qed.

Lemma quiet_ask_question_start upd : quiet (ask_question_start upd).
Proof. unfold ask_question_start. quiet_tac. Qed.

Lemma quiet_show_help_support cfg upd : quiet (show_help_support cfg upd).
Proof. unfold show_help_support. quiet_tac. Qed.

Lemma quiet_announcement_start upd : quiet (announcement_start upd).
Proof. unfold announcement_start. quiet_tac. Qed.

Lemma quiet_view_stats upd : quiet (view_stats upd).
Proof. unfold view_stats. quiet_tac. Qed.

Lemma quiet_clear_pending_requests upd : quiet (clear_pending_requests upd).
Proof. unfold clear_pending_requests. quiet_tac. Qed.

Lemma quiet_view_pending_questions upd : quiet (view_pending_questions upd).
Proof. unfold view_pending_questions. quiet_tac. Qed.

Lemma quiet_handle_menu_buttons cfg upd : quiet (handle_menu_buttons cfg upd).
Proof.
  unfold handle_menu_buttons.
  apply quiet_bind; [apply quiet_get_bot | intros b].
  repeat match goal with |- quiet (if ?c then _ else _) => destruct c end;
    first [apply quiet_ret | apply quiet_bind; [| intros ?; apply quiet_ret]];
    first [apply quiet_ask_question_start | apply quiet_show_help_support
          | apply quiet_announcement_start | apply quiet_view_stats
          | apply quiet_clear_pending_requests | apply quiet_view_pending_questions
          | apply quiet_emit].
Qed.

Lemma quiet_get_full_name upd : quiet (get_full_name upd).
Proof. unfold get_full_name. quiet_tac. Qed.

Lemma quiet_get_semester upd : quiet (get_semester upd).
Proof. unfold get_semester. quiet_tac. Qed.

Lemma quiet_get_stream upd : quiet (get_stream upd).
Proof. unfold get_stream. quiet_tac. Qed.

Lemma quiet_get_gender upd : quiet (get_gender upd).
Proof. unfold get_gender. quiet_tac. Qed.

Lemma quiet_get_payment_method upd : quiet (get_payment_method upd).
Proof. unfold get_payment_method. quiet_tac. Qed.

Lemma quiet_cancel_registration_callback upd : quiet (cancel_registration_callback upd).
Proof. unfold cancel_registration_callback. quiet_tac. Qed.

Lemma quiet_cancel_announcement_callback upd : quiet (cancel_announcement_callback upd).
Proof. unfold cancel_announcement_callback. quiet_tac. Qed.

Lemma quiet_cancel_question_callback upd : quiet (cancel_question_callback upd).
Proof. unfold cancel_question_callback. quiet_tac. Qed.

Lemma quiet_cancel_reply_callback upd : quiet (cancel_reply_callback upd).
Proof. unfold cancel_reply_callback. quiet_tac. Qed.

Lemma quiet_cancel cfg upd : quiet (cancel cfg upd).
Proof. unfold cancel. quiet_tac. Qed.

Lemma quiet_receive_comment cfg upd : quiet (receive_comment cfg upd).
Proof. unfold receive_comment. quiet_tac. Qed.

Lemma quiet_reply_to_comment_start upd : quiet (reply_to_comment_start upd).
Proof. unfold reply_to_comment_start. quiet_tac. Qed.

Lemma quiet_send_reply_to_user upd : quiet (send_reply_to_user upd).
Proof. unfold send_reply_to_user. quiet_tac. Qed.

Lemma quiet_announcement_semester upd : quiet (announcement_semester_handler upd).
Proof. unfold announcement_semester_handler. quiet_tac. Qed.

Lemma quiet_announce_loop message targets :
  ∀ sent failed, quiet (announce_loop message targets sent failed).
Proof.
  induction targets as [| u rest IH]; intros sent failed; simpl.
  - apply quiet_ret.
  - apply quiet_bind.
    + unfold relay. quiet_tac.
    + intros [|]; apply IH.
Qed.

Lemma quiet_announcement_content upd : quiet (announcement_content upd).
Proof.
  unfold announcement_content.
  apply quiet_bind; [apply quiet_get_session | intros s].
  apply quiet_bind; [apply quiet_get_bot | intros b].
  apply quiet_bind; [apply quiet_announce_loop | intros counts]. quiet_tac.
Qed.

Lemma quiet_handle_new_chat_members cfg upd : quiet (handle_new_chat_members cfg upd).
Proof. unfold handle_new_chat_members, gate_member, remove_member. quiet_tac. Qed.

Create HintDb quiet.
#[local] Hint Resolve quiet_start quiet_get_started quiet_ask_question_start
  quiet_handle_menu_buttons quiet_get_full_name quiet_get_semester
  quiet_get_stream quiet_get_gender quiet_get_payment_method
  quiet_cancel_registration_callback quiet_cancel_announcement_callback
  quiet_cancel_question_callback quiet_cancel_reply_callback quiet_cancel
  quiet_receive_comment quiet_reply_to_comment_start quiet_send_reply_to_user
  quiet_announcement_start quiet_announcement_semester
  quiet_announcement_content quiet_handle_new_chat_members : quiet.

(** ** Which handler takes an update *)

Lemma first_match_Some hs upd h :
  first_match hs upd = Some h → h ∈ hs ∧ check_update h upd = true.
Proof.
  unfold first_match. intros H. apply find_some in H as [Hin Hc].
  split; [by apply list_elem_of_In | done].
Qed.

Lemma state_handlers_elem c st h :
  h ∈ state_handlers c st → ∃ hs, (st, hs) ∈ states c ∧ h ∈ hs.
Proof.
  unfold state_handlers.
  destruct (find (λ p, bool_decide (p.1 = st)) (states c)) as [[st' hs] |] eqn:Hf;
    simpl; [| by intros ?%elem_of_nil].
  apply find_some in Hf as [Hin Heq]. apply bool_decide_eq_true in Heq.
  simpl in Heq. subst st'. intros Hh. exists hs. split; [by apply list_elem_of_In | done].
Qed.

Lemma select_elim (P : BaseHandler → option ConvName → Prop) hs w upd h conv :
  select hs w upd = Some (h, conv) →
  (∀ h', Plain h' ∈ hs → check_update h' upd = true → P h' None) →
  (∀ name c h',
     Conversation name c ∈ hs →
     conversation_check c (conversations w name !! u_id (effective_user upd)) upd = Some h' →
     P h' (Some name)) →
  P h conv.
Proof.
  induction hs as [| [h0 | name c] rest IH]; simpl; intros Hsel Hplain Hconv; [done | |].
  - destruct (check_update h0 upd) eqn:Hc.
    + injection Hsel as <- <-. apply Hplain; [left | done].
    + apply IH; [done | |].
      * intros h' Hin. apply Hplain. by right.
      * intros name c h' Hin. apply Hconv. by right.
  - destruct (conversation_check c _ upd) as [h0 |] eqn:Hc.
    + injection Hsel as <- <-. eapply Hconv; [left | exact Hc].
    + apply IH; [done | |].
      * intros h' Hin. apply Hplain. by right.
      * intros name' c' h' Hin. apply Hconv. by right.
Qed.

Lemma conversation_check_elim (P : BaseHandler → Prop) c st upd h :
  conversation_check c st upd = Some h →
  (st = None → ∀ h', h' ∈ entry_points c → check_update h' upd = true → P h') →
  (is_Some st → ∀ s hs h', (s, hs) ∈ states c → h' ∈ hs →
                           check_update h' upd = true → P h') →
  (is_Some st → ∀ h', h' ∈ fallbacks c → check_update h' upd = true → P h') →
  P h.
Proof.
  unfold conversation_check. intros Hc Hentry Hstate Hfall.
  destruct st as [s |].
  - destruct (first_match (state_handlers c s) upd) as [h0 |] eqn:Hm.
    + injection Hc as <-. apply first_match_Some in Hm as [Hin Hchk].
      apply state_handlers_elem in Hin as (hs & Hs & Hin).
      eapply Hstate; eauto.
    + apply first_match_Some in Hc as [Hin Hchk]. apply Hfall; eauto.
  - apply first_match_Some in Hc as [Hin Hchk]. by apply Hentry.
Qed.

(** Splits membership in a literal list into its cases. *)
Ltac enumerate H :=
  repeat first
    [ apply elem_of_nil in H; destruct H
    | apply elem_of_cons in H as [H | H] ].

Lemma entry_safe_start cfg upd : entry_safe (start cfg) upd.
Proof.
  intros e r. left. unfold start. unfold_m. simpl.
  repeat case_match; reflexivity.
Qed.

Lemma entry_safe_get_started upd : entry_safe handle_get_started_callback upd.
Proof.
  intros e r. unfold handle_get_started_callback. unfold_m. simpl.
  destruct (decide (status_of (run_bot r) (u_id (effective_user upd)) = "approved"));
    [by left |].
  destruct (decide (status_of (run_bot r) (u_id (effective_user upd)) = "pending"));
    [by left |].
  by right.
Qed.

Lemma check_message_handler f cb upd :
  check_update (MessageHandler f cb) upd = true →
  ∃ from m, upd = MessageUpdate from m ∧ f m = true.
Proof. destruct upd as [from m | from d m]; simpl; [eauto | done]. Qed.

(** Every handler [main] registers is the approval handler, the screenshot
    handler inside a running registration, or a quiet one. *)
Lemma select_cases cfg w upd h conv :
  select (handlers cfg) w upd = Some (h, conv) →
  decides cfg h conv ∨ submits cfg w upd h conv ∨ stays_quiet w upd h conv.
Proof.
  intros Hsel.
  apply (select_elim
           (λ h conv, decides cfg h conv ∨ submits cfg w upd h conv ∨ stays_quiet w upd h conv)
           _ _ _ _ _ Hsel).
  - intros h' Hin Hchk. unfold handlers in Hin.
    apply elem_of_app in Hin as [Hin | Hin].
    + enumerate Hin; simplify_eq;
        first [ by left
              | right; right; split; [simpl; solve [auto with quiet] | done] ].
    + destruct (truthy_id (MAIN_CHANNEL_ID cfg)); enumerate Hin; simplify_eq.
      right; right; split; [simpl; solve [auto with quiet] | done].
  - intros name c h' Hin Hchk. unfold handlers in Hin.
    apply elem_of_app in Hin as [Hin | Hin];
      [| destruct (truthy_id (MAIN_CHANNEL_ID cfg)); enumerate Hin; simplify_eq].
    enumerate Hin; simplify_eq.
    + (* registration *)
      pattern h'; apply (conversation_check_elim _ _ _ _ _ Hchk).
      * intros Hnone h0 Hin0 Hc0. simpl in Hin0. enumerate Hin0; subst h0.
        -- right; right. split; [simpl; solve [auto with quiet] |].
           intros _. right. apply entry_safe_get_started.
        -- right; right. split; [simpl; solve [auto with quiet] |].
           intros _. right. apply entry_safe_start.
      * intros Hsome s hs h0 Hs Hin0 Hc0. simpl in Hs.
        enumerate Hs; simplify_eq; enumerate Hin0; subst h0;
          try (right; right; split; [simpl; solve [auto with quiet] | intros _; left; exact Hsome]).
        right; left. split; [done |]. split; [done |]. split; [exact Hsome |].
        apply check_message_handler in Hc0 as (from & m & -> & Hm).
        simpl. rewrite Hm. by rewrite bool_decide_eq_true_2.
      * intros Hsome h0 Hin0 Hc0. simpl in Hin0. enumerate Hin0; subst h0;
          right; right; (split; [simpl; solve [auto with quiet] | intros _; left; exact Hsome]).
    + pattern h'; apply (conversation_check_elim _ _ _ _ _ Hchk); simpl.
      * intros _ h0 Hin0 _. enumerate Hin0; subst h0.
        right; right. split; [simpl; solve [auto with quiet] | done].
      * intros _ s hs h0 Hs Hin0 _. enumerate Hs; simplify_eq; enumerate Hin0; subst h0.
        right; right. split; [simpl; solve [auto with quiet] | done].
      * intros _ h0 Hin0 _. enumerate Hin0; subst h0;
          right; right; (split; [simpl; solve [auto with quiet] | done]).
    + pattern h'; apply (conversation_check_elim _ _ _ _ _ Hchk); simpl.
      * intros _ h0 Hin0 _. enumerate Hin0; subst h0.
        right; right. split; [simpl; solve [auto with quiet] | done].
      * intros _ s hs h0 Hs Hin0 _. enumerate Hs; simplify_eq; enumerate Hin0; subst h0.
        right; right. split; [simpl; solve [auto with quiet] | done].
      * intros _ h0 Hin0 _. enumerate Hin0; subst h0;
          right; right; (split; [simpl; solve [auto with quiet] | done]).
    + pattern h'; apply (conversation_check_elim _ _ _ _ _ Hchk); simpl.
      * intros _ h0 Hin0 _. enumerate Hin0; subst h0.
        right; right. split; [simpl; solve [auto with quiet] | done].
      * intros _ s hs h0 Hs Hin0 _. enumerate Hs; simplify_eq; enumerate Hin0; subst h0;
          right; right; (split; [simpl; solve [auto with quiet] | done]).
      * intros _ h0 Hin0 _. enumerate Hin0; subst h0;
          right; right; (split; [simpl; solve [auto with quiet] | done]).
Qed.

(** ** What one update does to the Directory and the Review Queue *)

Lemma for_each_guarded {A} (l : list A) (c : A → Call) :
  ∀ e r, ∃ log n,
    for_each l (λ x, try_except (attempt (c x)) (ret tt)) e r
    = (Ok tt, mkRun (run_bot r) (run_user r) log n).
Proof.
  induction l as [| x l IH]; intros e r; simpl.
  - exists (run_log r), (run_calls r). unfold ret. by destruct r.
  - unfold bind at 1. unfold_m. simpl.
    destruct (fails e (run_calls r)); simpl;
      match goal with |- context [for_each l _ e ?r'] =>
        destruct (IH e r') as (log & n & ->) end; simpl; eauto.
Qed.

Lemma guarded_loop_run {A} (l : list A) (c : A → Call) e r :
  for_each l (λ x, try_except (attempt (c x)) (ret tt)) e r
  = (Ok tt,
     mkRun (run_bot r) (run_user r)
       (run_log r ++ zip_with (λ x k, (c x, negb (fails e k))) l
                       (seq (run_calls r) (length l)))
       (run_calls r + length l)).
Proof.
  revert r. induction l as [| x l IH]; intros r.
  - simpl. unfold ret. rewrite app_nil_r, Nat.add_0_r. by destruct r.
  - cbn [for_each]. unfold bind at 1. unfold try_except, attempt, ret.
    cbn [length seq zip_with].
    destruct (fails e (run_calls r)); cbn [negb];
      rewrite IH; cbn [run_bot run_user run_log run_calls];
      rewrite <- app_assoc; cbn [app]; do 2 f_equal; lia.
Qed.

Lemma error_handler_run cfg e r :
  error_handler cfg e r
  = (Ok tt,
     mkRun (run_bot r) (run_user r) (run_log r ++ admin_alerts cfg e (run_calls r))
       (run_calls r + length (ADMIN_IDS cfg))).
Proof. unfold error_handler, admin_alerts. apply guarded_loop_run. Qed.

Lemma error_handler_bot cfg e r :
  run_bot (error_handler cfg e r).2 = run_bot r ∧
  run_user (error_handler cfg e r).2 = run_user r.
Proof.
  unfold error_handler.
  destruct (for_each_guarded (ADMIN_IDS cfg)
              (λ admin_id, send_message admin_id (T0 "Bot error") NoMarkup) e r)
    as (log & n & ->). done.
Qed.

(** With a photo at hand [receive_screenshot] records the submission,
    whatever happens to the messages for the admins.  The confirmation is
    the call that follows the one guarded send per admin: when it returns
    the session is cleared and the conversation ends, when it raises the
    exception leaves the handler with the session as it was. *)
Lemma receive_screenshot_effect cfg upd e r :
  resubmits (u_id (effective_user upd)) upd = true →
  ∃ file_id log,
    last (m_photo (effective_message upd)) = Some file_id ∧
    let k := (run_calls r + length (ADMIN_IDS cfg))%nat in
    receive_screenshot cfg upd e r
    = (if fails e k then Exn else Ok (Some END),
       mkRun (submitted (effective_user upd) (run_user r) (effective_message upd)
                file_id (run_bot r))
             (if fails e k then run_user r else cleared) log (S k)).
Proof.
  destruct upd as [from m | from d m]; simpl; [| done].
  intros Hphoto. apply andb_true_iff in Hphoto as [_ Hphoto].
  unfold filter_PHOTO in Hphoto. unfold receive_screenshot. simpl.
  destruct (last (m_photo m)) as [file_id |] eqn:Hlast.
  - exists file_id.
    unfold modify_bot. unfold bind, get_session, get_bot, set_bot.
    cbn beta iota.
    match goal with
    | |- context [for_each (ADMIN_IDS cfg)
                    (λ x, try_except (attempt (@?c x)) (ret tt)) e ?r'] =>
        rewrite (guarded_loop_run (ADMIN_IDS cfg) c e r')
    end.
    unfold attempt, set_session, ret. simpl.
    destruct (fails e (run_calls r + length (ADMIN_IDS cfg))); simpl; eauto.
  - destruct (m_photo m) as [| x l]; [done |].
    apply last_None in Hlast. done.
Qed.

(** An approval run changes nothing, or pops an entry that was there and
    possibly writes approved or rejected for its user. *)
Lemma approval_effect cfg upd e r :
  let b' := run_bot (user_approval_handler cfg upd e r).2 in
  b' = run_bot r ∨
  ∃ uid info,
    pending_reviews (run_bot r) !! uid = Some info ∧
    (b' = pop_pending uid (run_bot r) ∨
     ∃ st, (st = "approved" ∨ st = "rejected") ∧
           b' = set_status uid st (pop_pending uid (run_bot r))).
Proof.
  unfold user_approval_handler, approval_body, send_log.
  destruct (is_admin cfg (u_id (effective_user upd))); simpl; [| by left].
  destruct (parse_action (query_data upd)) as [[a uid] |]; unfold_m; simpl;
    [| by left].
  destruct (pending_reviews (run_bot r) !! uid) as [info |] eqn:Hentry; simpl.
  - right. exists uid, info. split; [done |].
    destruct (decide (a = "approve")); [| destruct (decide (a = "reject"))]; simpl.
    + right. exists "approved". split; [by left |].
      destruct (truthy_id (LOG_CHANNEL_ID cfg)); simpl; oracle e; reflexivity.
    + right. exists "rejected". split; [by right |].
      destruct (truthy_id (LOG_CHANNEL_ID cfg)); simpl; oracle e; reflexivity.
    + by left.
  - left. destruct (fails e (run_calls r)); reflexivity.
Qed.

Lemma process_update_unselected cfg e upd w :
  select (handlers cfg) w upd = None → process_update cfg e upd w = (w, []).
Proof. intros H. unfold process_update. by rewrite H. Qed.

(** The bot data and the registration states after a selected handler. *)
Lemma process_update_selected cfg e upd w h conv :
  select (handlers cfg) w upd = Some (h, conv) →
  let uid := u_id (effective_user upd) in
  let out := callback h upd e (mkRun (bot_data w) (session_of w uid) [] 0) in
  let w' := (process_update cfg e upd w).1 in
  bot_data w' = run_bot out.2 ∧
  registration_state w'
  = match conv, out.1 with
    | Some Registration, Ok new_state => update_state uid new_state (registration_state w)
    | _, _ => registration_state w
    end.
Proof.
  intros Hsel uid out w'. subst w'. unfold process_update. rewrite Hsel.
  fold uid. fold out. destruct out as [[ns |] r] eqn:Hout; simpl.
  - destruct conv as [[] |]; done.
  - destruct (error_handler_bot cfg e r) as [-> _]. by destruct conv as [[] |].
Qed.

(** ** The status diagram *)

Lemma status_of_set_status uid st b u :
  status_of (set_status uid st b) u = if decide (u = uid) then st else status_of b u.
Proof.
  unfold status_of. simpl. destruct (decide (u = uid)) as [-> | Hne].
  - by rewrite lookup_insert_eq.
  - by rewrite lookup_insert_ne.
Qed.

Lemma status_of_stored b u st :
  user_statuses b !! u = Some st → status_of b u = st.
Proof. unfold status_of. by intros ->. Qed.

Lemma consistent_initial : consistent initial.
Proof.
  split; simpl.
  - intros u [x Hx]. by rewrite lookup_empty in Hx.
  - intros u st Hst. by rewrite lookup_empty in Hst.
Qed.

Lemma consistent_quiet w w' :
  consistent w →
  quiet_step (bot_data w) (bot_data w') →
  consistent w' ∧ moves_only w w'.
Proof.
  intros (Hq & Hs) [Hst Hrev]. split; [split |].
  - intros u Hu. rewrite Hst. apply Hq. destruct Hrev as [Hrev | Hrev].
    + by rewrite Hrev in Hu.
    + rewrite Hrev, lookup_empty in Hu. by destruct Hu.
  - intros u st. rewrite Hst. apply Hs.
  - intros u. left. unfold status_of. by rewrite Hst.
Qed.

Lemma consistent_pop w w' uid :
  consistent w →
  bot_data w' = pop_pending uid (bot_data w) →
  consistent w' ∧ moves_only w w'.
Proof.
  intros (Hq & Hs) Hb. split; [split |].
  - intros u Hu. rewrite Hb in *. simpl in *. apply Hq.
    destruct Hu as [x Hx]. apply lookup_delete_Some in Hx as [_ Hx]. eauto.
  - intros u st. rewrite Hb. apply Hs.
  - intros u. left. by rewrite Hb.
Qed.

Lemma consistent_decide w w' uid info st :
  consistent w →
  pending_reviews (bot_data w) !! uid = Some info →
  st = "approved" ∨ st = "rejected" →
  bot_data w' = set_status uid st (pop_pending uid (bot_data w)) →
  consistent w' ∧ moves_only w w'.
Proof.
  intros (Hq & Hs) Hentry Hst Hb.
  assert (Hpending : status_of (bot_data w) uid = "pending")
    by (apply status_of_stored, Hq; eauto).
  split; [split |].
  - intros u Hu. rewrite Hb in *. simpl in *.
    destruct Hu as [x Hx]. apply lookup_delete_Some in Hx as [Hne Hx].
    rewrite lookup_insert_ne by done. apply Hq. eauto.
  - intros u st'. rewrite Hb. simpl. destruct (decide (u = uid)) as [-> | Hne].
    + rewrite lookup_insert_eq. intros [= <-]. destruct Hst; auto.
    + rewrite lookup_insert_ne by done. apply Hs.
  - intros u. rewrite Hb, status_of_set_status.
    destruct (decide (u = uid)) as [-> | Hne]; [| by left].
    right. right. by rewrite Hpending.
Qed.

Lemma consistent_submit w w' user s message file_id :
  consistent w →
  bot_data w' = submitted user s message file_id (bot_data w) →
  consistent w' ∧ moves_only w w'.
Proof.
  intros (Hq & Hs) Hb.
  assert (Hstat : ∀ u, status_of (bot_data w') u
                       = if decide (u = u_id user) then "pending"
                         else status_of (bot_data w) u).
  { intros u. rewrite Hb. unfold submitted, status_of. simpl.
    destruct (decide (u = u_id user)) as [-> | Hne].
    - by rewrite lookup_insert_eq.
    - by rewrite lookup_insert_ne. }
  split; [split |].
  - intros u Hu. rewrite Hb in *. unfold submitted in *. simpl in *.
    destruct (decide (u = u_id user)) as [-> | Hne].
    + by rewrite lookup_insert_eq.
    + rewrite lookup_insert_ne in Hu by done. rewrite lookup_insert_ne by done.
      by apply Hq.
  - intros u st. rewrite Hb. unfold submitted. simpl.
    destruct (decide (u = u_id user)) as [-> | Hne].
    + rewrite lookup_insert_eq. intros [= <-]. auto.
    + rewrite lookup_insert_ne by done. apply Hs.
  - intros u. rewrite Hstat. destruct (decide (u = u_id user)) as [-> | Hne]; [| by left].
    right. by left.
Qed.

(** One update keeps the invariant, and moves a status, if at all, to
    pending or from pending to approved or rejected. *)
Lemma step_consistent cfg e upd w :
  consistent w →
  consistent (process_update cfg e upd w).1 ∧
  moves_only w (process_update cfg e upd w).1.
Proof.
  intros Hw.
  destruct (select (handlers cfg) w upd) as [[h conv] |] eqn:Hsel.
  - destruct (process_update_selected cfg e upd w h conv Hsel) as [Hb _].
    destruct (select_cases cfg w upd h conv Hsel)
      as [[Hcb ->] | [(Hcb & -> & Hactive & Hphoto) | [Hquiet Hentry]]].
    + rewrite Hcb in Hb.
      destruct (approval_effect cfg upd e
                  (mkRun (bot_data w) (session_of w (u_id (effective_user upd))) [] 0))
        as [Hsame | (uid & info & Hin & [Hpop | (st & Hst & Hdec)])]; simpl in *.
      * apply (consistent_quiet w); [done |].
        rewrite Hb, Hsame. apply quiet_step_refl.
      * apply (consistent_pop w _ uid); [done | by rewrite Hb, Hpop].
      * apply (consistent_decide w _ uid info st); [done | done | done |].
        by rewrite Hb, Hdec.
    + rewrite Hcb in Hb.
      destruct (receive_screenshot_effect cfg upd e
                  (mkRun (bot_data w) (session_of w (u_id (effective_user upd))) [] 0)
                  Hphoto)
        as (file_id & log & _ & Hrun).
      cbn zeta in Hrun. rewrite Hrun in Hb. simpl in Hb.
      eapply consistent_submit; [done | exact Hb].
    + apply (consistent_quiet w); [done |].
      rewrite Hb. apply (Hquiet upd e
                           (mkRun (bot_data w)
                              (session_of w (u_id (effective_user upd))) [] 0)).
  - rewrite (process_update_unselected cfg e upd w Hsel). simpl.
    split; [done | by left].
Qed.

Lemma consistent_run_updates cfg us :
  ∀ w, consistent w → consistent (run_updates cfg us w).
Proof.
  induction us as [| [e upd] us IH]; intros w Hw; simpl; [done |].
  apply IH. by apply step_consistent.
Qed.

(** C2, at the failing input.  Alice registers and sends her photo; the
    photo reaches the admin, but the confirmation to Alice raises, so she is
    pending and still at the screenshot step.  The admin approves her.  Her
    next photo is taken by [receive_screenshot] again and writes pending
    over approved, which is no edge of the diagram. *)
Theorem C2_lost_confirmation_reopens_approved_user :
  let w1 := run_updates sample_config alice_registers initial in
  let w2 := (process_update sample_config calm (press the_admin "approve_42") w1).1 in
  let w3 := (process_update sample_config calm
               (MessageUpdate alice (photo_message 8 "file-2")) w2).1 in
  status_of (bot_data w1) 42 = "pending" ∧
  registration_state w1 !! 42 = Some AWAITING_SCREENSHOT ∧
  status_of (bot_data w2) 42 = "approved" ∧
  registration_state w2 !! 42 = Some AWAITING_SCREENSHOT ∧
  status_of (bot_data w3) 42 = "pending" ∧
  ¬ status_edge (status_of (bot_data w2) 42) (status_of (bot_data w3) 42).
Proof.
  intros w1 w2 w3.
  assert (H2 : status_of (bot_data w2) 42 = "approved") by (vm_compute; reflexivity).
  assert (H3 : status_of (bot_data w3) 42 = "pending") by (vm_compute; reflexivity).
  split; [vm_compute; reflexivity |]. split; [vm_compute; reflexivity |].
  split; [exact H2 |]. split; [vm_compute; reflexivity |]. split; [exact H3 |].
  rewrite H2, H3. unfold status_edge. intros [[H _] | [[H _] | [[H _] | [H _]]]];
    discriminate.
Qed.

(** ** Clearing the Review Queue *)

Lemma clear_pending_requests_run upd e r :
  clear_pending_requests upd e r
  = (Ok None,
     mkRun (clear_reviews (run_bot r)) (run_user r)
       (run_log r ++ [(reply_text (mkText "Cleared" [ANat (size (pending_reviews (run_bot r)))])
                         admin_menu, true)])
       (run_calls r)).
Proof. reflexivity. Qed.

(** Without an entry for [u] and without a photo from [u], one update leaves
    both the missing entry and the stored status of [u] as they are. *)
Lemma step_without_resubmission cfg e upd w u :
  pending_reviews (bot_data w) !! u = None →
  resubmits u upd = false →
  pending_reviews (bot_data (process_update cfg e upd w).1) !! u = None ∧
  user_statuses (bot_data (process_update cfg e upd w).1) !! u
  = user_statuses (bot_data w) !! u.
Proof.
  intros Hnone Hno.
  destruct (select (handlers cfg) w upd) as [[h conv] |] eqn:Hsel.
  - destruct (process_update_selected cfg e upd w h conv Hsel) as [Hb _].
    destruct (select_cases cfg w upd h conv Hsel)
      as [[Hcb ->] | [(Hcb & -> & Hactive & Hphoto) | [Hquiet _]]].
    + rewrite Hcb in Hb.
      destruct (approval_effect cfg upd e
                  (mkRun (bot_data w) (session_of w (u_id (effective_user upd))) [] 0))
        as [Hsame | (uid & info & Hin & [Hpop | (st & Hst & Hdec)])]; simpl in *.
      * by rewrite Hb, Hsame.
      * rewrite Hb, Hpop. simpl. split; [| done].
        apply lookup_delete_None. by right.
      * assert (uid ≠ u) by (intros ->; congruence).
        rewrite Hb, Hdec. simpl. split.
        -- apply lookup_delete_None. by right.
        -- by rewrite lookup_insert_ne.
    + rewrite Hcb in Hb.
      destruct (receive_screenshot_effect cfg upd e
                  (mkRun (bot_data w) (session_of w (u_id (effective_user upd))) [] 0)
                  Hphoto)
        as (file_id & log & _ & Hrun).
      cbn zeta in Hrun. rewrite Hrun in Hb. simpl in Hb.
      assert (Hne : u_id (effective_user upd) ≠ u).
      { destruct upd as [from m | from d m]; simpl in *; [| done].
        apply andb_true_iff in Hphoto as [_ Hphoto]. rewrite Hphoto in Hno.
        rewrite andb_true_r in Hno. by apply bool_decide_eq_false in Hno. }
      rewrite Hb. unfold submitted. simpl.
      by rewrite !lookup_insert_ne.
    + destruct (Hquiet upd e
                  (mkRun (bot_data w) (session_of w (u_id (effective_user upd))) [] 0))
        as [Hst Hrev].
      rewrite <- Hb in Hst, Hrev. rewrite Hst. split; [| done].
      destruct Hrev as [-> | ->]; [done | apply lookup_empty].
  - by rewrite (process_update_unselected cfg e upd w Hsel).
Qed.

Lemma run_without_resubmission cfg u us :
  ∀ w,
    pending_reviews (bot_data w) !! u = None →
    forallb (λ p, negb (resubmits u p.2)) us = true →
    pending_reviews (bot_data (run_updates cfg us w)) !! u = None ∧
    user_statuses (bot_data (run_updates cfg us w)) !! u
    = user_statuses (bot_data w) !! u.
Proof.
  induction us as [| [e upd] us IH]; intros w Hnone Hus; simpl in *; [done |].
  apply andb_true_iff in Hus as [Hno Hus]. apply negb_true_iff in Hno.
  destruct (step_without_resubmission cfg e upd w u Hnone Hno) as [Hnone' Hst'].
  destruct (IH _ Hnone' Hus) as [Hnone'' Hst'']. split; [done | congruence].
Qed.

(** C9.  Clear Pending empties the Review Queue and touches neither the
    statuses nor the profile records.  A user who was pending is still
    pending and has no entry; an admin action on that user shows the
    already-processed notice and changes nothing; and through any later
    updates among which the user sends no photo, the user stays pending. *)
Theorem C9_clear_pending_strands_pending_users
    cfg e upd r w u s e2 upd2 a us :
  bot_data w = run_bot (clear_pending_requests upd e r).2 →
  status_of (run_bot r) u = "pending" →
  is_admin cfg (u_id (effective_user upd2)) = true →
  parse_action (query_data upd2) = Some (a, u) →
  forallb (λ p, negb (resubmits u p.2)) us = true →
  pending_reviews (bot_data w) = ∅ ∧
  user_statuses (bot_data w) = user_statuses (run_bot r) ∧
  user_data (bot_data w) = user_data (run_bot r) ∧
  status_of (bot_data w) u = "pending" ∧
  user_approval_handler cfg upd2 e2 (fresh_run (bot_data w) s)
  = (Ok None, mkRun (bot_data w) s (stale_report e2 (fresh_run (bot_data w) s)) 1) ∧
  status_of (bot_data (run_updates cfg us w)) u = "pending".
Proof.
  intros Hw Hpending Hadmin Hparse Hus.
  rewrite clear_pending_requests_run in Hw. simpl in Hw.
  assert (Hnone : pending_reviews (bot_data w) !! u = None)
    by (rewrite Hw; apply lookup_empty).
  split; [by rewrite Hw |]. split; [by rewrite Hw |]. split; [by rewrite Hw |].
  split; [by rewrite Hw |]. split.
  - by rewrite (approval_absent cfg e2 upd2 (fresh_run (bot_data w) s) a u).
  - destruct (run_without_resubmission cfg u us w Hnone Hus) as [_ Hst].
    unfold status_of in *. rewrite Hst, Hw. exact Hpending.
Qed.

(** ** The question flow *)

(** C3, at the failing input.  Alice has no status at all; her message
    Ask Question is taken by the entry point of the question conversation,
    which asks no status, and her next message is stored as a Pending
    Comment and sent to the admin with its reply control.  The check for
    approved members in [handle_menu_buttons] is never reached. *)
Theorem C3_ask_question_is_open_to_everyone :
  let ask := MessageUpdate alice (text_message 7 "Ask Question") in
  let question := MessageUpdate alice (text_message 8 "Is this free?") in
  let w1 := (process_update sample_config calm ask initial).1 in
  let step2 := process_update sample_config calm question w1 in
  status_of (bot_data initial) 42 = "none" ∧
  ask_comment_state w1 !! 42 = Some ASK_COMMENT ∧
  ci_comment <$> pending_comments (bot_data step2.1) !! "comment_42_8"
  = Some (Some "Is this free?") ∧
  ∃ body,
    (send_message 1 body
       (InlineKeyboardMarkup [[CallbackButton "Reply" "reply_comment_42_8"]]), true)
    ∈ step2.2.
Proof.
  vm_compute. repeat split. eexists. left.
Qed.

(** The guarded path: through [handle_menu_buttons] a user who is not
    approved is refused. *)
Lemma handle_menu_buttons_refuses cfg from m e r :
  m_text m = Some "Ask Question" →
  status_of (run_bot r) (u_id from) ≠ "approved" →
  handle_menu_buttons cfg (MessageUpdate from m) e r
  = (Ok None,
     mkRun (run_bot r) (run_user r)
       (run_log r ++ [(reply_text
                         (T0 "This feature is only available for approved members.")
                         NoMarkup, true)])
       (run_calls r)).
Proof.
  intros Ht Hst. unfold handle_menu_buttons. simpl. rewrite Ht. unfold_m. simpl.
  repeat case_decide; done.
Qed.

(** Whatever the status of a user with no conversation running, the text
    Ask Question puts them into the question state. *)
Lemma ask_question_enters_for_any_status cfg e from m w :
  m_text m = Some "Ask Question" →
  registration_state w !! u_id from = None →
  ask_comment_state w !! u_id from = None →
  ask_comment_state (process_update cfg e (MessageUpdate from m) w).1 !! u_id from
  = Some ASK_COMMENT.
Proof.
  intros Ht Hreg Hask.
  assert (Hsel : select (handlers cfg) w (MessageUpdate from m)
                 = Some (MessageHandler (filter_Text "Ask Question") ask_question_start,
                         Some AskComment)).
  { assert (Hf : filter_Text "Ask Question" m = true)
      by (unfold filter_Text; by rewrite Ht).
    unfold handlers. simpl.
    do 3 (rewrite ?Hreg, ?Hask, ?Ht, ?Hf; simpl). reflexivity. }
  unfold process_update. rewrite Hsel. simpl. apply lookup_insert_eq.
Qed.

(** The entry point of the question conversation asks no status. *)
Lemma ask_question_start_any_status upd e r :
  (ask_question_start upd e r).1 = Ok (Some ASK_COMMENT).
Proof. reflexivity. Qed.

(** ** Streams *)

Lemma stream_options_first :
  offered (stream_keyboard "First Semester") = ["Social Science"; "Natural Science"].
Proof. reflexivity. Qed.

Lemma stream_options_second :
  offered (stream_keyboard "Second Semester")
  = ["Pre-Engineering"; "Other Natural Science"; "Social Science"; "Health Science"].
Proof. reflexivity. Qed.

(** Every offered button but Health Science stores its own label. *)
Lemma stream_button_stores_label sem b :
  b ∈ concat (stream_keyboard sem) →
  b ≠ CallbackButton "Health Science" "stream_Health" →
  split_on "_" (button_data b) = ["stream"; button_label b].
Proof.
  unfold stream_keyboard. intros Hin Hne.
  destruct (decide (sem = "First Semester"));
    [| destruct (decide (sem = "Second Semester"))];
    simpl in Hin; enumerate Hin; subst b; done.
Qed.

(** C7, at the failing input.  The button labelled Health Science is
    offered for Second Semester and carries the data stream_Health; pressing
    it stores the stream Health, and that is the stream of the submission
    record. *)
Theorem C7_health_science_is_stored_as_health cfg e1 e2 from m photo_m file_id r :
  CallbackButton "Health Science" "stream_Health"
    ∈ concat (stream_keyboard "Second Semester") ∧
  let r1 := (get_stream (CallbackUpdate from "stream_Health" m) e1 r).2 in
  stream (run_user r1) = Some "Health" ∧
  stream (run_user r1) ≠ Some "Health Science" ∧
  pi_stream
    <$> pending_reviews
          (submitted from (run_user r1) photo_m file_id (run_bot r1)) !! u_id from
  = Some (Some "Health") ∧
  (resubmits (u_id from) (MessageUpdate from photo_m) = true →
   ∃ file_id',
     run_bot (receive_screenshot cfg (MessageUpdate from photo_m) e2 r1).2
     = submitted from (run_user r1) photo_m file_id' (run_bot r1)).
Proof.
  split; [simpl; do 3 right; left |].
  intros r1.
  assert (Hs : stream (run_user r1) = Some "Health") by reflexivity.
  split; [done |]. split; [by rewrite Hs |]. split.
  - unfold submitted. cbn [pending_reviews set_pending pi_stream].
    rewrite lookup_insert_eq. cbn. first [done | by rewrite Hs].
  - intros Hphoto.
    destruct (receive_screenshot_effect cfg (MessageUpdate from photo_m) e2 r1 Hphoto)
      as (file_id' & log & _ & Hrun).
    exists file_id'. cbn zeta in Hrun. by rewrite Hrun.
Qed.

(** ** Cancelling a registration *)

(** The callback clears the session, touches no bot data and returns END. *)
Lemma cancel_registration_callback_run upd e r :
  cancel_registration_callback upd e r
  = (Ok (Some END),
     mkRun (run_bot r) cleared
       (run_log r ++ [(answer None, true)]
                  ++ [(edit_message_text (T0 "Registration Cancelled") NoMarkup, true)])
       (run_calls r)).
Proof. unfold cancel_registration_callback. unfold_m. simpl. by rewrite <- app_assoc. Qed.

(** So does the command. *)
Lemma cancel_run cfg upd e r :
  ∃ log, cancel cfg upd e r
         = (Ok (Some END), mkRun (run_bot r) cleared log (run_calls r)).
Proof.
  unfold cancel. unfold_m. simpl.
  destruct (is_admin cfg (u_id (effective_user upd))); [eauto |].
  destruct (decide (status_of (run_bot r) (u_id (effective_user upd)) = "approved"));
    eauto.
Qed.

(** Through the command the registration conversation does end, from every
    state. *)
Lemma cancel_command_ends_registration cfg e from m w st :
  m_text m = Some "/cancel" →
  m_photo m = [] →
  registration_state w !! u_id from = Some st →
  let w' := (process_update cfg e (MessageUpdate from m) w).1 in
  registration_state w' !! u_id from = None ∧
  session_of w' (u_id from) = cleared ∧
  bot_data w' = bot_data w.
Proof.
  intros Ht Hp Hst.
  assert (Hsel : select (handlers cfg) w (MessageUpdate from m)
                 = Some (CommandHandler "cancel" (cancel cfg), Some Registration)).
  { unfold handlers. simpl. rewrite Hst. unfold conversation_check, state_handlers.
    assert (Htext : text_not_command m = false)
      by (unfold text_not_command, filter_TEXT, filter_COMMAND; by rewrite Ht).
    assert (Hphoto : filter_PHOTO m = false)
      by (unfold filter_PHOTO; by rewrite Hp).
    simpl. rewrite ?Ht, ?Htext, ?Hphoto. simpl.
    repeat (case_bool_decide; simpl; rewrite ?Ht, ?Htext, ?Hphoto; simpl);
      first [reflexivity | rewrite Ht in *; simpl in *; done]. }
  intros w'. subst w'. unfold process_update. rewrite Hsel.
  cbn [callback CommandHandler MessageHandler effective_user].
  destruct (cancel_run cfg (MessageUpdate from m) e
              (mkRun (bot_data w) (session_of w (u_id from)) [] 0)) as [log ->].
  simpl. split; [apply lookup_delete_eq |]. split; [| done].
  unfold session_of. simpl. by rewrite lookup_insert_eq.
Qed.

(** C8, at the failing input.  The Cancel button sends the callback data
    cancel_registration, which the stand-alone handler registered ahead of
    the conversations takes: the session is cleared and the bot data are
    untouched, but the state of the registration conversation is what it
    was, so a user who was in the middle of the flow is still there. *)
Theorem C8_cancel_button_leaves_conversation_running cfg e from m w :
  let upd := CallbackUpdate from "cancel_registration" m in
  let w' := (process_update cfg e upd w).1 in
  session_of w' (u_id from) = cleared ∧
  bot_data w' = bot_data w ∧
  registration_state w' = registration_state w.
Proof.
  intros upd w'. subst upd w'. unfold process_update, handlers. simpl.
  split; [| done]. unfold session_of. simpl. by rewrite lookup_insert_eq.
Qed.

(** Alice starts a registration, gives her name and presses Cancel: she is
    still asked for her semester, and her next choice is taken. *)
Example cancel_button_flow :
  let w1 := (process_update sample_config calm
               (CallbackUpdate alice "get_started" (button_press 1)) initial).1 in
  let w2 := (process_update sample_config calm
               (MessageUpdate alice (text_message 2 "Alemu B")) w1).1 in
  let w3 := (process_update sample_config calm
               (CallbackUpdate alice "cancel_registration" (button_press 3)) w2).1 in
  let w4 := (process_update sample_config calm
               (CallbackUpdate alice "semester_First Semester" (button_press 3)) w3).1 in
  registration_state w2 !! 42 = Some GET_SEMESTER ∧
  registration_state w3 !! 42 = Some GET_SEMESTER ∧
  session_of w3 42 = cleared ∧
  registration_state w4 !! 42 = Some GET_STREAM.
Proof. vm_compute. done. Qed.

(** ** The worked example of the registration flow *)

Example registration_then_approval :
  let press d := CallbackUpdate alice d (button_press 3) in
  let w :=
    run_updates sample_config
      [(calm, CallbackUpdate alice "get_started" (button_press 1));
       (calm, MessageUpdate alice (text_message 2 "Alemu B"));
       (calm, press "semester_First Semester");
       (calm, press "stream_Natural Science");
       (calm, press "gender_Male");
       (calm, press "method_CBE");
       (calm, MessageUpdate alice (photo_message 4 "file-1"))]
      initial in
  let w' :=
    (process_update sample_config calm
       (CallbackUpdate the_admin "approve_42" (button_press 9)) w).1 in
  status_of (bot_data w) 42 = "pending" ∧
  pi_payment_id <$> pending_reviews (bot_data w) !! 42 = Some "ABJ423" ∧
  pi_stream <$> pending_reviews (bot_data w) !! 42 = Some (Some "Natural Science") ∧
  registration_state w !! 42 = None ∧
  status_of (bot_data w') 42 = "approved" ∧
  pending_reviews (bot_data w') !! 42 = None.
Proof. vm_compute. done. Qed.

(** ** Python helpers on samples *)

Example split_semester :
  split_on "_" "semester_First Semester" = ["semester"; "First Semester"].
Proof. reflexivity. Qed.

Example split_three : split_on "_" "comment_12_7" = ["comment"; "12"; "7"].
Proof. reflexivity. Qed.

Example py_int_plain : py_int "5512" = Some 5512.
Proof. reflexivity. Qed.

Example py_int_spaces : py_int " -12 " = Some (-12).
Proof. reflexivity. Qed.

Example py_int_word : py_int "12a" = None.
Proof. reflexivity. Qed.

Example strip_name : strip "  Alemu B " = "Alemu B".
Proof. reflexivity. Qed.

Example remove_reply : remove_all "reply_" "reply_comment_12_7" = "comment_12_7".
Proof. reflexivity. Qed.

Example parse_approve : parse_action "approve_42" = Some ("approve", 42).
Proof. reflexivity. Qed.

Example parse_three_parts : parse_action "approve_4_2" = None.
Proof. reflexivity. Qed.

(** ** The theorems at sample inputs *)

Lemma C1_witness :
  is_admin sample_config (u_id (effective_user (press the_admin "approve_42"))) = true ∧
  is_admin sample_config (u_id (effective_user (press the_admin "reject_42"))) = true ∧
  parse_action (query_data (press the_admin "approve_42")) = Some ("approve", 42) ∧
  parse_action (query_data (press the_admin "reject_42")) = Some ("reject", 42) ∧
  is_decision "approve" ∧
  is_decision "reject" ∧
  let r := fresh_run queued cleared in
  let r1 := (user_approval_handler sample_config (press the_admin "approve_42") calm r).2 in
  let r2 := (user_approval_handler sample_config (press the_admin "reject_42") stormy r1).2 in
  (pending_reviews (run_bot r) !! 42 = None →
     run_bot r1 = run_bot r ∧ run_log r1 = run_log r ++ stale_report calm r) ∧
  (is_Some (pending_reviews (run_bot r) !! 42) →
     run_bot r1 = set_status 42 (decided_status "approve") (pop_pending 42 (run_bot r)) ∧
     pending_reviews (run_bot r1) !! 42 = None ∧
     run_bot r2 = run_bot r1 ∧
     run_log r2 = run_log r1 ++ stale_report stormy r1 ∧
     status_of (run_bot r2) 42 = decided_status "approve").
Proof.
  split; [reflexivity |]. split; [reflexivity |]. split; [reflexivity |].
  split; [reflexivity |]. split; [left; reflexivity |]. split; [right; reflexivity |].
  apply (C1_entry_processed_at_most_once sample_config calm stormy
           (press the_admin "approve_42") (press the_admin "reject_42")
           "approve" "reject" 42 (fresh_run queued cleared)).
  - reflexivity.
  - reflexivity.
  - reflexivity.
  - reflexivity.
  - left; reflexivity.
  - right; reflexivity.
Defined.

Lemma C6_witness :
  is_admin sample_config (u_id (effective_user (press the_admin "approve_42"))) = true ∧
  parse_action (query_data (press the_admin "approve_42")) = Some ("approve", 42) ∧
  is_decision "approve" ∧
  pending_reviews (run_bot (fresh_run queued cleared)) !! 42 = Some sample_entry ∧
  let out :=
    user_approval_handler sample_config (press the_admin "approve_42") stormy
      (fresh_run queued cleared) in
  out.1 = Ok None ∧
  status_of (run_bot out.2) 42 = decided_status "approve" ∧
  pending_reviews (run_bot out.2) !! 42 = None ∧
  run_bot out.2
  = set_status 42 (decided_status "approve")
      (pop_pending 42 (run_bot (fresh_run queued cleared))).
Proof.
  split; [reflexivity |]. split; [reflexivity |]. split; [left; reflexivity |].
  split; [reflexivity |].
  apply (C6_transition_survives_delivery_failures sample_config stormy
           (press the_admin "approve_42") (fresh_run queued cleared)
           "approve" 42 sample_entry).
  - reflexivity.
  - reflexivity.
  - left; reflexivity.
  - reflexivity.
Defined.

Lemma C9_witness :
  let w := mkWorld (clear_reviews queued) ∅ ∅ ∅ ∅ ∅ in
  let clear := MessageUpdate the_admin (text_message 5 "Clear Pending") in
  let us := [(calm, press the_admin "approve_42");
             (calm, MessageUpdate alice (text_message 6 "hello"))] in
  bot_data w = run_bot (clear_pending_requests clear calm (fresh_run queued cleared)).2 ∧
  status_of (run_bot (fresh_run queued cleared)) 42 = "pending" ∧
  is_admin sample_config (u_id (effective_user (press the_admin "approve_42"))) = true ∧
  parse_action (query_data (press the_admin "approve_42")) = Some ("approve", 42) ∧
  forallb (λ p, negb (resubmits 42 p.2)) us = true ∧
  pending_reviews (bot_data w) = ∅ ∧
  user_statuses (bot_data w) = user_statuses (run_bot (fresh_run queued cleared)) ∧
  user_data (bot_data w) = user_data (run_bot (fresh_run queued cleared)) ∧
  status_of (bot_data w) 42 = "pending" ∧
  user_approval_handler sample_config (press the_admin "approve_42") stormy
    (fresh_run (bot_data w) cleared)
  = (Ok None,
     mkRun (bot_data w) cleared
       (stale_report stormy (fresh_run (bot_data w) cleared)) 1) ∧
  status_of (bot_data (run_updates sample_config us w)) 42 = "pending".
Proof.
  intros w clear us.
  split; [reflexivity |]. split; [reflexivity |]. split; [reflexivity |].
  split; [reflexivity |]. split; [reflexivity |].
  apply (C9_clear_pending_strands_pending_users sample_config calm clear
           (fresh_run queued cleared) w 42 cleared stormy
           (press the_admin "approve_42") "approve" us).
  - reflexivity.
  - reflexivity.
  - reflexivity.
  - reflexivity.
  - reflexivity.
Defined.

Lemma C10_witness :
  let upd := MessageUpdate the_admin (document_message 5) in
  let r := fresh_run enrolled (announcing "all") in
  truthy (m_text (effective_message upd)) = false ∧
  m_photo (effective_message upd) = [] ∧
  let sem := default "all" (announcement_semester (run_user r)) in
  let targets := target_users (run_bot r) sem in
  announcement_content upd stormy r
  = (Ok (Some END),
     mkRun (run_bot r) cleared
       (run_log r ++ [(summary sem (length targets) 0, true)]) (run_calls r)).
Proof.
  intros upd r. split; [reflexivity |]. split; [reflexivity |].
  apply (C10_unsupported_content_counted_as_sent stormy upd r).
  - reflexivity.
  - reflexivity.
Defined.

(** A document for all students with Alice approved: nothing is sent and
    the summary says one sent, none failed. *)
Example document_announcement :
  (announcement_content (MessageUpdate the_admin (document_message 5)) calm
     (fresh_run enrolled (announcing "all"))).2
  = mkRun enrolled cleared [(summary "all" 1 0, true)] 0.
Proof. vm_compute. reflexivity. Qed.

(** A text for First Semester with Alice approved reaches Alice. *)
Example text_announcement :
  run_log (announcement_content
             (MessageUpdate the_admin (text_message 5 "Exam on Monday")) calm
             (fresh_run enrolled (announcing "First Semester"))).2
  = [(send_message 42
        (mkText "Announcement from ABJ Tutorial" [AOpt (Some "Exam on Monday")])
        NoMarkup, true);
     (summary "First Semester" 1 0, true)].
Proof. vm_compute. reflexivity. Qed.

(** * Further properties *)

(** ** Invariants of the reachable states *)

(** X1.  In every state the application can reach, a user with a Review
    Queue entry has the stored status pending, and the only statuses ever
    stored are pending, approved and rejected.  One more update leaves a
    status as it is, writes pending, or turns pending into approved or
    rejected: nobody becomes approved or rejected who was not pending, and
    no status is ever removed. *)
Theorem statuses_move_only_through_pending cfg us e upd u :
  let w := run_updates cfg us initial in
  let w' := (process_update cfg e upd w).1 in
  (is_Some (pending_reviews (bot_data w) !! u) →
   user_statuses (bot_data w) !! u = Some "pending") ∧
  (∀ st, user_statuses (bot_data w) !! u = Some st →
         st = "pending" ∨ st = "approved" ∨ st = "rejected") ∧
  (status_of (bot_data w') u = status_of (bot_data w) u ∨
   status_of (bot_data w') u = "pending" ∨
   status_of (bot_data w) u = "pending" ∧
   (status_of (bot_data w') u = "approved" ∨ status_of (bot_data w') u = "rejected")).
Proof.
  intros w w'.
  assert (Hw : consistent w) by apply consistent_run_updates, consistent_initial.
  destruct Hw as [Hq Hs] eqn:E. clear E.
  split; [apply Hq |]. split; [intros st; apply Hs |].
  destruct (step_consistent cfg e upd w (conj Hq Hs)) as [_ Hmove].
  destruct (Hmove u) as [Heq | [Hp | Hd]]; auto.
Qed.

(** ** A photo at the screenshot step *)

(** What the application keeps of a photo at the screenshot step; [lost]
    says that the confirmation to the user, the call after the one guarded
    send per admin, raises. *)
Lemma photo_step cfg e from m w file_id :
  last (m_photo m) = Some file_id →
  registration_state w !! u_id from = Some AWAITING_SCREENSHOT →
  let out := process_update cfg e (MessageUpdate from m) w in
  let lost := fails e (length (ADMIN_IDS cfg)) in
  bot_data out.1
  = submitted from (session_of w (u_id from)) m file_id (bot_data w) ∧
  session_of out.1 (u_id from)
  = (if lost then session_of w (u_id from) else cleared) ∧
  registration_state out.1 !! u_id from
  = (if lost then Some AWAITING_SCREENSHOT else None).
Proof.
  intros Hlast Hreg out lost. subst out lost.
  assert (Hphoto : filter_PHOTO m = true).
  { unfold filter_PHOTO. destruct (m_photo m); [done | done]. }
  assert (Hsel : select (handlers cfg) w (MessageUpdate from m)
                 = Some (MessageHandler filter_PHOTO (receive_screenshot cfg),
                         Some Registration)).
  { unfold handlers. simpl. rewrite Hreg. simpl. rewrite Hphoto. reflexivity. }
  unfold process_update. rewrite Hsel.
  cbn [callback MessageHandler effective_user u_id].
  assert (Hre : resubmits (u_id (effective_user (MessageUpdate from m)))
                  (MessageUpdate from m) = true).
  { simpl. rewrite bool_decide_eq_true_2 by done. by rewrite Hphoto. }
  destruct (receive_screenshot_effect cfg (MessageUpdate from m) e
              (mkRun (bot_data w) (session_of w (u_id from)) [] 0) Hre)
    as (file_id' & log & Hlast' & Hrun).
  cbn [effective_user effective_message u_id run_calls run_user run_bot] in *.
  cbn zeta in Hrun. rewrite Nat.add_0_l in Hrun. rewrite Hrun.
  rewrite Hlast in Hlast'. injection Hlast' as <-.
  destruct (fails e (length (ADMIN_IDS cfg))).
  - rewrite error_handler_run. cbn. split; [done |]. split; [| done].
    unfold session_of at 1. cbn. by rewrite lookup_insert_eq.
  - cbn. split; [done |]. split.
    + unfold session_of. cbn. by rewrite lookup_insert_eq.
    + apply lookup_delete_eq.
Qed.

(** X2.  When the confirmation of a submission raises, the submission is
    recorded all the same, but the user is left at the screenshot step with
    the session as it was; the next photo of that user is then taken as a
    new submission and replaces the entry under review.  The confirmation
    is the call that follows the one guarded photo per admin, so it is the
    fallible call number [length ADMIN_IDS] of the run. *)
Theorem lost_confirmation_lets_a_photo_replace_the_entry
    cfg e1 e2 from m1 m2 w file1 file2 :
  last (m_photo m1) = Some file1 →
  last (m_photo m2) = Some file2 →
  registration_state w !! u_id from = Some AWAITING_SCREENSHOT →
  fails e1 (length (ADMIN_IDS cfg)) = true →
  let w1 := (process_update cfg e1 (MessageUpdate from m1) w).1 in
  let w2 := (process_update cfg e2 (MessageUpdate from m2) w1).1 in
  status_of (bot_data w1) (u_id from) = "pending" ∧
  pi_screenshot_file_id <$> pending_reviews (bot_data w1) !! u_id from = Some file1 ∧
  registration_state w1 !! u_id from = Some AWAITING_SCREENSHOT ∧
  session_of w1 (u_id from) = session_of w (u_id from) ∧
  pi_screenshot_file_id <$> pending_reviews (bot_data w2) !! u_id from = Some file2.
Proof.
  intros H1 H2 Hreg Hlost w1 w2.
  destruct (photo_step cfg e1 from m1 w file1 H1 Hreg) as (Hb1 & Hs1 & Hr1).
  cbn zeta in Hs1, Hr1. rewrite Hlost in Hs1, Hr1. fold w1 in Hb1, Hs1, Hr1.
  destruct (photo_step cfg e2 from m2 w1 file2 H2 Hr1) as (Hb2 & _ & _).
  fold w2 in Hb2.
  split; [| split; [| split; [done | split; [done |]]]].
  - rewrite Hb1. unfold submitted, status_of. simpl. by rewrite lookup_insert_eq.
  - rewrite Hb1. unfold submitted. simpl. by rewrite lookup_insert_eq.
  - rewrite Hb2. unfold submitted. simpl. by rewrite lookup_insert_eq.
Qed.

(** ** Announcements: one attempt per target *)

Lemma announce_loop_text message targets :
  truthy (m_text message) = true →
  ∀ sent failed e r,
    announce_loop message targets sent failed e r
    = (Ok ((sent + delivered e (run_calls r) (length targets))%nat,
           (failed + undelivered e (run_calls r) (length targets))%nat),
       mkRun (run_bot r) (run_user r)
         (run_log r ++ text_attempts message e (run_calls r) targets)
         (run_calls r + length targets)).
Proof.
  intros Ht. induction targets as [| u rest IH]; intros sent failed e r.
  - simpl. unfold ret, delivered, undelivered, text_attempts. simpl.
    rewrite app_nil_r, !Nat.add_0_r. by destruct r.
  - cbn [announce_loop]. unfold bind at 1. unfold try_except, relay.
    rewrite Ht. unfold bind at 1. unfold attempt, ret.
    unfold delivered, undelivered, text_attempts in *.
    cbn [length seq zip_with]. rewrite !filter_cons.
    destruct (fails e (run_calls r)) eqn:Hf; cbn [negb];
      rewrite IH; cbn [run_bot run_user run_log run_calls];
      rewrite <- app_assoc; cbn [app];
      repeat case_decide; try congruence;
      cbn [length];
      (f_equal; [do 2 f_equal; lia | f_equal; first [done | lia]]).
Qed.

(** The run of [announcement_content] on a text. *)
Lemma announcement_content_text e upd r :
  truthy (m_text (effective_message upd)) = true →
  let sem := default "all" (announcement_semester (run_user r)) in
  let targets := target_users (run_bot r) sem in
  let n := length targets in
  announcement_content upd e r
  = (Ok (Some END),
     mkRun (run_bot r) cleared
       (run_log r ++ text_attempts (effective_message upd) e (run_calls r) targets
                  ++ [(summary sem (delivered e (run_calls r) n)
                         (undelivered e (run_calls r) n), true)])
       (run_calls r + n)).
Proof.
  intros Ht sem targets n.
  unfold announcement_content, bind, get_session, get_bot.
  cbn beta iota. fold sem. fold targets.
  rewrite (announce_loop_text _ targets Ht). unfold emit, set_session, ret.
  cbn. fold n. by rewrite <- app_assoc.
Qed.

Lemma delivered_plus_undelivered e start n :
  (delivered e start n + undelivered e start n = n)%nat.
Proof.
  unfold delivered, undelivered. revert start.
  induction n as [| n IH]; intros start; [done |].
  cbn [seq]. rewrite !filter_cons.
  destruct (fails e start); simpl; specialize (IH (S start)); lia.
Qed.

Lemma text_attempts_length message e start targets :
  length (text_attempts message e start targets) = length targets.
Proof.
  unfold text_attempts. rewrite length_zip_with, length_seq. lia.
Qed.

(** X3.  For a text announcement every target gets exactly one send, in the
    order of the target list, whatever the earlier sends did: a failed send
    does not stop the batch.  The summary counts the sends that returned as
    sent and those that raised as failed, and the two counts add up to the
    number of targets. *)
Theorem text_announcement_attempts_every_target e upd r :
  truthy (m_text (effective_message upd)) = true →
  let sem := default "all" (announcement_semester (run_user r)) in
  let targets := target_users (run_bot r) sem in
  let n := length targets in
  run_log (announcement_content upd e r).2
  = run_log r ++ text_attempts (effective_message upd) e (run_calls r) targets
              ++ [(summary sem (delivered e (run_calls r) n)
                     (undelivered e (run_calls r) n), true)] ∧
  length (text_attempts (effective_message upd) e (run_calls r) targets) = n ∧
  (delivered e (run_calls r) n + undelivered e (run_calls r) n = n)%nat.
Proof.
  intros Ht sem targets n. rewrite (announcement_content_text e upd r Ht).
  split; [done |]. split.
  - apply text_attempts_length.
  - apply delivered_plus_undelivered.
Qed.

(** ** Who can announce *)



(** In the content state every message of the user is the announcement,
    unless the registration or the question conversation takes it first. *)
Lemma content_step cfg e from m w :
  filter_Text "Ask Question" m = false →
  m_text m ≫= command_of ≠ Some "start" →
  registration_state w !! u_id from = None →
  ask_comment_state w !! u_id from = None →
  reply_comment_state w !! u_id from = None →
  announcement_state w !! u_id from = Some ANNOUNCEMENT_CONTENT →
  let upd := MessageUpdate from m in
  let out := announcement_content upd e (fresh_run (bot_data w) (session_of w (u_id from))) in
  process_update cfg e upd w
  = (mkWorld (run_bot out.2) (<[u_id from := run_user out.2]> (sessions w))
       (registration_state w) (ask_comment_state w) (reply_comment_state w)
       (delete (u_id from) (announcement_state w)),
     run_log out.2).
Proof.
  intros Hq Hs Hreg Hask Hreply Hann upd out.
  assert (Hsel : select (handlers cfg) w upd
                 = Some (MessageHandler filter_ALL announcement_content,
                         Some Announcement)).
  { unfold handlers. simpl.
    pose proof (bool_decide_eq_false_2 _ Hs) as Hs'.
    do 5 (rewrite ?Hreg, ?Hask, ?Hreply, ?Hann, ?Hq, ?Hs'; simpl). reflexivity. }
  unfold process_update. rewrite Hsel.
  cbn [callback MessageHandler effective_user u_id]. fold upd.
  change (mkRun (bot_data w) (session_of w (u_id (effective_user upd))) [] 0)
    with (fresh_run (bot_data w) (session_of w (u_id from))).
  fold out.
  assert (Hok : out.1 = Ok (Some END)).
  { subst out. unfold announcement_content, bind, get_session, get_bot. cbn beta iota.
    destruct (announce_loop_counts m
                (target_users (bot_data w)
                   (default "all" (announcement_semester (session_of w (u_id from)))))
                0 0 e (fresh_run (bot_data w) (session_of w (u_id from))))
      as (s' & f' & d & n & Hrun & _).
    cbn [fresh_run run_bot run_user effective_message upd] in *. rewrite Hrun. done. }
  destruct out as [res r']. simpl in Hok. subst res. reflexivity.
Qed.

(** A text sent in the content state goes to every target of the cohort
    kept in the session (all, when the session has none). *)
Lemma content_step_text cfg e from m w :
  truthy (m_text m) = true →
  filter_Text "Ask Question" m = false →
  m_text m ≫= command_of ≠ Some "start" →
  registration_state w !! u_id from = None →
  ask_comment_state w !! u_id from = None →
  reply_comment_state w !! u_id from = None →
  announcement_state w !! u_id from = Some ANNOUNCEMENT_CONTENT →
  let sem := default "all" (announcement_semester (session_of w (u_id from))) in
  let targets := target_users (bot_data w) sem in
  let out := process_update cfg e (MessageUpdate from m) w in
  out.2 = text_attempts m e 0 targets
          ++ [(summary sem (delivered e 0 (length targets))
                 (undelivered e 0 (length targets)), true)] ∧
  bot_data out.1 = bot_data w ∧
  session_of out.1 (u_id from) = cleared ∧
  announcement_state out.1 !! u_id from = None.
Proof.
  intros Ht Hq Hs Hreg Hask Hreply Hann sem targets out. subst out.
  rewrite (content_step cfg e from m w Hq Hs Hreg Hask Hreply Hann).
  rewrite (announcement_content_text e (MessageUpdate from m)
             (fresh_run (bot_data w) (session_of w (u_id from))) Ht).
  cbn [fst snd run_log run_bot run_user fresh_run bot_data announcement_state].
  fold sem. fold targets. split; [done |]. split; [done |]. split.
  - unfold session_of. cbn [sessions]. by rewrite lookup_insert_eq.
  - apply lookup_delete_eq.
Qed.




(** X6.  At the content step the command /cancel does not cancel: the
    handler of the state takes every message before the fallbacks are
    looked at, so the text /cancel is relayed to the targets as the
    announcement. *)
Theorem cancel_command_is_announced cfg e from m w :
  m_text m = Some "/cancel" →
  registration_state w !! u_id from = None →
  ask_comment_state w !! u_id from = None →
  reply_comment_state w !! u_id from = None →
  announcement_state w !! u_id from = Some ANNOUNCEMENT_CONTENT →
  let sem := default "all" (announcement_semester (session_of w (u_id from))) in
  let targets := target_users (bot_data w) sem in
  (process_update cfg e (MessageUpdate from m) w).2
  = text_attempts m e 0 targets
    ++ [(summary sem (delivered e 0 (length targets))
           (undelivered e 0 (length targets)), true)].
Proof.
  intros Ht Hreg Hask Hreply Hann sem targets.
  apply (content_step_text cfg e from m w); try done;
    first [by rewrite Ht | unfold filter_Text; by rewrite Ht].
Qed.

(** ** What a user who is no admin cannot do *)

(** X7.  An approve or reject callback from a user who is not in ADMIN_IDS
    only gets the not-authorized alert: the bot data, the user's session
    and every conversation state stay as they were, whatever the callback
    data names. *)
Theorem non_admin_cannot_decide cfg e from d m w :
  is_admin cfg (u_id from) = false →
  matches (StartsWith ["approve_"; "reject_"]) d = true →
  let out := process_update cfg e (CallbackUpdate from d m) w in
  out.2 = [(answer (Some (T0 "You are not authorized to perform this action.")), true)] ∧
  bot_data out.1 = bot_data w ∧
  session_of out.1 (u_id from) = session_of w (u_id from) ∧
  registration_state out.1 = registration_state w ∧
  ask_comment_state out.1 = ask_comment_state w ∧
  reply_comment_state out.1 = reply_comment_state w ∧
  announcement_state out.1 = announcement_state w.
Proof.
  intros Hadmin Hm out. subst out.
  unfold process_update, handlers. cbn [app select check_update CallbackQueryHandler].
  rewrite Hm. unfold user_approval_handler. simpl. rewrite Hadmin.
  unfold_m. simpl. repeat split.
  unfold session_of. simpl. by rewrite lookup_insert_eq.
Qed.

(** X8.  The admin menu texts Clear Pending, View Statistics and View
    Questions from a user who is no admin and has no conversation running
    are ignored: no reply is sent and nothing changes. *)
Theorem admin_menu_is_closed_to_others cfg e from m w text :
  text = "Clear Pending" ∨ text = "View Statistics" ∨ text = "View Questions" →
  m_text m = Some text →
  is_admin cfg (u_id from) = false →
  registration_state w !! u_id from = None →
  ask_comment_state w !! u_id from = None →
  reply_comment_state w !! u_id from = None →
  announcement_state w !! u_id from = None →
  let out := process_update cfg e (MessageUpdate from m) w in
  out.2 = [] ∧
  bot_data out.1 = bot_data w ∧
  session_of out.1 (u_id from) = session_of w (u_id from) ∧
  registration_state out.1 = registration_state w ∧
  ask_comment_state out.1 = ask_comment_state w ∧
  reply_comment_state out.1 = reply_comment_state w ∧
  announcement_state out.1 = announcement_state w.
Proof.
  intros Htext Ht Hadmin Hreg Hask Hreply Hann out. subst out.
  assert (Hsel : select (handlers cfg) w (MessageUpdate from m)
                 = Some (MessageHandler text_not_command (handle_menu_buttons cfg), None)).
  { assert (Hq : filter_Text "Ask Question" m = false)
      by (unfold filter_Text; rewrite Ht; destruct Htext as [-> | [-> | ->]]; done).
    assert (Ha : filter_Text "Send Announcement" m = false)
      by (unfold filter_Text; rewrite Ht; destruct Htext as [-> | [-> | ->]]; done).
    assert (Hn : text_not_command m = true)
      by (unfold text_not_command, filter_TEXT, filter_COMMAND; rewrite Ht;
          destruct Htext as [-> | [-> | ->]]; done).
    assert (Hc : bool_decide (m_text m ≫= command_of = Some "start") = false)
      by (rewrite Ht; destruct Htext as [-> | [-> | ->]]; done).
    unfold handlers. simpl.
    do 5 (rewrite ?Hreg, ?Hask, ?Hreply, ?Hann, ?Hq, ?Ha, ?Hn, ?Hc; simpl).
    reflexivity. }
  unfold process_update. rewrite Hsel.
  cbn [callback MessageHandler effective_user u_id].
  unfold handle_menu_buttons. cbn [effective_user effective_message u_id].
  rewrite Ht, Hadmin. unfold_m. cbn beta iota.
  destruct Htext as [-> | [-> | ->]]; simpl;
    (repeat split; unfold session_of; simpl; by rewrite lookup_insert_eq).
Qed.

(** ** Entering the registration *)

Lemma rstrip_empty s : rstrip s = "" ↔ all_space s = true.
Proof.
  induction s as [| c s IH]; simpl; [done |].
  destruct (rstrip s) eqn:Hr.
  - destruct (is_space c); simpl; [| split; done].
    split; intros _; [by apply IH | done].
  - split; [done |]. intros H. apply andb_true_iff in H as [_ H].
    apply IH in H. done.
Qed.

Lemma all_space_lstrip s : all_space (lstrip s) = all_space s.
Proof.
  induction s as [| c s IH]; simpl; [done |].
  destruct (is_space c) eqn:Hc; simpl; [done | by rewrite Hc].
Qed.

(** [strip] leaves nothing exactly of the strings of whitespace. *)
Lemma strip_blank s : strip s = "" ↔ all_space s = true.
Proof. unfold strip. by rewrite rstrip_empty, all_space_lstrip. Qed.

Lemma lstrip_head s c t : lstrip s = String c t → is_space c = false.
Proof.
  induction s as [| c' s IH]; simpl; [done |].
  destruct (is_space c') eqn:Hc; [done |]. by intros [= <- _].
Qed.

Lemma rstrip_head s c t :
  rstrip s = String c t → ∃ t', s = String c t'.
Proof.
  destruct s as [| c' s]; simpl; [done |].
  destruct (rstrip s); [destruct (is_space c') |]; intros [= <- _]; eauto.
Qed.

Lemma rstrip_last s c : last_char (rstrip s) = Some c → is_space c = false.
Proof.
  induction s as [| c' s IH]; simpl; [done |].
  destruct (rstrip s) as [| c'' r] eqn:Hr.
  - destruct (is_space c') eqn:Hc; simpl; [done |]. by intros [= <-].
  - intros H. apply IH. exact H.
Qed.

(** What [strip] returns neither starts nor ends with whitespace. *)
Lemma strip_trimmed s c t :
  strip s = String c t →
  is_space c = false ∧ ∃ c', last_char (strip s) = Some c' ∧ is_space c' = false.
Proof.
  unfold strip. intros Hs. split.
  - destruct (rstrip_head _ _ _ Hs) as [t' Ht']. by apply lstrip_head in Ht'.
  - destruct (last_char (rstrip (lstrip s))) as [c' |] eqn:Hl.
    + exists c'. split; [done |]. by apply rstrip_last in Hl.
    + rewrite Hs in Hl. clear Hs. exfalso. revert c Hl.
      induction t as [| c2 t IH]; intros c Hl; simpl in Hl; [done |].
      by apply (IH c2).
Qed.

(** X9.  For a full name typed in ASCII: a name that is only whitespace is
    refused, the user is asked again, stays at the name step and nothing is
    stored; any other name is stored stripped (it neither starts nor ends
    with whitespace) and the user moves on to the semester.  Names with
    characters beyond ASCII are left out, because Python strips further
    whitespace there. *)
Theorem full_name_is_stripped_and_never_blank upd e r text :
  m_text (effective_message upd) = Some text →
  is_ascii text = true →
  (all_space text = true →
   get_full_name upd e r
   = (Ok (Some GET_FULL_NAME),
      mkRun (run_bot r) (run_user r)
        (run_log r ++ [(reply_text (T0 "Please enter a valid name.") NoMarkup, true)])
        (run_calls r))) ∧
  (all_space text = false →
   (get_full_name upd e r).1 = Ok (Some GET_SEMESTER) ∧
   run_bot (get_full_name upd e r).2 = run_bot r ∧
   run_user (get_full_name upd e r).2 = set_full_name (strip text) (run_user r) ∧
   ∃ c t c', strip text = String c t ∧ is_space c = false ∧
             last_char (strip text) = Some c' ∧ is_space c' = false).
Proof.
  intros Ht _. unfold get_full_name. rewrite Ht. split.
  - intros Hblank. apply strip_blank in Hblank. rewrite Hblank. reflexivity.
  - intros Hname.
    destruct (strip text) as [| c t] eqn:Hs.
    + apply strip_blank in Hs. congruence.
    + rewrite decide_False by done. unfold_m. simpl.
      split; [done |]. split; [done |]. split; [done |].
      destruct (strip_trimmed text c t Hs) as (Hc & c' & Hl & Hc').
      rewrite Hs in Hl. eauto 10.
Qed.

(** X10.  Get Started from a user with no registration running starts the
    registration only when the user is neither approved nor pending; an
    approved or a pending user is told so and stays outside.  The bot data
    are not touched either way. *)
Theorem get_started_is_for_new_and_rejected_users cfg e from m w :
  registration_state w !! u_id from = None →
  let st := status_of (bot_data w) (u_id from) in
  let w' := (process_update cfg e (CallbackUpdate from "get_started" m) w).1 in
  bot_data w' = bot_data w ∧
  (st = "approved" ∨ st = "pending" → registration_state w' !! u_id from = None) ∧
  (st ≠ "approved" → st ≠ "pending" →
   registration_state w' !! u_id from = Some GET_FULL_NAME ∧
   registration_in_progress (session_of w' (u_id from)) = true).
Proof.
  intros Hreg st w'. subst w'.
  assert (Hsel : select (handlers cfg) w (CallbackUpdate from "get_started" m)
                 = Some (CallbackQueryHandler handle_get_started_callback
                           (Exact "get_started"), Some Registration)).
  { unfold handlers. simpl. rewrite Hreg. reflexivity. }
  unfold process_update. rewrite Hsel.
  cbn [callback CallbackQueryHandler effective_user u_id].
  unfold handle_get_started_callback. cbn [effective_user]. unfold_m. cbn beta iota.
  cbn [run_bot]. fold st.
  destruct (decide (st = "approved")) as [Ha | Ha];
    [| destruct (decide (st = "pending")) as [Hp | Hp]]; simpl.
  - split; [done |]. split; [intros _; apply lookup_delete_None; by left | done].
  - split; [done |]. split; [intros _; apply lookup_delete_None; by left | done].
  - split; [done |]. split; [by intros [? | ?] |]. intros _ _.
    split; [apply lookup_insert_eq |].
    unfold session_of. simpl. by rewrite lookup_insert_eq.
Qed.

(** ** Submitting the screenshot *)

(** X11.  A photo at the screenshot step is recorded whatever happens to the
    photos for the admins and to the confirmation for the user: the user
    becomes pending and the Review Queue holds their entry with the largest
    size of the photo and the payment id of the session (or the UNKNOWN
    fallback).  Statuses, entries and profiles of other users and the
    pending questions are untouched.  The confirmation is the call after the
    one guarded photo per admin: when it returns, the session is cleared and
    the conversation ends; when it raises, the exception leaves the handler
    and the session stays as it was. *)
Theorem screenshot_is_recorded_despite_failures cfg e from m r :
  m_photo m ≠ [] →
  let out := receive_screenshot cfg (MessageUpdate from m) e r in
  let lost := fails e (run_calls r + length (ADMIN_IDS cfg)) in
  out.1 = (if lost then Exn else Ok (Some END)) ∧
  run_user out.2 = (if lost then run_user r else cleared) ∧
  status_of (run_bot out.2) (u_id from) = "pending" ∧
  (∃ entry,
     pending_reviews (run_bot out.2) !! u_id from = Some entry ∧
     Some (pi_screenshot_file_id entry) = last (m_photo m) ∧
     pi_payment_id entry
     = default (unknown_payment_id (u_id from) (m_message_id m))
               (payment_id (run_user r)) ∧
     pi_full_name entry = full_name (run_user r) ∧
     pi_semester entry = semester (run_user r) ∧
     pi_stream entry = stream (run_user r) ∧
     user_data (run_bot out.2) !! u_id from = Some (pi_user_info entry)) ∧
  pending_comments (run_bot out.2) = pending_comments (run_bot r) ∧
  ∀ u, u ≠ u_id from →
       user_statuses (run_bot out.2) !! u = user_statuses (run_bot r) !! u ∧
       pending_reviews (run_bot out.2) !! u = pending_reviews (run_bot r) !! u ∧
       user_data (run_bot out.2) !! u = user_data (run_bot r) !! u.
Proof.
  intros Hphoto out lost.
  assert (Hre : resubmits (u_id (effective_user (MessageUpdate from m)))
                  (MessageUpdate from m) = true).
  { simpl. rewrite bool_decide_eq_true_2 by done. unfold filter_PHOTO.
    by destruct (m_photo m). }
  destruct (receive_screenshot_effect cfg (MessageUpdate from m) e r Hre)
    as (file_id & log & Hlast & Hrun).
  cbn zeta in Hrun. fold lost in Hrun.
  subst out. rewrite Hrun. cbn [fst snd run_user run_bot effective_user effective_message] in *.
  split; [done |]. split; [done |]. unfold submitted, status_of.
  cbn [set_pending set_user_data set_status user_statuses pending_reviews user_data
       pending_comments].
  rewrite !lookup_insert_eq. split; [done |]. split.
  - eexists. split; [reflexivity |]. cbn. by rewrite Hlast.
  - split; [done |]. intros u Hu. by rewrite !lookup_insert_ne.
Qed.

(** ** Payment ids *)

Lemma append_assoc_one (a : string) c s :
  (a +:+ String c "") +:+ s = a +:+ String c s.
Proof.
  induction a as [| c' a IH]; [done |].
  change (String c' ((a +:+ String c "") +:+ s) = String c' (a +:+ String c s)).
  by rewrite IH.
Qed.

Lemma pretty_N_go_append x :
  ∀ s, pretty_N_go x s = pretty_N_go x "" +:+ s.
Proof.
  induction (N.lt_wf_0 x) as [x _ IH]. intros s.
  destruct (decide (x = 0)%N) as [-> | Hx]; [by rewrite !pretty_N_go_0 |].
  rewrite (pretty_N_go_step x s), (pretty_N_go_step x "") by lia.
  rewrite (IH (x `div` 10)%N); [| apply N.div_lt; lia].
  rewrite (IH (x `div` 10)%N ltac:(apply N.div_lt; lia) (String _ "")).
  by rewrite append_assoc_one.
Qed.

(** The decimal text of [10 * u + d] is that of [u] followed by the digit. *)
Lemma pretty_times_ten (u d : Z) :
  1 ≤ u → 0 ≤ d ≤ 9 →
  pretty (10 * u + d) = pretty u +:+ String (pretty_N_char (Z.to_N d)) "".
Proof.
  intros Hu Hd.
  destruct u as [| p | p]; [lia | | lia].
  destruct (10 * Z.pos p + d) as [| q | q] eqn:Hq; [lia | | lia].
  change (pretty (Z.pos q)) with (pretty (N.pos q)).
  change (pretty (Z.pos p)) with (pretty (N.pos p)).
  unfold pretty, pretty_N. rewrite !decide_False by done.
  rewrite pretty_N_go_step by lia.
  replace (N.pos q `div` 10)%N with (N.pos p).
  2:{ apply N.div_unique with (Z.to_N d); lia. }
  replace (N.pos q `mod` 10)%N with (Z.to_N d).
  2:{ apply N.mod_unique with (N.pos p); lia. }
  apply pretty_N_go_append.
Qed.

Lemma pretty_digit (d : Z) :
  0 ≤ d ≤ 9 → pretty d = String (pretty_N_char (Z.to_N d)) "".
Proof.
  intros Hd.
  assert (d = 0 ∨ d = 1 ∨ d = 2 ∨ d = 3 ∨ d = 4 ∨ d = 5 ∨ d = 6 ∨ d = 7
          ∨ d = 8 ∨ d = 9) as Hcases by lia.
  repeat (destruct Hcases as [-> | Hcases]; [by vm_compute |]). subst d. by vm_compute.
Qed.

Lemma payment_id_of_shift (u d k : Z) :
  1 ≤ u → 1 ≤ d ≤ 9 → 0 ≤ k ≤ 9 →
  payment_id_of (10 * u + d) k = payment_id_of u (10 * d + k).
Proof.
  intros Hu Hd Hk. unfold payment_id_of.
  rewrite (pretty_times_ten u d) by lia.
  rewrite (pretty_times_ten d k) by lia.
  rewrite (pretty_digit d), (pretty_digit k) by lia.
  f_equal. by rewrite append_assoc_one.
Qed.

Lemma get_payment_method_id from method m e r :
  payment_id (run_user (get_payment_method
                          (CallbackUpdate from ("method_" +:+ method) m) e r).2)
  = Some (payment_id_of (u_id from) (m_message_id m)).
Proof.
  unfold get_payment_method, second_part. cbn [query_data].
  change (split_on "_" ("method_" +:+ method))
    with ("method" :: split_on "_" method).
  destruct (split_on "_" method) as [| x rest] eqn:Hsplit.
  - destruct method; simpl in Hsplit; [done |]. by repeat case_match.
  - unfold_m. cbn -[pretty String.append].
    destruct (full_name (run_user r)), (semester (run_user r)),
      (stream (run_user r)), (gender (run_user r)); reflexivity.
Qed.

(** X12.  The payment id is the text ABJ followed by the user id and the
    message id with nothing in between, so it does not tell users apart:
    the user [10 u + d] at message [k] and the user [u] at message
    [10 d + k] are given the same payment id. *)
Theorem payment_ids_collide_across_users e1 e2 from1 from2 m1 m2 method1 method2 r1 r2 u d k :
  1 ≤ u → 1 ≤ d ≤ 9 → 0 ≤ k ≤ 9 →
  u_id from1 = 10 * u + d → m_message_id m1 = k →
  u_id from2 = u → m_message_id m2 = 10 * d + k →
  u_id from1 ≠ u_id from2 ∧
  payment_id (run_user (get_payment_method
                          (CallbackUpdate from1 ("method_" +:+ method1) m1) e1 r1).2)
  = payment_id (run_user (get_payment_method
                            (CallbackUpdate from2 ("method_" +:+ method2) m2) e2 r2).2) ∧
  is_Some (payment_id (run_user (get_payment_method
                          (CallbackUpdate from1 ("method_" +:+ method1) m1) e1 r1).2)).
Proof.
  intros Hu Hd Hk H1 Hm1 H2 Hm2. split; [lia |].
  rewrite !get_payment_method_id, H1, Hm1, H2, Hm2.
  split; [| eauto]. f_equal. by apply payment_id_of_shift.
Qed.

(** ** The Cancel button and the screenshot step *)

Lemma cancel_registration_step cfg e from m w :
  let w' := (process_update cfg e (CallbackUpdate from "cancel_registration" m) w).1 in
  session_of w' (u_id from) = cleared ∧
  bot_data w' = bot_data w ∧
  registration_state w' = registration_state w.
Proof.
  intros w'. subst w'. unfold process_update, handlers. simpl.
  split; [| done]. unfold session_of. simpl. by rewrite lookup_insert_eq.
Qed.

(** X13.  A user at the screenshot step who presses Cancel and then sends a
    photo is submitted all the same: the Cancel button clears the collected
    fields but not the step, so the photo creates a Review Queue entry with
    no name, semester, stream, gender or payment method and the UNKNOWN
    payment id, and makes the user pending.  The conversation then ends,
    unless the confirmation of the submission raises. *)
Theorem photo_after_cancel_button_submits_blank cfg e1 e2 from m1 m2 w file_id :
  last (m_photo m2) = Some file_id →
  registration_state w !! u_id from = Some AWAITING_SCREENSHOT →
  let w1 := (process_update cfg e1 (CallbackUpdate from "cancel_registration" m1) w).1 in
  let w2 := (process_update cfg e2 (MessageUpdate from m2) w1).1 in
  status_of (bot_data w2) (u_id from) = "pending" ∧
  pending_reviews (bot_data w2) !! u_id from = Some (blank_entry from m2 file_id) ∧
  user_data (bot_data w2) !! u_id from = Some (blank_info from) ∧
  registration_state w2 !! u_id from
  = (if fails e2 (length (ADMIN_IDS cfg)) then Some AWAITING_SCREENSHOT else None).
Proof.
  intros Hlast Hreg w1 w2.
  destruct (cancel_registration_step cfg e1 from m1 w)
    as (Hs1 & Hb1 & Hr1). fold w1 in Hs1, Hb1, Hr1.
  destruct (photo_step cfg e2 from m2 w1 file_id Hlast) as (Hb2 & Hs2 & Hr2);
    [by rewrite Hr1 |].
  fold w2 in Hb2, Hs2, Hr2. cbn zeta in Hr2. rewrite Hb2, Hs1, Hb1.
  unfold submitted, status_of. cbn. rewrite !lookup_insert_eq.
  repeat split; done.
Qed.

(** ** Questions and replies *)

Lemma receive_comment_effect cfg e upd r :
  let user := effective_user upd in
  let message := effective_message upd in
  ∃ entry log n,
    ci_user_id entry = u_id user ∧
    ci_user_name entry = asker_name (run_bot r) user ∧
    ci_comment entry = m_text message ∧
    receive_comment cfg upd e r
    = (Ok (Some END),
       mkRun (add_comment (comment_id_of (u_id user) (m_message_id message)) entry
                (run_bot r))
             (run_user r) log n).
Proof.
  intros user message. unfold receive_comment.
  fold user. fold message.
  unfold modify_bot. unfold bind, get_bot, set_bot. cbn beta iota.
  match goal with
  | |- context [for_each (ADMIN_IDS cfg)
                  (λ x, try_except (attempt (@?c x)) (ret tt)) e ?r'] =>
      destruct (for_each_guarded (ADMIN_IDS cfg) c e r') as (log & n & ->)
  end.
  unfold emit, ret. cbn. eexists _, _, _.
  split; [| split; [| split; [| reflexivity]]]; done.
Qed.

Lemma has_char_append c a b :
  has_char c (a +:+ b) = has_char c a || has_char c b.
Proof.
  induction a as [| c' a IH]; [done |].
  change (has_char c (String c' a +:+ b))
    with (Ascii.eqb c' c || has_char c (a +:+ b)).
  rewrite IH. cbn [has_char]. by rewrite orb_assoc.
Qed.

Lemma digits_have_no_letter s :
  all_digits s = true → has_char "r" s = false ∧ has_char "_" s = false.
Proof.
  induction s as [| c s IH]; [done |]. cbn [all_digits has_char]. intros Hs.
  apply andb_true_iff in Hs as [Hc Hs]. destruct (IH Hs) as [-> ->].
  rewrite !orb_false_r.
  split; apply Ascii.eqb_neq; intros ->; done.
Qed.

Lemma pretty_has_no_letter (z : Z) :
  has_char "r" (pretty z) = false ∧ has_char "_" (pretty z) = false.
Proof.
  destruct z as [| p | p]; [done | |].
  - apply digits_have_no_letter, pretty_positive_read.
  - change (pretty (Z.neg p)) with (String "-" (pretty (N.pos p))).
    cbn [has_char].
    destruct (digits_have_no_letter (pretty (N.pos p))) as [-> ->];
      [apply pretty_positive_read | done].
Qed.

Lemma comment_id_has_no_r uid mid : has_char "r" (comment_id_of uid mid) = false.
Proof.
  unfold comment_id_of. rewrite !has_char_append.
  destruct (pretty_has_no_letter uid) as [-> _].
  destruct (pretty_has_no_letter mid) as [-> _]. reflexivity.
Qed.

Lemma remove_all_go_no_r s :
  has_char "r" s = false → remove_all_go "reply_" 0 s = s.
Proof.
  induction s as [| c s IH]; [done |]. cbn [has_char]. intros Hs.
  apply orb_false_iff in Hs as [Hc Hs]. apply Ascii.eqb_neq in Hc.
  cbn [remove_all_go]. cbn [String.prefix].
  destruct (ascii_dec "r" c) as [<- | _]; [done |]. by rewrite IH.
Qed.

(** Removing reply_ from the data of a reply button gives the key. *)
Lemma reply_data_decodes uid mid :
  remove_all "reply_" ("reply_" +:+ comment_id_of uid mid) = comment_id_of uid mid.
Proof.
  unfold remove_all.
  change (remove_all_go "reply_" 0 ("reply_" +:+ comment_id_of uid mid))
    with (remove_all_go "reply_" 0 (comment_id_of uid mid)).
  apply remove_all_go_no_r, comment_id_has_no_r.
Qed.

Lemma split_on_app_sep a b :
  has_char "_" a = false →
  split_on "_" (a +:+ String "_" b) = a :: split_on "_" b.
Proof.
  induction a as [| c a IH]; [done |]. cbn [has_char]. intros Ha.
  apply orb_false_iff in Ha as [Hc Ha].
  change (split_on "_" (String c a +:+ String "_" b))
    with (if Ascii.eqb c "_" then EmptyString :: split_on "_" (a +:+ String "_" b)
          else match split_on "_" (a +:+ String "_" b) with
               | w :: ws => String c w :: ws
               | [] => [String c EmptyString]
               end).
  by rewrite Hc, IH.
Qed.

Lemma split_on_comment_id uid mid :
  split_on "_" (comment_id_of uid mid) = ["comment"; pretty uid; pretty mid].
Proof.
  unfold comment_id_of.
  change (split_on "_" ("comment_" +:+ pretty uid +:+ "_" +:+ pretty mid))
    with ("comment" :: split_on "_" (pretty uid +:+ String "_" (pretty mid))).
  rewrite split_on_app_sep by apply pretty_has_no_letter.
  by rewrite split_on_pretty.
Qed.

(** X14.  The key of a question tells the asker and the message apart from
    every other: two questions get the same key only when they come from
    the same user in the same message.  The reply button built from the key
    leads back to it: removing reply_ from its data gives the key. *)
Theorem question_keys_are_unambiguous uid mid uid' mid' :
  (comment_id_of uid mid = comment_id_of uid' mid' → uid = uid' ∧ mid = mid') ∧
  remove_all "reply_" ("reply_" +:+ comment_id_of uid mid) = comment_id_of uid mid.
Proof.
  split; [| apply reply_data_decodes].
  intros Heq. apply (f_equal (split_on "_")) in Heq.
  rewrite !split_on_comment_id in Heq. injection Heq as Hu Hm.
  split; by apply (inj pretty).
Qed.

Lemma reply_to_comment_start_found from data m e r entry :
  pending_comments (run_bot r) !! remove_all "reply_" data = Some entry →
  reply_to_comment_start (CallbackUpdate from data m) e r
  = (Ok (Some REPLY_TO_COMMENT),
     mkRun (run_bot r)
       (set_reply (remove_all "reply_" data) (ci_user_id entry) (ci_user_name entry)
          (run_user r))
       (run_log r
        ++ [(answer None, true);
            (edit_message_text
               (mkText "Reply to" [AOpt (ci_user_name entry); AOpt (ci_comment entry)])
               (InlineKeyboardMarkup [cancel_button "cancel_reply"]), true)])
       (run_calls r)).
Proof.
  intros Hentry. unfold reply_to_comment_start. unfold_m. cbn [query_data].
  cbn beta iota. cbn [run_bot]. rewrite Hentry. cbn. by rewrite <- app_assoc.
Qed.

Lemma reply_to_comment_start_gone from data m e r :
  pending_comments (run_bot r) !! remove_all "reply_" data = None →
  reply_to_comment_start (CallbackUpdate from data m) e r
  = (Ok (Some END),
     mkRun (run_bot r) (run_user r)
       (run_log r
        ++ [(answer None, true);
            (edit_message_text
               (T0 "Comment no longer available or already replied.") NoMarkup, true)])
       (run_calls r)).
Proof.
  intros Hentry. unfold reply_to_comment_start. unfold_m. cbn [query_data].
  cbn beta iota. cbn [run_bot]. rewrite Hentry. cbn. by rewrite <- app_assoc.
Qed.

Lemma send_reply_to_user_run upd e r cid uid :
  reply_comment_id (run_user r) = Some cid →
  cid ≠ "" →
  reply_user_id (run_user r) = Some uid →
  uid ≠ 0 →
  ∃ n,
    send_reply_to_user upd e r
    = (if notice_lost e (run_calls r) then Exn else Ok (Some END),
       mkRun (pop_comment cid (run_bot r))
         (if notice_lost e (run_calls r) then run_user r else cleared)
         (run_log r
          ++ reply_trace e (run_calls r) (run_user r) (m_text (effective_message upd)))
         n).
Proof.
  intros Hcid Hne Huid Hnz.
  unfold send_reply_to_user, reply_trace, reply_message, notice_lost.
  unfold_m. cbn beta iota. rewrite Hcid, Huid. cbn [truthy truthy_id default].
  destruct cid as [| c cid]; [done |].
  assert (Hz : (uid =? 0) = false) by (by apply Z.eqb_neq).
  rewrite Hz. simpl.
  destruct (fails e (run_calls r)) eqn:H1; simpl;
    destruct (fails e (S (run_calls r))) eqn:H2; simpl;
    try (destruct (fails e (S (S (run_calls r)))) eqn:H3; simpl);
    rewrite <- ?app_assoc; eexists; reflexivity.
Qed.

(** X15.  Sending a reply removes the question whatever the transport
    does.  The asker is addressed first; if that send raises, the admin is
    told the reply failed; if it returns but the confirmation to the admin
    raises, the admin is told the reply failed although it was delivered.
    When no failure notice is due, or the notice returns, the session is
    cleared and the conversation ends; when the failure notice raises in its
    turn, the exception leaves the handler and the session stays as it
    was. *)
Theorem reply_removes_the_question_whatever_happens upd e r cid uid :
  reply_comment_id (run_user r) = Some cid →
  cid ≠ "" →
  reply_user_id (run_user r) = Some uid →
  uid ≠ 0 →
  let out := send_reply_to_user upd e r in
  let lost := notice_lost e (run_calls r) in
  out.1 = (if lost then Exn else Ok (Some END)) ∧
  run_user out.2 = (if lost then run_user r else cleared) ∧
  pending_comments (run_bot out.2) !! cid = None ∧
  (∀ other, other ≠ cid →
            pending_comments (run_bot out.2) !! other
            = pending_comments (run_bot r) !! other) ∧
  user_statuses (run_bot out.2) = user_statuses (run_bot r) ∧
  pending_reviews (run_bot out.2) = pending_reviews (run_bot r) ∧
  run_log out.2
  = run_log r ++ reply_trace e (run_calls r) (run_user r) (m_text (effective_message upd)).
Proof.
  intros Hcid Hne Huid Hnz out lost. subst out lost.
  destruct (send_reply_to_user_run upd e r cid uid Hcid Hne Huid Hnz) as [n ->].
  cbn. split; [done |]. split; [done |]. split; [apply lookup_delete_eq |].
  split; [| done]. intros other Hother. by apply lookup_delete_ne.
Qed.

(** X16.  A question and its reply: after [receive_comment] has stored the
    question of a user (whatever happened to the messages for the admins),
    the reply button of that question puts the admin into the reply state
    with the asker's id.  The first call of the reply is then the message to
    the asker, carrying the name the question was filed under and the text
    the admin typed, and the question is removed. *)
Theorem reply_reaches_the_asker cfg e1 e2 e3 asker question admin press reply s r :
  u_id asker ≠ 0 →
  let cid := comment_id_of (u_id asker) (m_message_id question) in
  let r1 := (receive_comment cfg (MessageUpdate asker question) e1 r).2 in
  let start :=
    reply_to_comment_start (CallbackUpdate admin ("reply_" +:+ cid) press) e2
      (fresh_run (run_bot r1) s) in
  let out := send_reply_to_user (MessageUpdate admin reply) e3
               (fresh_run (run_bot start.2) (run_user start.2)) in
  is_Some (pending_comments (run_bot r1) !! cid) ∧
  start.1 = Ok (Some REPLY_TO_COMMENT) ∧
  reply_user_id (run_user start.2) = Some (u_id asker) ∧
  (∃ rest,
     run_log out.2
     = (send_message (u_id asker)
          (mkText "Reply from ABJ Tutorial"
             [AOpt (asker_name (run_bot r) asker); AOpt (m_text reply)])
          NoMarkup, negb (fails e3 0)) :: rest) ∧
  pending_comments (run_bot out.2) !! cid = None.
Proof.
  intros Hnz cid r1 start out.
  destruct (receive_comment_effect cfg e1 (MessageUpdate asker question) r)
    as (entry & log & n & Hid & Hname & _ & Hrun).
  cbn [effective_user effective_message] in Hrun, Hid, Hname. fold cid in Hrun.
  assert (Hentry : pending_comments (run_bot r1) !! cid = Some entry).
  { subst r1. rewrite Hrun. cbn. apply lookup_insert_eq. }
  split; [by rewrite Hentry |].
  assert (Hdata : remove_all "reply_" ("reply_" +:+ cid) = cid)
    by apply reply_data_decodes.
  assert (Hstart : start
                   = (Ok (Some REPLY_TO_COMMENT),
                      mkRun (run_bot r1)
                        (set_reply cid (ci_user_id entry) (ci_user_name entry) s)
                        ([] ++ [(answer None, true);
                                (edit_message_text
                                   (mkText "Reply to"
                                      [AOpt (ci_user_name entry); AOpt (ci_comment entry)])
                                   (InlineKeyboardMarkup [cancel_button "cancel_reply"]),
                                 true)])
                        0)).
  { subst start.
    rewrite (reply_to_comment_start_found admin ("reply_" +:+ cid) press e2
               (fresh_run (run_bot r1) s) entry); [| by rewrite Hdata].
    by rewrite Hdata. }
  split; [by rewrite Hstart |]. split; [by rewrite Hstart, <- Hid |].
  subst out.
  destruct (send_reply_to_user_run (MessageUpdate admin reply) e3
              (fresh_run (run_bot start.2) (run_user start.2)) cid (u_id asker))
    as [n' ->];
    [by rewrite Hstart | done | by rewrite Hstart, <- Hid | done |].
  split.
  - unfold reply_trace, reply_message. rewrite Hstart. cbn. rewrite Hid, Hname.
    destruct (fails e3 0); [| destruct (fails e3 1)]; eauto.
  - cbn. apply lookup_delete_eq.
Qed.

(** X17.  A question is answered once: after a reply has been sent, the
    reply button of the same question finds nothing, the admin is told the
    comment is no longer available, the reply state is not entered and the
    session is left alone. *)
Theorem answered_question_cannot_be_answered_again
    e1 e2 reply from press s r uid mid asker :
  reply_comment_id (run_user r) = Some (comment_id_of uid mid) →
  reply_user_id (run_user r) = Some asker →
  asker ≠ 0 →
  let r1 := (send_reply_to_user reply e1 r).2 in
  reply_to_comment_start
    (CallbackUpdate from ("reply_" +:+ comment_id_of uid mid) press) e2
    (fresh_run (run_bot r1) s)
  = (Ok (Some END),
     mkRun (run_bot r1) s
       [(answer None, true);
        (edit_message_text
           (T0 "Comment no longer available or already replied.") NoMarkup, true)]
       0).
Proof.
  intros Hcid Huid Hnz r1.
  assert (Hgone : pending_comments (run_bot r1) !! comment_id_of uid mid = None).
  { subst r1.
    destruct (send_reply_to_user_run reply e1 r (comment_id_of uid mid) asker)
      as [n ->]; [done | done | done | done |].
    cbn. apply lookup_delete_eq. }
  rewrite (reply_to_comment_start_gone from _ press e2 (fresh_run (run_bot r1) s));
    [done |].
  by rewrite reply_data_decodes.
Qed.

(** ** The dashboard *)

Lemma disjoint_filters_length {A} (P Q : A → Prop)
    `{!∀ x, Decision (P x)} `{!∀ x, Decision (Q x)} (l : list A) :
  (∀ x, P x → Q x → False) →
  (length (filter P l) + length (filter Q l) ≤ length l)%nat.
Proof.
  intros Hdis. induction l as [| x l IH]; [done |].
  rewrite !filter_cons. destruct (decide (P x)), (decide (Q x)); simpl;
    [by destruct (Hdis x) | lia | lia | lia].
Qed.

Lemma approved_plus_pending b :
  (count_status "approved" b + count_status "pending" b ≤ total_users b)%nat.
Proof.
  unfold count_status, total_users. apply disjoint_filters_length.
  intros [u st]. simpl. congruence.
Qed.

Lemma queue_within_pending w :
  consistent w →
  (size (pending_reviews (bot_data w)) ≤ count_status "pending" (bot_data w))%nat.
Proof.
  intros (Hq & _). unfold count_status.
  rewrite <- length_map_to_list.
  rewrite <- (length_fmap fst (map_to_list (pending_reviews (bot_data w)))).
  rewrite <- (length_fmap (λ u : Z, (u, "pending"))
                ((map_to_list (pending_reviews (bot_data w))).*1)).
  apply submseteq_length, NoDup_submseteq.
  - apply NoDup_fmap_2; [by intros ?? [= ?] | apply NoDup_fst_map_to_list].
  - intros [u st] Hin. apply list_elem_of_fmap in Hin as (u' & [= -> ->] & Hin).
    apply list_elem_of_fmap in Hin as ([u'' info] & -> & Hin). simpl.
    apply elem_of_map_to_list in Hin.
    apply list_elem_of_filter. split; [done |].
    apply elem_of_map_to_list. apply Hq. eauto.
Qed.

(** X18.  The dashboard of [view_stats] is one reply whose first numbers are
    the total, the approved, the pending, the entries awaiting review and
    the pending questions.  Approved and pending together never exceed the
    total, and in every state the application can reach the entries awaiting
    review never exceed the pending users. *)
Theorem dashboard_counts_are_coherent cfg us e upd s :
  let b := bot_data (run_updates cfg us initial) in
  (∃ distribution,
     view_stats upd e (fresh_run b s)
     = (Ok None,
        mkRun b s
          [(reply_text
              (mkText "Bot Statistics Dashboard"
                 ([ANat (total_users b); ANat (count_status "approved" b);
                   ANat (count_status "pending" b);
                   ANat (size (pending_reviews b));
                   ANat (size (pending_comments b))] ++ distribution))
              admin_menu, true)]
          0)) ∧
  (count_status "approved" b + count_status "pending" b ≤ total_users b)%nat ∧
  (size (pending_reviews b) ≤ count_status "pending" b)%nat.
Proof.
  intros b. split.
  { exists (flat_map (λ p : option string * nat, [AOpt p.1; ANat p.2])
              (map_to_list (semester_counts b))).
    reflexivity. }
  split.
  - apply approved_plus_pending.
  - apply queue_within_pending, consistent_run_updates, consistent_initial.
Qed.

(** ** The entry point of the question conversation *)

Lemma py_in_head c t s : py_in (String c t) s = true → has_char c s = true.
Proof.
  induction s as [| c' s IH]; [done |]. cbn [py_in has_char String.prefix].
  intros H. apply orb_true_iff in H as [H | H].
  - destruct (ascii_dec c c') as [-> | _]; [| done].
    by rewrite Ascii.eqb_refl.
  - rewrite (IH H). apply orb_true_r.
Qed.

Lemma command_of_plain c t : c ≠ "/"%char → command_of (String c t) = None.
Proof.
  intros Hc. destruct c as [b0 b1 b2 b3 b4 b5 b6 b7].
  destruct b0, b1, b2, b3, b4, b5, b6, b7; try reflexivity. done.
Qed.

(** X19.  The entry point of the question conversation takes more than the
    text of the menu button: a user with no registration and no question
    running who sends any non-empty text that occurs in the text Ask
    Question (the word Ask, or the letters on) is put into the question
    state and shown the prompt, whatever their status; the bot data are not
    touched. *)
Theorem part_of_ask_question_opens_the_question_flow cfg e from m w text :
  m_text m = Some text →
  text ≠ "" →
  py_in text "Ask Question" = true →
  registration_state w !! u_id from = None →
  ask_comment_state w !! u_id from = None →
  let out := process_update cfg e (MessageUpdate from m) w in
  ask_comment_state out.1 !! u_id from = Some ASK_COMMENT ∧
  bot_data out.1 = bot_data w ∧
  out.2 = [(reply_text (T0 "Ask a Question")
              (InlineKeyboardMarkup [cancel_button "cancel_question"]), true)].
Proof.
  intros Ht Hne Hin Hreg Hask out. subst out.
  destruct text as [| c t]; [done |].
  assert (Hc : c ≠ "/"%char).
  { intros ->. apply py_in_head in Hin. done. }
  assert (Hf : filter_Text "Ask Question" m = true)
    by (unfold filter_Text; rewrite Ht; exact Hin).
  assert (Hs : bool_decide (m_text m ≫= command_of = Some "start") = false).
  { rewrite Ht. cbn [mbind option_bind]. by rewrite (command_of_plain c t Hc). }
  assert (Hsel : select (handlers cfg) w (MessageUpdate from m)
                 = Some (MessageHandler (filter_Text "Ask Question") ask_question_start,
                         Some AskComment)).
  { unfold handlers. simpl.
    do 3 (rewrite ?Hreg, ?Hask, ?Hs, ?Hf; simpl). reflexivity. }
  unfold process_update. rewrite Hsel. simpl.
  split; [apply lookup_insert_eq | done].
Qed.

(** ** The further properties at sample inputs *)

Lemma lost_confirmation_lets_a_photo_replace_the_entry_witness :
  let m1 := photo_message 7 "file-1" in
  let m2 := photo_message 8 "file-2" in
  let w := alice_at_screenshot in
  last (m_photo m1) = Some "file-1" ∧
  last (m_photo m2) = Some "file-2" ∧
  registration_state w !! u_id alice = Some AWAITING_SCREENSHOT ∧
  fails (fails_at 1) (length (ADMIN_IDS sample_config)) = true ∧
  let w1 := (process_update sample_config (fails_at 1) (MessageUpdate alice m1) w).1 in
  let w2 := (process_update sample_config calm (MessageUpdate alice m2) w1).1 in
  status_of (bot_data w1) (u_id alice) = "pending" ∧
  pi_screenshot_file_id <$> pending_reviews (bot_data w1) !! u_id alice = Some "file-1" ∧
  registration_state w1 !! u_id alice = Some AWAITING_SCREENSHOT ∧
  session_of w1 (u_id alice) = session_of w (u_id alice) ∧
  pi_screenshot_file_id <$> pending_reviews (bot_data w2) !! u_id alice = Some "file-2".
Proof.
  intros m1 m2 w. split; [reflexivity |]. split; [reflexivity |].
  split; [reflexivity |]. split; [reflexivity |].
  apply (lost_confirmation_lets_a_photo_replace_the_entry sample_config
           (fails_at 1) calm alice m1 m2 w "file-1" "file-2");
    reflexivity.
Defined.

Lemma text_announcement_attempts_every_target_witness :
  let upd := MessageUpdate the_admin (text_message 5 "Exam on Monday") in
  let r := fresh_run enrolled (announcing "First Semester") in
  truthy (m_text (effective_message upd)) = true ∧
  let sem := default "all" (announcement_semester (run_user r)) in
  let targets := target_users (run_bot r) sem in
  let n := length targets in
  run_log (announcement_content upd stormy r).2
  = run_log r ++ text_attempts (effective_message upd) stormy (run_calls r) targets
              ++ [(summary sem (delivered stormy (run_calls r) n)
                     (undelivered stormy (run_calls r) n), true)] ∧
  length (text_attempts (effective_message upd) stormy (run_calls r) targets) = n ∧
  (delivered stormy (run_calls r) n + undelivered stormy (run_calls r) n = n)%nat.
Proof.
  intros upd r. split; [reflexivity |].
  apply (text_announcement_attempts_every_target stormy upd r).
  reflexivity.
Defined.



Lemma cancel_command_is_announced_witness :
  let m := text_message 5 "/cancel" in
  let w := mallory_announces in
  m_text m = Some "/cancel" ∧
  registration_state w !! u_id mallory = None ∧
  ask_comment_state w !! u_id mallory = None ∧
  reply_comment_state w !! u_id mallory = None ∧
  announcement_state w !! u_id mallory = Some ANNOUNCEMENT_CONTENT ∧
  let sem := default "all" (announcement_semester (session_of w (u_id mallory))) in
  let targets := target_users (bot_data w) sem in
  (process_update sample_config calm (MessageUpdate mallory m) w).2
  = text_attempts m calm 0 targets
    ++ [(summary sem (delivered calm 0 (length targets))
           (undelivered calm 0 (length targets)), true)].
Proof.
  intros m w.
  split; [reflexivity |]. split; [reflexivity |]. split; [reflexivity |].
  split; [reflexivity |]. split; [reflexivity |].
  apply (cancel_command_is_announced sample_config calm mallory m w);
    reflexivity.
Defined.

Lemma non_admin_cannot_decide_witness :
  let w := idle queued in
  let m := button_press 9 in
  is_admin sample_config (u_id mallory) = false ∧
  matches (StartsWith ["approve_"; "reject_"]) "approve_66" = true ∧
  let out := process_update sample_config calm (CallbackUpdate mallory "approve_66" m) w in
  out.2 = [(answer (Some (T0 "You are not authorized to perform this action.")), true)] ∧
  bot_data out.1 = bot_data w ∧
  session_of out.1 (u_id mallory) = session_of w (u_id mallory) ∧
  registration_state out.1 = registration_state w ∧
  ask_comment_state out.1 = ask_comment_state w ∧
  reply_comment_state out.1 = reply_comment_state w ∧
  announcement_state out.1 = announcement_state w.
Proof.
  intros w m. split; [reflexivity |]. split; [reflexivity |].
  apply (non_admin_cannot_decide sample_config calm mallory "approve_66" m w);
    reflexivity.
Defined.

Lemma admin_menu_is_closed_to_others_witness :
  let w := idle queued in
  let m := text_message 5 "Clear Pending" in
  ("Clear Pending" = "Clear Pending" ∨ "Clear Pending" = "View Statistics"
   ∨ "Clear Pending" = "View Questions") ∧
  m_text m = Some "Clear Pending" ∧
  is_admin sample_config (u_id mallory) = false ∧
  registration_state w !! u_id mallory = None ∧
  ask_comment_state w !! u_id mallory = None ∧
  reply_comment_state w !! u_id mallory = None ∧
  announcement_state w !! u_id mallory = None ∧
  let out := process_update sample_config calm (MessageUpdate mallory m) w in
  out.2 = [] ∧
  bot_data out.1 = bot_data w ∧
  session_of out.1 (u_id mallory) = session_of w (u_id mallory) ∧
  registration_state out.1 = registration_state w ∧
  ask_comment_state out.1 = ask_comment_state w ∧
  reply_comment_state out.1 = reply_comment_state w ∧
  announcement_state out.1 = announcement_state w.
Proof.
  intros w m. split; [left; reflexivity |]. split; [reflexivity |].
  split; [reflexivity |]. split; [reflexivity |]. split; [reflexivity |].
  split; [reflexivity |]. split; [reflexivity |].
  apply (admin_menu_is_closed_to_others sample_config calm mallory m w
           "Clear Pending");
    [left; reflexivity | reflexivity ..].
Defined.

Lemma full_name_is_stripped_and_never_blank_witness :
  let upd := MessageUpdate alice (text_message 2 "  Alemu B ") in
  let r := fresh_run (mkBotData ∅ ∅ ∅ ∅) cleared in
  let text := "  Alemu B " in
  m_text (effective_message upd) = Some text ∧
  is_ascii text = true ∧
  (all_space text = true →
   get_full_name upd calm r
   = (Ok (Some GET_FULL_NAME),
      mkRun (run_bot r) (run_user r)
        (run_log r ++ [(reply_text (T0 "Please enter a valid name.") NoMarkup, true)])
        (run_calls r))) ∧
  (all_space text = false →
   (get_full_name upd calm r).1 = Ok (Some GET_SEMESTER) ∧
   run_bot (get_full_name upd calm r).2 = run_bot r ∧
   run_user (get_full_name upd calm r).2 = set_full_name (strip text) (run_user r) ∧
   ∃ c t c', strip text = String c t ∧ is_space c = false ∧
             last_char (strip text) = Some c' ∧ is_space c' = false).
Proof.
  intros upd r text. split; [reflexivity |]. split; [reflexivity |].
  apply (full_name_is_stripped_and_never_blank upd calm r text);
    reflexivity.
Defined.

Lemma get_started_is_for_new_and_rejected_users_witness :
  let w := idle queued in
  let m := button_press 1 in
  registration_state w !! u_id alice = None ∧
  let st := status_of (bot_data w) (u_id alice) in
  let w' := (process_update sample_config calm
               (CallbackUpdate alice "get_started" m) w).1 in
  bot_data w' = bot_data w ∧
  (st = "approved" ∨ st = "pending" → registration_state w' !! u_id alice = None) ∧
  (st ≠ "approved" → st ≠ "pending" →
   registration_state w' !! u_id alice = Some GET_FULL_NAME ∧
   registration_in_progress (session_of w' (u_id alice)) = true).
Proof.
  intros w m. split; [reflexivity |].
  apply (get_started_is_for_new_and_rejected_users sample_config calm alice m w).
  reflexivity.
Defined.

Lemma screenshot_is_recorded_despite_failures_witness :
  let m := photo_message 7 "file-1" in
  let r := fresh_run enrolled cleared in
  m_photo m ≠ [] ∧
  let out := receive_screenshot sample_config (MessageUpdate mallory m) stormy r in
  let lost := fails stormy (run_calls r + length (ADMIN_IDS sample_config)) in
  out.1 = (if lost then Exn else Ok (Some END)) ∧
  run_user out.2 = (if lost then run_user r else cleared) ∧
  status_of (run_bot out.2) (u_id mallory) = "pending" ∧
  (∃ entry,
     pending_reviews (run_bot out.2) !! u_id mallory = Some entry ∧
     Some (pi_screenshot_file_id entry) = last (m_photo m) ∧
     pi_payment_id entry
     = default (unknown_payment_id (u_id mallory) (m_message_id m))
               (payment_id (run_user r)) ∧
     pi_full_name entry = full_name (run_user r) ∧
     pi_semester entry = semester (run_user r) ∧
     pi_stream entry = stream (run_user r) ∧
     user_data (run_bot out.2) !! u_id mallory = Some (pi_user_info entry)) ∧
  pending_comments (run_bot out.2) = pending_comments (run_bot r) ∧
  ∀ u, u ≠ u_id mallory →
       user_statuses (run_bot out.2) !! u = user_statuses (run_bot r) !! u ∧
       pending_reviews (run_bot out.2) !! u = pending_reviews (run_bot r) !! u ∧
       user_data (run_bot out.2) !! u = user_data (run_bot r) !! u.
Proof.
  intros m r. split; [vm_compute; discriminate |].
  apply (screenshot_is_recorded_despite_failures sample_config stormy mallory m r).
  vm_compute; discriminate.
Defined.

Lemma payment_ids_collide_across_users_witness :
  let m1 := button_press 3 in
  let m2 := button_press 23 in
  let r := fresh_run (mkBotData ∅ ∅ ∅ ∅) cleared in
  1 ≤ 4 ∧ 1 ≤ 2 ≤ 9 ∧ 0 ≤ 3 ≤ 9 ∧
  u_id alice = 10 * 4 + 2 ∧ m_message_id m1 = 3 ∧
  u_id bob = 4 ∧ m_message_id m2 = 10 * 2 + 3 ∧
  u_id alice ≠ u_id bob ∧
  payment_id (run_user (get_payment_method
                          (CallbackUpdate alice ("method_" +:+ "CBE") m1) calm r).2)
  = payment_id (run_user (get_payment_method
                            (CallbackUpdate bob ("method_" +:+ "Telebirr") m2) calm r).2) ∧
  is_Some (payment_id (run_user (get_payment_method
                          (CallbackUpdate alice ("method_" +:+ "CBE") m1) calm r).2)).
Proof.
  intros m1 m2 r.
  split; [lia |]. split; [lia |]. split; [lia |].
  split; [reflexivity |]. split; [reflexivity |].
  split; [reflexivity |]. split; [reflexivity |].
  apply (payment_ids_collide_across_users calm calm alice bob m1 m2
           "CBE" "Telebirr" r r 4 2 3);
    [lia | lia | lia | reflexivity ..].
Defined.

Lemma photo_after_cancel_button_submits_blank_witness :
  let m1 := button_press 6 in
  let m2 := photo_message 7 "file-1" in
  let w := alice_at_screenshot in
  last (m_photo m2) = Some "file-1" ∧
  registration_state w !! u_id alice = Some AWAITING_SCREENSHOT ∧
  let w1 := (process_update sample_config calm
               (CallbackUpdate alice "cancel_registration" m1) w).1 in
  let w2 := (process_update sample_config calm (MessageUpdate alice m2) w1).1 in
  status_of (bot_data w2) (u_id alice) = "pending" ∧
  pending_reviews (bot_data w2) !! u_id alice = Some (blank_entry alice m2 "file-1") ∧
  user_data (bot_data w2) !! u_id alice = Some (blank_info alice) ∧
  registration_state w2 !! u_id alice
  = (if fails calm (length (ADMIN_IDS sample_config))
     then Some AWAITING_SCREENSHOT else None).
Proof.
  intros m1 m2 w. split; [reflexivity |]. split; [reflexivity |].
  apply (photo_after_cancel_button_submits_blank sample_config calm calm alice
           m1 m2 w "file-1");
    reflexivity.
Defined.

Lemma reply_removes_the_question_whatever_happens_witness :
  let upd := MessageUpdate the_admin (text_message 10 "On Monday") in
  let r := fresh_run enrolled answering in
  reply_comment_id (run_user r) = Some "comment_42_5" ∧
  "comment_42_5" ≠ "" ∧
  reply_user_id (run_user r) = Some 42 ∧
  42 ≠ 0 ∧
  let out := send_reply_to_user upd stormy r in
  let lost := notice_lost stormy (run_calls r) in
  out.1 = (if lost then Exn else Ok (Some END)) ∧
  run_user out.2 = (if lost then run_user r else cleared) ∧
  pending_comments (run_bot out.2) !! "comment_42_5" = None ∧
  (∀ other, other ≠ "comment_42_5" →
            pending_comments (run_bot out.2) !! other
            = pending_comments (run_bot r) !! other) ∧
  user_statuses (run_bot out.2) = user_statuses (run_bot r) ∧
  pending_reviews (run_bot out.2) = pending_reviews (run_bot r) ∧
  run_log out.2
  = run_log r ++ reply_trace stormy (run_calls r) (run_user r)
                   (m_text (effective_message upd)).
Proof.
  intros upd r. split; [reflexivity |]. split; [discriminate |].
  split; [reflexivity |]. split; [lia |].
  apply (reply_removes_the_question_whatever_happens upd stormy r
           "comment_42_5" 42);
    [reflexivity | discriminate | reflexivity | lia].
Defined.

Lemma reply_reaches_the_asker_witness :
  let question := text_message 5 "When is the exam?" in
  let press := button_press 9 in
  let reply := text_message 10 "On Monday" in
  let r := fresh_run enrolled cleared in
  u_id alice ≠ 0 ∧
  let cid := comment_id_of (u_id alice) (m_message_id question) in
  let r1 := (receive_comment sample_config (MessageUpdate alice question) stormy r).2 in
  let start :=
    reply_to_comment_start (CallbackUpdate the_admin ("reply_" +:+ cid) press) calm
      (fresh_run (run_bot r1) cleared) in
  let out := send_reply_to_user (MessageUpdate the_admin reply) calm
               (fresh_run (run_bot start.2) (run_user start.2)) in
  is_Some (pending_comments (run_bot r1) !! cid) ∧
  start.1 = Ok (Some REPLY_TO_COMMENT) ∧
  reply_user_id (run_user start.2) = Some (u_id alice) ∧
  (∃ rest,
     run_log out.2
     = (send_message (u_id alice)
          (mkText "Reply from ABJ Tutorial"
             [AOpt (asker_name (run_bot r) alice); AOpt (m_text reply)])
          NoMarkup, negb (fails calm 0)) :: rest) ∧
  pending_comments (run_bot out.2) !! cid = None.
Proof.
  intros question press reply r. split; [simpl; lia |].
  apply (reply_reaches_the_asker sample_config stormy calm calm alice question
           the_admin press reply cleared r).
  simpl; lia.
Defined.

Lemma answered_question_cannot_be_answered_again_witness :
  let reply := MessageUpdate the_admin (text_message 10 "On Monday") in
  let press := button_press 9 in
  let r := fresh_run enrolled answering in
  reply_comment_id (run_user r) = Some (comment_id_of 42 5) ∧
  reply_user_id (run_user r) = Some 42 ∧
  42 ≠ 0 ∧
  let r1 := (send_reply_to_user reply stormy r).2 in
  reply_to_comment_start
    (CallbackUpdate the_admin ("reply_" +:+ comment_id_of 42 5) press) calm
    (fresh_run (run_bot r1) cleared)
  = (Ok (Some END),
     mkRun (run_bot r1) cleared
       [(answer None, true);
        (edit_message_text
           (T0 "Comment no longer available or already replied.") NoMarkup, true)]
       0).
Proof.
  intros reply press r. split; [reflexivity |]. split; [reflexivity |].
  split; [lia |].
  apply (answered_question_cannot_be_answered_again stormy calm reply the_admin
           press cleared r 42 5 42);
    [reflexivity | reflexivity | lia].
Defined.

Lemma part_of_ask_question_opens_the_question_flow_witness :
  let m := text_message 6 "on" in
  let w := idle enrolled in
  m_text m = Some "on" ∧
  "on" ≠ "" ∧
  py_in "on" "Ask Question" = true ∧
  registration_state w !! u_id mallory = None ∧
  ask_comment_state w !! u_id mallory = None ∧
  let out := process_update sample_config calm (MessageUpdate mallory m) w in
  ask_comment_state out.1 !! u_id mallory = Some ASK_COMMENT ∧
  bot_data out.1 = bot_data w ∧
  out.2 = [(reply_text (T0 "Ask a Question")
              (InlineKeyboardMarkup [cancel_button "cancel_question"]), true)].
Proof.
  intros m w. split; [reflexivity |]. split; [discriminate |].
  split; [reflexivity |]. split; [reflexivity |]. split; [reflexivity |].
  apply (part_of_ask_question_opens_the_question_flow sample_config calm mallory
           m w "on");
    [reflexivity | discriminate | reflexivity | reflexivity | reflexivity].
Defined.

(** ** When a handler raises *)

(** X20.  Choosing a payment method with a session that lacks the name, the
    semester, the stream or the gender raises: the callback is answered, the
    summary is not shown, the user stays at the payment method step, the bot
    data are untouched, and [error_handler] tries one notification per
    admin, in the order of ADMIN_IDS, a failed one not stopping the rest. *)
Theorem incomplete_session_raises_at_payment_method cfg e from method m w :
  registration_state w !! u_id from = Some GET_PAYMENT_METHOD →
  incomplete (session_of w (u_id from)) →
  let out := process_update cfg e (CallbackUpdate from ("method_" +:+ method) m) w in
  out.2 = (answer None, true) :: admin_alerts cfg e 0 ∧
  registration_state out.1 !! u_id from = Some GET_PAYMENT_METHOD ∧
  bot_data out.1 = bot_data w.
Proof.
  intros Hreg Hinc out. subst out.
  assert (Hsel : select (handlers cfg) w (CallbackUpdate from ("method_" +:+ method) m)
                 = Some (CallbackQueryHandler get_payment_method (StartsWith ["method_"]),
                         Some Registration)).
  { unfold handlers. simpl. rewrite Hreg. simpl. by destruct method. }
  unfold process_update. rewrite Hsel.
  cbn [callback CallbackQueryHandler effective_user u_id].
  assert (Hraise : ∃ s,
            get_payment_method (CallbackUpdate from ("method_" +:+ method) m) e
              (mkRun (bot_data w) (session_of w (u_id from)) [] 0)
            = (Exn, mkRun (bot_data w) s [(answer None, true)] 0)).
  { unfold get_payment_method, second_part. unfold_m.
    cbn -[pretty String.append split_on].
    destruct (split_on "_" ("method_" +:+ method)) as [| a [| b l]];
      [eexists; reflexivity | eexists; reflexivity |].
    cbn -[pretty String.append].
    destruct Hinc as [H | [H | [H | H]]]; rewrite H;
      destruct (full_name (session_of w (u_id from))),
               (semester (session_of w (u_id from))),
               (stream (session_of w (u_id from))),
               (gender (session_of w (u_id from)));
      try discriminate; eexists; reflexivity. }
  destruct Hraise as [s ->]. rewrite error_handler_run. simpl. done.
Qed.

Lemma incomplete_session_raises_at_payment_method_witness :
  let m := button_press 6 in
  let w := alice_at_method in
  registration_state w !! u_id alice = Some GET_PAYMENT_METHOD ∧
  incomplete (session_of w (u_id alice)) ∧
  let out := process_update sample_config stormy
               (CallbackUpdate alice ("method_" +:+ "CBE") m) w in
  out.2 = (answer None, true) :: admin_alerts sample_config stormy 0 ∧
  registration_state out.1 !! u_id alice = Some GET_PAYMENT_METHOD ∧
  bot_data out.1 = bot_data w.
Proof.
  intros m w. split; [reflexivity |]. split; [left; reflexivity |].
  apply (incomplete_session_raises_at_payment_method sample_config stormy alice
           "CBE" m w);
    [reflexivity | left; reflexivity].
Defined.

(** ** The commands inside a conversation *)

Lemma cancel_run_exact cfg upd e r :
  ∃ log,
    cancel cfg upd e r
    = (Ok (Some END), mkRun (run_bot r) cleared (run_log r ++ [log]) (run_calls r)).
Proof.
  unfold cancel. unfold_m. cbn beta iota.
  destruct (is_admin cfg (u_id (effective_user upd)));
    [| destruct (decide (status_of (run_bot r) (u_id (effective_user upd)) = "approved"))];
    simpl; eexists; reflexivity.
Qed.

(** X21.  The command /cancel ends the question and the reply conversation:
    a user with no registration running who is asking a question, or who is
    replying to one and not asking, leaves that conversation, gets one
    reply and has the session cleared; the bot data and the other
    conversations stay as they were.  One /cancel ends one conversation: a
    user who is in both leaves the question only. *)
Theorem cancel_command_ends_question_and_reply cfg e from m w :
  m_text m = Some "/cancel" →
  registration_state w !! u_id from = None →
  is_Some (ask_comment_state w !! u_id from) ∨
  is_Some (reply_comment_state w !! u_id from) →
  let out := process_update cfg e (MessageUpdate from m) w in
  length out.2 = 1%nat ∧
  bot_data out.1 = bot_data w ∧
  session_of out.1 (u_id from) = cleared ∧
  registration_state out.1 = registration_state w ∧
  announcement_state out.1 = announcement_state w ∧
  (is_Some (ask_comment_state w !! u_id from) →
   ask_comment_state out.1 !! u_id from = None ∧
   reply_comment_state out.1 = reply_comment_state w) ∧
  (ask_comment_state w !! u_id from = None →
   reply_comment_state out.1 !! u_id from = None ∧
   ask_comment_state out.1 = ask_comment_state w).
Proof.
  intros Ht Hreg Hconv out. subst out.
  assert (Htext : text_not_command m = false)
    by (unfold text_not_command, filter_TEXT, filter_COMMAND; by rewrite Ht).
  assert (Hq : filter_Text "Ask Question" m = false)
    by (unfold filter_Text; by rewrite Ht).
  assert (Hs : bool_decide (m_text m ≫= command_of = Some "start") = false)
    by (by rewrite Ht).
  assert (Hc : bool_decide (m_text m ≫= command_of = Some "cancel") = true)
    by (by rewrite Ht).
  destruct (ask_comment_state w !! u_id from) as [st |] eqn:Hask.
  - assert (Hsel : select (handlers cfg) w (MessageUpdate from m)
                   = Some (CommandHandler "cancel" (cancel cfg), Some AskComment)).
    { unfold handlers. simpl. rewrite Hreg, Hask.
      unfold conversation_check, state_handlers. simpl.
      do 3 (rewrite ?Hs, ?Hq, ?Htext, ?Hc; simpl).
      destruct (bool_decide (_ = st)); simpl; rewrite ?Htext, ?Hc; reflexivity. }
    unfold process_update. rewrite Hsel.
    cbn [callback CommandHandler MessageHandler effective_user u_id].
    destruct (cancel_run_exact cfg (MessageUpdate from m) e
                (mkRun (bot_data w) (session_of w (u_id from)) [] 0)) as [log ->].
    simpl. repeat split; try done.
    + unfold session_of. simpl. by rewrite lookup_insert_eq.
    + apply lookup_delete_eq.
  - destruct Hconv as [[? [=]] | [st Hrep]].
    assert (Hsel : select (handlers cfg) w (MessageUpdate from m)
                   = Some (CommandHandler "cancel" (cancel cfg), Some ReplyComment)).
    { unfold handlers. simpl. rewrite Hreg, Hask, Hrep.
      unfold conversation_check, state_handlers. simpl.
      do 3 (rewrite ?Hs, ?Hq, ?Htext, ?Hc; simpl).
      destruct (bool_decide (_ = st)); simpl; rewrite ?Htext, ?Hc; reflexivity. }
    unfold process_update. rewrite Hsel.
    cbn [callback CommandHandler MessageHandler effective_user u_id].
    destruct (cancel_run_exact cfg (MessageUpdate from m) e
                (mkRun (bot_data w) (session_of w (u_id from)) [] 0)) as [log ->].
    simpl. repeat split; try done;
      first [ by intros [? [=]]
            | apply lookup_delete_eq
            | unfold session_of; simpl; by rewrite lookup_insert_eq ].
Qed.

Lemma cancel_command_ends_question_and_reply_witness :
  let m := text_message 6 "/cancel" in
  let w := alice_asks in
  m_text m = Some "/cancel" ∧
  registration_state w !! u_id alice = None ∧
  (is_Some (ask_comment_state w !! u_id alice) ∨
   is_Some (reply_comment_state w !! u_id alice)) ∧
  let out := process_update sample_config calm (MessageUpdate alice m) w in
  length out.2 = 1%nat ∧
  bot_data out.1 = bot_data w ∧
  session_of out.1 (u_id alice) = cleared ∧
  registration_state out.1 = registration_state w ∧
  announcement_state out.1 = announcement_state w ∧
  (is_Some (ask_comment_state w !! u_id alice) →
   ask_comment_state out.1 !! u_id alice = None ∧
   reply_comment_state out.1 = reply_comment_state w) ∧
  (ask_comment_state w !! u_id alice = None →
   reply_comment_state out.1 !! u_id alice = None ∧
   ask_comment_state out.1 = ask_comment_state w).
Proof.
  intros m w. split; [reflexivity |]. split; [reflexivity |].
  split; [left; vm_compute; eauto |].
  apply (cancel_command_ends_question_and_reply sample_config calm alice m w);
    [reflexivity | reflexivity | left; vm_compute; eauto].
Defined.

(** X22.  The command /start in the middle of a registration does not start
    over: the user gets the start screen of their status, but stays at the
    step they were at, with what they had entered still in the session. *)
Theorem start_command_keeps_the_registration_step cfg e from m w st :
  m_text m = Some "/start" →
  m_photo m = [] →
  registration_state w !! u_id from = Some st →
  ask_comment_state w !! u_id from = None →
  reply_comment_state w !! u_id from = None →
  announcement_state w !! u_id from = None →
  let out := process_update cfg e (MessageUpdate from m) w in
  out.2 = (start cfg (MessageUpdate from m) e
             (mkRun (bot_data w) (session_of w (u_id from)) [] 0)).2.(run_log) ∧
  length out.2 = 1%nat ∧
  registration_state out.1 = registration_state w ∧
  session_of out.1 (u_id from) = session_of w (u_id from) ∧
  bot_data out.1 = bot_data w.
Proof.
  intros Ht Hp Hreg Hask Hrep Hann out. subst out.
  assert (Htext : text_not_command m = false)
    by (unfold text_not_command, filter_TEXT, filter_COMMAND; by rewrite Ht).
  assert (Hphoto : filter_PHOTO m = false)
    by (unfold filter_PHOTO; by rewrite Hp).
  assert (Hq : filter_Text "Ask Question" m = false)
    by (unfold filter_Text; by rewrite Ht).
  assert (Ha : filter_Text "Send Announcement" m = false)
    by (unfold filter_Text; by rewrite Ht).
  assert (Hs : bool_decide (m_text m ≫= command_of = Some "start") = true)
    by (by rewrite Ht).
  assert (Hc : bool_decide (m_text m ≫= command_of = Some "cancel") = false)
    by (by rewrite Ht).
  assert (Hsel : select (handlers cfg) w (MessageUpdate from m)
                 = Some (CommandHandler "start" (start cfg), None)).
  { unfold handlers. simpl. rewrite Hreg, Hask, Hrep, Hann.
    unfold conversation_check, state_handlers. simpl.
    do 3 (rewrite ?Hs, ?Hq, ?Ha, ?Htext, ?Hc, ?Hphoto; simpl).
    repeat (destruct (bool_decide (_ = st)); simpl;
            rewrite ?Hs, ?Hq, ?Ha, ?Htext, ?Hc, ?Hphoto; simpl);
      reflexivity. }
  unfold process_update. rewrite Hsel.
  cbn [callback CommandHandler MessageHandler effective_user u_id].
  assert (Hrun : ∃ log,
            start cfg (MessageUpdate from m) e
              (mkRun (bot_data w) (session_of w (u_id from)) [] 0)
            = (Ok (Some END),
               mkRun (bot_data w) (session_of w (u_id from)) [log] 0)).
  { unfold start. unfold_m. cbn beta iota. cbn [effective_user u_id run_bot].
    destruct (is_admin cfg (u_id from));
      [| destruct (decide (status_of (bot_data w) (u_id from) = "approved"));
         [| destruct (decide (status_of (bot_data w) (u_id from) = "pending"))]];
      simpl; eexists; reflexivity. }
  destruct Hrun as [log ->]. simpl. repeat split.
  unfold session_of. simpl. by rewrite lookup_insert_eq.
Qed.

Lemma start_command_keeps_the_registration_step_witness :
  let m := text_message 6 "/start" in
  let w := alice_at_semester in
  m_text m = Some "/start" ∧
  m_photo m = [] ∧
  registration_state w !! u_id alice = Some GET_SEMESTER ∧
  ask_comment_state w !! u_id alice = None ∧
  reply_comment_state w !! u_id alice = None ∧
  announcement_state w !! u_id alice = None ∧
  let out := process_update sample_config calm (MessageUpdate alice m) w in
  out.2 = (start sample_config (MessageUpdate alice m) calm
             (mkRun (bot_data w) (session_of w (u_id alice)) [] 0)).2.(run_log) ∧
  length out.2 = 1%nat ∧
  registration_state out.1 = registration_state w ∧
  session_of out.1 (u_id alice) = session_of w (u_id alice) ∧
  bot_data out.1 = bot_data w.
Proof.
  intros m w. split; [reflexivity |]. split; [reflexivity |].
  split; [reflexivity |]. split; [reflexivity |]. split; [reflexivity |].
  split; [reflexivity |].
  apply (start_command_keeps_the_registration_step sample_config calm alice m w
           GET_SEMESTER);
    reflexivity.
Defined.
